(** * mitocheck_data: the extraction driver and the UMAP plotting utilities

    A shallow embedding of
    - [1.idr_streams/streams/dp_streams.py] (module [Driver]), and
    - [utils/analysis_utils.py] (modules [Colors] and [Plots]),
    followed by the properties of the repository's specification, proved
    or refuted on these definitions.

    Python exceptions are results of type [result]; Python dictionaries are
    [gmap]s; class names, hex colours and file names are strings; a value
    of a table is a number, a label or a missing value.  Calls into
    external libraries (UMAP, NumPy's random generator, seaborn's palettes,
    the rounding of a colour channel, the IDR_stream pipeline) are
    parameters of the model. *)

From Stdlib.Strings Require Import Ascii String Byte.
From Stdlib.QArith Require Import QArith_base.
From stdpp Require Import base option list strings gmap sorting.


(** ** Exceptions *)

Inductive exn : Set :=
| ValueError
| IndexError
| KeyError
| NameError
| FileExistsError
| IsADirectoryError
| NotADirectoryError.

Inductive result (A : Type) : Type :=
| Ok (a : A)
| Raise (e : exn).

Arguments Ok {A} a.
Arguments Raise {A} e.

#[global] Instance result_ret : MRet result := λ A a, Ok a.

#[global] Instance result_bind : MBind result := λ A B k m,
  match m with
  | Ok a => k a
  | Raise e => Raise e
  end.

(** ** Python string primitives *)

Module Str.

(** [s.replace(old, new)] for a non-empty [old]: the occurrences of [old]
    are found left to right and do not overlap.  [skip] counts the
    characters of the occurrence just replaced that are still to be
    dropped. *)
Fixpoint replace_from (old new : string) (skip : nat) (s : string) : string :=
  match s with
  | "" => ""
  | String c s' =>
      match skip with
      | S k => replace_from old new k s'
      | O =>
          if String.prefix old s
          then new +:+ replace_from old new (String.length old - 1) s'
          else String c (replace_from old new 0 s')
      end
  end.

(** With an empty [old], Python inserts [new] before every character and
    at the end. *)
Fixpoint interleave (new s : string) : string :=
  match s with
  | "" => new
  | String c s' => new +:+ String c (interleave new s')
  end.

Definition replace (old new s : string) : string :=
  match old with
  | "" => interleave new s
  | _ => replace_from old new 0 s
  end.

(** [old in s] *)
Fixpoint contains (old s : string) : bool :=
  String.prefix old s ||
  match s with
  | "" => false
  | String _ s' => contains old s'
  end.

End Str.

(** ** The extraction driver, [dp_streams.py] *)

Module Driver.

(** A [pathlib.Path] is the sequence of its parts. *)
Abbreviation path := (list string).

Inductive node : Set := File | Dir.

(** The part of the file system the script touches: which paths exist,
    and as what. *)
Abbreviation filesystem := (gmap path node).

Definition is_prefix (p q : path) : bool := bool_decide (p `prefix_of` q).

(** [shutil.rmtree(p, ignore_errors=True)]: a directory goes with
    everything below it; anything that would raise (a missing path, a
    path that is not a directory) is ignored and leaves the file system as
    it is. *)
Definition rmtree_ignore_errors (p : path) (fs : filesystem) : filesystem :=
  match fs !! p with
  | Some Dir => filter (λ kv, is_prefix p kv.1 = false) fs
  | _ => fs
  end.

Definition is_file (fs : filesystem) (p : path) : bool :=
  match fs !! p with
  | Some File => true
  | _ => false
  end.

(** The directories that a path of [n] parts lies in, outermost first:
    [logs] and [logs/x] for [logs/x/dp_idrstream.log]. *)
Definition ancestors (p : path) : list path :=
  (λ n, take n p) <$> seq 1 (length p - 1).

(** [p.unlink(missing_ok=True)]: of the errors of [os.unlink] only
    [FileNotFoundError] is forgiven.  A directory at [p] raises
    [IsADirectoryError]; when nothing is at [p] because one of the
    directories on the way is a regular file, [os.unlink] fails with
    [ENOTDIR] and the call raises [NotADirectoryError]. *)
Definition unlink_missing_ok (p : path) (fs : filesystem) : result filesystem :=
  match fs !! p with
  | Some File => Ok (delete p fs)
  | Some Dir => Raise IsADirectoryError
  | None =>
      if existsb (is_file fs) (ancestors p)
      then Raise NotADirectoryError
      else Ok fs
  end.

(** [p.mkdir(exist_ok=True, parents=True)]: every missing ancestor and
    [p] itself become directories, and directories that exist are left
    alone.  A regular file at [p] raises [FileExistsError] ([exist_ok]
    forgives an existing directory only); a regular file at an ancestor of
    [p] makes [os.mkdir] fail with [ENOTDIR], and the call raises
    [NotADirectoryError]. *)
Fixpoint mkdir_from (done todo : path) (fs : filesystem) : result filesystem :=
  match todo with
  | [] => Ok fs
  | part :: todo' =>
      let here := done ++ [part] in
      match fs !! here with
      | Some File =>
          Raise (match todo' with
                 | [] => FileExistsError
                 | _ :: _ => NotADirectoryError
                 end)
      | _ => mkdir_from here todo' (<[here := Dir]> fs)
      end
  end.

Definition mkdir_parents_exist_ok (p : path) (fs : filesystem) : result filesystem :=
  mkdir_from [] p fs.

(** [Path.parent] *)
Definition parent (p : path) : path := removelast p.

(** Keyword arguments of [stream.run_dp_stream]; [None] is an argument
    that the call does not pass. *)
Record run_args : Set := RunArgs {
  batch_size : Z;
  start_batch : Z;
  batch_nums : list Z;
  extra_metadata : option (list string)
}.

(** What one statement of the loop body does to the outside world. *)
Inductive effect : Set :=
| Print (msg : string)
| Rmtree (p : path) (ignore_errors : bool)
| Unlink (p : path) (missing_ok : bool)
| Mkdir (p : path) (exist_ok parents : bool)
| DeepProfilerRun (idr_id : string) (tmp_dir final_data_dir log : path)
| ReadCsv (p : path) (sep : string) (index_col : Z)
| InitDownloader (aspera_path aspera_key_path screens_path : path)
| InitPreprocessor (fiji_path : path)
| InitSegmentor
| CopyDPFiles (config_path checkpoint_path : path)
| RunDpStream (args : run_args).

(** Module-level constants of the script. *)
Definition locations_dir : path := [".."; ".."; "0.locate_data"; "locations"].
Definition idr_id : string := "idr0013".
Definition aspera_key_path : path := [".."; "stream_files"; "asperaweb_id_dsa.openssh"].
Definition screens_path : path := [".."; "stream_files"; "idr0013-screenA-plates.tsv"].
Definition tmp_dir : path := ["tmp"].
Definition config_path : path :=
  [".."; "stream_files"; "DP_files"; "mitocheck_profiling_config.json"].
Definition checkpoint_path : path :=
  [".."; "stream_files"; "DP_files";
   "efficientnet-b0_weights_tf_dim_ordering_tf_kernels_autoaugment.h5"].

(** [data_locations_path.name.replace("_locations.tsv", "_data")] *)
Definition data_name (file_name : string) : string :=
  Str.replace "_locations.tsv" "_data" file_name.

(** The name is one path component: it comes from a directory entry, and
    the replacement introduces no separator. *)
Definition final_data_dir (name : string) : path :=
  [".."; "extracted_features"; name; "DP_features"].
Definition log_file_path (name : string) : path :=
  ["logs"; name; "dp_idrstream.log"].

(** The two calls of [stream.run_dp_stream]. *)
Definition run_dp_stream_args (name : string) : run_args :=
  if String.eqb name "training_data"
  then RunArgs 3 0 [0%Z] (Some ["object_outlines"])
  else RunArgs 3 0 [0%Z] None.

Section Script.

(** [pathlib.Path.home()] *)
Variable home_dir_path : path.

Definition aspera_path : path := home_dir_path ++ [".aspera"; "ascli"; "sdk"; "ascp"].
Definition fiji_path : path := home_dir_path ++ ["Desktop"; "Fiji.app"].

(** The body of the [for] loop for one directory entry, statement by
    statement. *)
Definition iteration (file_name : string) : list effect :=
  let name := data_name file_name in
  [ Print ("Running IDR_stream DP for " +:+ name);
    Rmtree tmp_dir true;
    Unlink (log_file_path name) true;
    Mkdir (parent (log_file_path name)) true true;
    DeepProfilerRun idr_id tmp_dir (final_data_dir name) (log_file_path name);
    ReadCsv (locations_dir ++ [file_name]) (String "009" "") 0;
    InitDownloader aspera_path aspera_key_path screens_path;
    InitPreprocessor fiji_path;
    InitSegmentor;
    CopyDPFiles config_path checkpoint_path;
    RunDpStream (run_dp_stream_args name) ].

(** [sorted(locations_dir.iterdir())]: entries of one directory are
    ordered by their names. *)
Definition sorted_entries (entries : list string) : list string :=
  merge_sort String.le entries.

(** The loop: one iteration per directory entry. *)
Definition driver (entries : list string) : list (list effect) :=
  map iteration (sorted_entries entries).

(** The semantics of the script's own file-system statements, with the
    flags the script passes; the calls into the IDR_stream library are
    given by [pipeline]. *)
Variable pipeline : effect → filesystem → result filesystem.

Definition exec_effect (e : effect) (fs : filesystem) : result filesystem :=
  match e with
  | Print _ => Ok fs
  | Rmtree p true => Ok (rmtree_ignore_errors p fs)
  | Unlink p true => unlink_missing_ok p fs
  | Mkdir p true true => mkdir_parents_exist_ok p fs
  | _ => pipeline e fs
  end.

Fixpoint exec (es : list effect) (fs : filesystem) : result filesystem :=
  match es with
  | [] => Ok fs
  | e :: es' => fs' ← exec_effect e fs; exec es' fs'
  end.

End Script.

End Driver.

(** ** Loops with exceptions *)

(** [for x in xs: s = body(s, x)], leaving the loop at the first
    exception. *)
Fixpoint for_each {A S : Type} (body : S → A → result S) (xs : list A) (s : S)
    : result S :=
  match xs with
  | [] => Ok s
  | x :: xs' => s' ← body s x; for_each body xs' s'
  end.

(** [enumerate(xs)] *)
Definition enumerate {A : Type} (xs : list A) : list (nat * A) :=
  zip (seq 0 (length xs)) xs.

(** [xs[i]] on a Python list or tuple, for [i >= 0]. *)
Definition getitem {A : Type} (xs : list A) (i : nat) : result A :=
  match xs !! i with
  | Some x => Ok x
  | None => Raise IndexError
  end.

(** ** Class colours, [analysis_utils.get_class_colors] *)

Module Colors.

(** A palette colour as seaborn returns it: a triple of floats of the 0-1
    range.  [num] is the type of the floats. *)
Record rgb (num : Type) : Type := RGB { red : num; green : num; blue : num }.

Arguments RGB {num} red green blue.
Arguments red {num} r.
Arguments green {num} r.
Arguments blue {num} r.

#[global] Instance byte_eq_dec : EqDecision byte := Byte.byte_eq_dec.

#[global] Instance rgb_eq_dec {num : Type} `{!EqDecision num} : EqDecision (rgb num).
Proof. solve_decision. Defined.

Definition hex_digit (n : N) : ascii :=
  match n with
  | 0 => "0" | 1 => "1" | 2 => "2" | 3 => "3" | 4 => "4" | 5 => "5"
  | 6 => "6" | 7 => "7" | 8 => "8" | 9 => "9" | 10 => "a" | 11 => "b"
  | 12 => "c" | 13 => "d" | 14 => "e" | _ => "f"
  end%N%char.

(** [format(v, "02x")] for a channel value *)
Definition hex2 (b : byte) : string :=
  let n := Byte.to_N b in
  String (hex_digit (n / 16)) (String (hex_digit (n mod 16)) "").

Section Rgb2Hex.

Context {num : Type}.

(** [round(val * 255)] for a channel value [val] of the 0-1 range, as
    Python computes it in floating point: 256 values for all the floats
    of the range, so that different channel values can print alike. *)
Variable round255 : num → byte.

(** [matplotlib.colors.rgb2hex]:
    ["#" + "".join(format(round(val * 255), "02x") for val in c)] *)
Definition rgb2hex (c : rgb num) : string :=
  String "#" (hex2 (round255 (red c)) +:+ hex2 (round255 (green c))
              +:+ hex2 (round255 (blue c))).

End Rgb2Hex.

Definition is_hex_digit (a : ascii) : bool :=
  bool_decide (a ∈ list_ascii_of_string "0123456789abcdef").

(** A string of the form [#rrggbb]. *)
Definition is_hex_color (s : string) : bool :=
  match s with
  | String "#" digits =>
      bool_decide (String.length digits = 6)
      && forallb is_hex_digit (list_ascii_of_string digits)
  | _ => false
  end.

(** [int(digits, 16)] for two digits *)
Definition digit_val (a : ascii) : N :=
  match a with
  | "0" => 0 | "1" => 1 | "2" => 2 | "3" => 3 | "4" => 4 | "5" => 5
  | "6" => 6 | "7" => 7 | "8" => 8 | "9" => 9 | "a" => 10 | "b" => 11
  | "c" => 12 | "d" => 13 | "e" => 14 | _ => 15
  end%char%N.

Definition hex2_val (digits : string) : N :=
  match digits with
  | String a (String b "") => 16 * digit_val a + digit_val b
  | _ => 0
  end%N.

Section GetClassColors.

Context {num : Type}.

Variable round255 : num → byte.

(** [sns.color_palette(palette, n_colors)] *)
Variable color_palette : string → nat → list (rgb num).

Definition get_class_colors (classes_list : list string) (palette : string)
    : result (gmap string string) :=
  let cmap := color_palette palette (length classes_list) in
  for_each
    (λ (class_colors : gmap string string) '(index, class_name),
       c ← getitem cmap index;
       Ok (<[class_name := rgb2hex round255 c]> class_colors))
    (enumerate classes_list) ∅.

End GetClassColors.

(** [i] is the last position of [cls] in [classes]. *)
Definition last_position (classes : list string) (cls : string) (i : nat) : Prop :=
  classes !! i = Some cls ∧ ∀ j, i < j → classes !! j ≠ Some cls.

(** In the examples a float is the rational number it stands for, and the
    channel values are multiples of 1/256, on which the floating-point
    product with 255 is exact.  [round] is Python's: to the nearest
    integer, a tie to the even one. *)
#[global] Instance Q_eq_dec : EqDecision Q.
Proof. solve_decision. Defined.

Definition round_half_even (q : Q) : Z :=
  let d := Z.pos (Qden q) in
  let below := (Qnum q / d)%Z in
  match (2 * (Qnum q mod d) ?= d)%Z with
  | Lt => below
  | Gt => (below + 1)%Z
  | Eq => if Z.even below then below else (below + 1)%Z
  end.

Definition example_round255 (val : Q) : byte :=
  default x00 (Byte.of_N (Z.to_N (round_half_even (Qmult val (Qmake 255 1))))).

(** A palette for the examples: [n] colours on a ramp from blue to red. *)
Definition ramp_palette (palette : string) (n : nat) : list (rgb Q) :=
  (λ i, RGB (Qmake (Z.of_nat i) 256) (Qmake 0 1) (Qmake (256 - Z.of_nat i) 256))
    <$> seq 0 n.

(** A palette of two reds, 0.5 and 0.50390625, that differ by less than
    the 8 bits of a hex string tell. *)
Definition two_reds_palette (palette : string) (n : nat) : list (rgb Q) :=
  take n [RGB (Qmake 1 2) (Qmake 0 1) (Qmake 0 1);
          RGB (Qmake 129 256) (Qmake 0 1) (Qmake 0 1)].

End Colors.

(** ** Embeddings and scatter plots, [analysis_utils.py] *)

Module Plots.

Section Plots.

(** The type of the floating-point numbers that the code only passes
    along: coordinates, random draws, opacity. *)
Context {num : Type} `{!EqDecision num}.

(** A two-dimensional [np.ndarray]. *)
Record ndarray : Type := NDArray {
  shape0 : nat;
  shape1 : nat;
  item : nat → nat → num
}.

(** [np.transpose] *)
Definition transpose (a : ndarray) : ndarray :=
  {| shape0 := shape1 a; shape1 := shape0 a; item := λ i j, item a j i |}.

(** [a[i]], for [i >= 0]: the [i]-th row. *)
Definition row (a : ndarray) (i : nat) : result (list num) :=
  if decide (i < shape0 a)
  then Ok (item a i <$> seq 0 (shape1 a))
  else Raise IndexError.

(** The two missing values of a column of labels: [None] and [nan]. *)
Inductive missing : Set := NoneValue | NaN.

#[global] Instance missing_eq_dec : EqDecision missing.
Proof. solve_decision. Defined.

(** A value in a table: a number (other than [nan]), a categorical label,
    or a missing value. *)
Inductive cell : Type :=
| Num (x : num)
| Label (s : string)
| Missing (m : missing).

#[global] Instance cell_eq_dec : EqDecision cell.
Proof. solve_decision. Defined.

Definition is_missing (v : cell) : bool :=
  match v with
  | Missing _ => true
  | _ => false
  end.

(** [pd.Series] *)
Record Series (A : Type) : Type := MkSeries {
  name : string;
  index : list nat;
  values : list A
}.
Arguments MkSeries {A}.
Arguments name {A}.
Arguments index {A}.
Arguments values {A}.

Definition tolist {A : Type} (s : Series A) : list A := values s.

(** [Series.unique()]: the distinct values in order of first appearance.
    Its hash table holds [None] once and [nan] once, so the missing values
    are told apart like any other value here. *)
Fixpoint unique_from {A : Type} `{!EqDecision A} (seen : list A) (l : list A)
    : list A :=
  match l with
  | [] => []
  | x :: l' =>
      if decide (x ∈ seen) then unique_from seen l'
      else x :: unique_from (x :: seen) l'
  end.

Definition unique {A : Type} `{!EqDecision A} (l : list A) : list A :=
  unique_from [] l.

(** [pd.DataFrame]: a row index and the columns in order. *)
Record DataFrame : Type := MkDataFrame {
  df_index : list nat;
  columns : list (string * list cell)
}.

(** [pd.DataFrame(a, columns=names)] *)
Definition DataFrame_of_array (a : ndarray) (names : list string)
    : result DataFrame :=
  if decide (length names = shape1 a)
  then Ok {| df_index := seq 0 (shape0 a);
             columns :=
               imap (λ j c, (c, (λ i, Num (item a i j)) <$> seq 0 (shape0 a)))
                    names |}
  else Raise ValueError.

Fixpoint assign (key : string) (vs : list cell) (cols : list (string * list cell))
    : list (string * list cell) :=
  match cols with
  | [] => [(key, vs)]
  | (k, old) :: cols' =>
      if decide (k = key) then (k, vs) :: cols'
      else (k, old) :: assign key vs cols'
  end.

(** [df[key] = vs] for a list [vs]: an existing column is overwritten in
    place, a new one is appended; the list has to be as long as the
    index.  (A frame without rows would be re-indexed by pandas instead;
    it is reported as [ValueError] here, too.) *)
Definition setitem (df : DataFrame) (key : string) (vs : list cell)
    : result DataFrame :=
  if decide (length vs = length (df_index df))
  then Ok {| df_index := df_index df; columns := assign key vs (columns df) |}
  else Raise ValueError.

Fixpoint lookup_column (key : string) (cols : list (string * list cell))
    : option (list cell) :=
  match cols with
  | [] => None
  | (k, vs) :: cols' => if decide (k = key) then Some vs else lookup_column key cols'
  end.

(** [df[key]] *)
Definition column (df : DataFrame) (key : string) : result (Series cell) :=
  match lookup_column key (columns df) with
  | Some vs => Ok (MkSeries key (df_index df) vs)
  | None => Raise KeyError
  end.

Fixpoint filter_mask {A : Type} (mask : list bool) (l : list A) : list A :=
  match mask, l with
  | b :: mask', x :: l' =>
      if b then x :: filter_mask mask' l' else filter_mask mask' l'
  | _, _ => []
  end.

(** [df.loc[mask]] for a boolean mask over the rows *)
Definition loc (df : DataFrame) (mask : list bool) : DataFrame :=
  {| df_index := filter_mask mask (df_index df);
     columns := (λ kv, (kv.1, filter_mask mask kv.2)) <$> columns df |}.

(** [x == v] as pandas compares the elements of a column with a scalar:
    a missing value equals nothing, not even a missing value. *)
Definition cell_eqb (x v : cell) : bool :=
  match x, v with
  | Missing _, _ | _, Missing _ => false
  | _, _ => bool_decide (x = v)
  end.

(** [series == v] *)
Definition eq_mask (s : Series cell) (v : cell) : list bool :=
  (λ x, cell_eqb x v) <$> values s.

(** What a Python function hands back to its caller. *)
Inductive pyvalue : Type :=
| PyNone
| PyDataFrame (df : DataFrame).

(** *** External libraries *)

(** [umap.UMAP(random_state=.., n_components=..).fit_transform(data)] *)
Variable fit_transform : ∀ (random_state n_components : nat), ndarray → result ndarray.

(** [np.random.rand(n)] is the first [n] draws of the generator. *)
Variable random_sample : nat → num.

Definition np_random_rand (n : nat) : list num := random_sample <$> seq 0 n.

(** *** [get_2D_umap_embeddings] *)

Definition get_2D_umap_embeddings (feature_data : ndarray) (random_state : nat)
    : result (list num * list num) :=
  embedding ← fit_transform random_state 2 feature_data;
  let embedding := transpose embedding in
  x_data ← row embedding 0;
  y_data ← row embedding 1;
  Ok (x_data, y_data).

(** *** [show_2D_umap_from_embeddings] *)

(** The figure drawn by [sns.scatterplot] and the calls that follow it. *)
Record hue_plot (A : Type) : Type := HuePlot {
  hp_palette : string;
  hp_x : list num;
  hp_y : list num;
  hp_hue : list A;
  hp_alpha : num;
  hp_linewidth : Z;
  hp_s : Z;
  hp_legend_title : string;
  hp_xlabel : string;
  hp_ylabel : string;
  hp_title : string;
  hp_savefig : option string
}.

Arguments HuePlot {A}.
Arguments hp_palette {A}.
Arguments hp_x {A}.
Arguments hp_y {A}.
Arguments hp_hue {A}.
Arguments hp_alpha {A}.
Arguments hp_linewidth {A}.
Arguments hp_s {A}.
Arguments hp_legend_title {A}.
Arguments hp_xlabel {A}.
Arguments hp_ylabel {A}.
Arguments hp_title {A}.
Arguments hp_savefig {A}.

(** [sns.scatterplot] puts its vectors into one table and raises when
    their lengths differ.  The metadata are only passed along, whatever
    their type [A]. *)
Definition show_2D_umap_from_embeddings {A : Type} (x_data y_data : list num)
    (metadata_series : Series A) (save_path : option string)
    (point_size : Z) (alpha : num) (palette : string)
    : result (hue_plot A * pyvalue) :=
  let hue := tolist metadata_series in
  if decide (length x_data = length y_data ∧ length x_data = length hue)
  then Ok ({| hp_palette := palette; hp_x := x_data; hp_y := y_data;
              hp_hue := hue; hp_alpha := alpha; hp_linewidth := 0;
              hp_s := point_size; hp_legend_title := name metadata_series;
              hp_xlabel := "UMAP 1"; hp_ylabel := "UMAP 2";
              hp_title := "2 Dimensional UMAP"; hp_savefig := save_path |},
           PyNone)
  else Raise ValueError.

(** *** The class-coloured plots *)

(** [matplotlib.lines.Line2D], with the keyword arguments of the code. *)
Record Line2D : Set := MkLine2D {
  xdata : list Z;
  ydata : list Z;
  marker : string;
  line_color : string;
  label : string;
  markerfacecolor : string;
  markersize : Z
}.

Definition legend_handle (lbl mfc : string) : Line2D :=
  {| xdata := [0%Z]; ydata := [0%Z]; marker := "o"; line_color := "w";
     label := lbl; markerfacecolor := mfc; markersize := 10 |}.

(** One call of [ax.scatter]: a coordinate series per axis. *)
Record scatter_call : Type := Scatter {
  coords : list (Series cell);
  c : string;
  scatter_marker : string;
  scatter_alpha : num;
  s : Z
}.

(** The variables that the loop over the classes updates; [color] is
    unbound before the first iteration. *)
Record loop_state : Type := LoopState {
  legend_elements : list Line2D;
  other_classes_exist : bool;
  color : option string;
  scatter_calls : list scatter_call
}.

(** [metadata_class in class_colors.keys()], with [class_colors[..]]: the
    keys of the colour map are class names, so that a number or a missing
    value is no key. *)
Definition class_color (class_colors : gmap string string) (metadata_class : cell)
    : option string :=
  match metadata_class with
  | Label l => class_colors !! l
  | Num _ | Missing _ => None
  end.

(** The label a mapped class is shown with: its key. *)
Definition class_label (metadata_class : cell) : string :=
  match metadata_class with
  | Label l => l
  | Num _ | Missing _ => ""
  end.

Section Loop.

(** The three plotting functions run the same loop over the classes;
    they differ in the columns [axes] that they hand to [ax.scatter]. *)
Variable axes : list string.
Variable embedding : DataFrame.
Variable metadata_name : string.
Variable class_colors : gmap string string.
Variable alpha : num.
Variable point_size : Z.

(** The body of [for index, metadata_class in enumerate(...)] *)
Definition plot_class (st : loop_state) (metadata_class : cell)
    : result loop_state :=
  labels ← column embedding metadata_name;
  let class_embedding := loc embedding (eq_mask labels metadata_class) in
  xyz ← mapM (column class_embedding) axes;
  let '(handles, other, col) :=
    match class_color class_colors metadata_class with
    | Some col =>
        (legend_elements st ++ [legend_handle (class_label metadata_class) col],
         other_classes_exist st, col)
    | None => (legend_elements st, true, "#808080")
    end in
  Ok {| legend_elements := handles;
        other_classes_exist := other;
        color := Some col;
        scatter_calls :=
          scatter_calls st ++ [Scatter xyz col "o" alpha point_size] |}.

(** The loop, and the "Other" handle that follows it. *)
Definition plot_classes : result (list scatter_call * list Line2D) :=
  labels ← column embedding metadata_name;
  st ← for_each plot_class (unique (values labels))
         {| legend_elements := []; other_classes_exist := false;
            color := None; scatter_calls := [] |};
  legend ←
    (if other_classes_exist st
     then col ← from_option Ok (Raise NameError) (color st);
          Ok (legend_elements st ++ [legend_handle "Other" col])
     else Ok (legend_elements st));
  Ok (scatter_calls st, legend).

End Loop.

(** *** Closed forms of what the loop computes

    These are not code: the lemmas below relate them to [plot_classes]. *)

(** The rows of the table whose label is [cls]. *)
Definition class_rows (labels : list cell) (rows : list nat) (cls : cell)
    : list nat :=
  filter_mask ((λ x, cell_eqb x cls) <$> labels) rows.


(** The legend handles of the classes that have a colour, in loop order. *)
Definition class_handles (class_colors : gmap string string) (classes : list cell)
    : list Line2D :=
  omap (λ cls, legend_handle (class_label cls) <$> class_color class_colors cls)
       classes.

Definition any_unmapped (class_colors : gmap string string) (classes : list cell)
    : bool :=
  existsb (λ cls, bool_decide (class_color class_colors cls = None)) classes.

(** The colour a class is drawn with. *)
Definition drawn_color (class_colors : gmap string string) (cls : cell) : string :=
  default "#808080" (class_color class_colors cls).

(** The value of the variable [color] after the loop over [classes]. *)
Definition color_after (class_colors : gmap string string) (classes : list cell)
    : option string :=
  drawn_color class_colors <$> last classes.

(** The names of the coordinate columns of an embedding. *)
Definition umap_columns (n_components : nat) : list string :=
  take n_components ["UMAP1"; "UMAP2"; "UMAP3"].

(** The [j]-th column of an array, as a column of a table. *)
Definition array_column (a : ndarray) (j : nat) : list cell :=
  (λ i, Num (item a i j)) <$> seq 0 (shape0 a).

(** The columns each plotting function hands to [ax.scatter]. *)
Definition plot_axes (n_components : nat) : list string :=
  match n_components with
  | 1 => ["UMAP1"; "y_distribution"]
  | 2 => ["UMAP1"; "UMAP2"]
  | _ => ["UMAP1"; "UMAP2"; "UMAP3"]
  end.

(** The column that the loop of a plotting function reads its classes
    from: the labels of the metadata series -- unless the series is named
    like the helper column [y_distribution] of the one-dimensional plot,
    which then overwrites the labels with its random numbers. *)
Definition loop_labels (random_sample : nat → num) (n_components : nat)
    (feature_data : ndarray) (metadata_series : Series cell) : list cell :=
  if decide (n_components = 1 ∧ name metadata_series = "y_distribution")
  then Num <$> (random_sample <$> seq 0 (shape0 feature_data))
  else values metadata_series.

(** What a call of the reducer returns, as far as the code relies on it:
    an array with a row per observation and a column per component. *)
Definition reduced_to (n_components : nat) (feature_data reduced : ndarray)
    : Prop :=
  fit_transform 0 n_components feature_data = Ok reduced
  ∧ shape0 reduced = shape0 feature_data
  ∧ shape1 reduced = n_components.

(** Every column of the table is as long as its index. *)
Definition rectangular (df : DataFrame) : Prop :=
  Forall (λ kv, length kv.2 = length (df_index df)) (columns df).

(** The handle that follows the loop. *)
Definition other_handle (class_colors : gmap string string) (classes : list cell)
    : list Line2D :=
  if any_unmapped class_colors classes
  then from_option (λ col, [legend_handle "Other" col]) []
                   (color_after class_colors classes)
  else [].

(** The rows a call of [ax.scatter] draws. *)
Definition rows_of (call : scatter_call) : list nat :=
  match coords call with
  | xs :: _ => index xs
  | [] => []
  end.

(** [call] is the call of [ax.scatter] for the class [cls] of a table with
    the given rows and labels. *)
Definition draws_class (axes : list string) (class_colors : gmap string string)
    (alpha : num) (point_size : Z) (rows : list nat) (labels : list cell)
    (cls : cell) (call : scatter_call) : Prop :=
  name <$> coords call = axes
  ∧ Forall (λ xs, index xs = class_rows labels rows cls) (coords call)
  ∧ c call = drawn_color class_colors cls
  ∧ scatter_marker call = "o"
  ∧ scatter_alpha call = alpha
  ∧ s call = point_size.

(** A legend shows the label [lbl]. *)
Definition has_label (lbl : string) (handles : list Line2D) : Prop :=
  ∃ h, h ∈ handles ∧ label h = lbl.

(** What [plt.show()] displays. *)
Record figure : Type := Figure {
  scatters : list scatter_call;
  legend : list Line2D;
  axis_labels : list string;
  title : string;
  savefig : option string
}.

(** The table [embedding] that each plotting function builds before it
    draws. *)
Definition embedding_1D (feature_data : ndarray) (metadata_series : Series cell)
    : result DataFrame :=
  reduced ← fit_transform 0 1 feature_data;
  embedding ← DataFrame_of_array reduced ["UMAP1"];
  embedding ← setitem embedding (name metadata_series) (tolist metadata_series);
  let y_distribution := np_random_rand (shape0 feature_data) in
  setitem embedding "y_distribution" (Num <$> y_distribution).

Definition embedding_2D (feature_data : ndarray) (metadata_series : Series cell)
    : result DataFrame :=
  reduced ← fit_transform 0 2 feature_data;
  embedding ← DataFrame_of_array reduced ["UMAP1"; "UMAP2"];
  setitem embedding (name metadata_series) (tolist metadata_series).

Definition embedding_3D (feature_data : ndarray) (metadata_series : Series cell)
    : result DataFrame :=
  reduced ← fit_transform 0 3 feature_data;
  embedding ← DataFrame_of_array reduced ["UMAP1"; "UMAP2"; "UMAP3"];
  setitem embedding (name metadata_series) (tolist metadata_series).

Definition show_1D_umap (feature_data : ndarray) (metadata_series : Series cell)
    (class_colors : gmap string string) (save_path : option string)
    (point_size : Z) (alpha : num) : result (figure * pyvalue) :=
  embedding ← embedding_1D feature_data metadata_series;
  drawn ← plot_classes ["UMAP1"; "y_distribution"] embedding
             (name metadata_series) class_colors alpha point_size;
  Ok (Figure drawn.1 drawn.2 ["UMAP 1"; "Random Distribution"]
             "1 Dimensional UMAP" save_path,
      PyNone).

Definition show_2D_umap (feature_data : ndarray) (metadata_series : Series cell)
    (class_colors : gmap string string) (save_path : option string)
    (point_size : Z) (alpha : num) : result (figure * pyvalue) :=
  embedding ← embedding_2D feature_data metadata_series;
  drawn ← plot_classes ["UMAP1"; "UMAP2"] embedding
             (name metadata_series) class_colors alpha point_size;
  Ok (Figure drawn.1 drawn.2 ["UMAP 1"; "UMAP 2"]
             "2 Dimensional UMAP" save_path,
      PyDataFrame embedding).

Definition show_3D_umap (feature_data : ndarray) (metadata_series : Series cell)
    (class_colors : gmap string string) (save_path : option string)
    (point_size : Z) (alpha : num) : result (figure * pyvalue) :=
  embedding ← embedding_3D feature_data metadata_series;
  drawn ← plot_classes ["UMAP1"; "UMAP2"; "UMAP3"] embedding
             (name metadata_series) class_colors alpha point_size;
  Ok (Figure drawn.1 drawn.2 ["UMAP 1"; "UMAP 2"; "UMAP 3"]
             "3 Dimensional UMAP" save_path,
      PyNone).

(** The three class-coloured plotting functions and the tables they
    build, each with the number of components it asks of UMAP. *)
Definition class_colored_plots :=
  [(1, show_1D_umap); (2, show_2D_umap); (3, show_3D_umap)].

Definition class_colored_embeddings :=
  [(1, embedding_1D); (2, embedding_2D); (3, embedding_3D)].

End Plots.

Arguments MkSeries {A}.
Arguments name {A}.
Arguments index {A}.
Arguments values {A}.
Arguments ndarray num : clear implicits.
Arguments cell num : clear implicits.
Arguments DataFrame num : clear implicits.
Arguments pyvalue num : clear implicits.
Arguments hue_plot num A : clear implicits.
Arguments HuePlot {num A}.
Arguments hp_palette {num A}.
Arguments hp_x {num A}.
Arguments hp_y {num A}.
Arguments hp_hue {num A}.
Arguments hp_alpha {num A}.
Arguments hp_linewidth {num A}.
Arguments hp_s {num A}.
Arguments hp_legend_title {num A}.
Arguments hp_xlabel {num A}.
Arguments hp_ylabel {num A}.
Arguments hp_title {num A}.
Arguments hp_savefig {num A}.
Arguments scatter_call num : clear implicits.
Arguments loop_state num : clear implicits.
Arguments figure num : clear implicits.

(** A reducer for the examples: it keeps the first [n_components] feature
    columns. *)
Definition first_columns {num : Type} (random_state n_components : nat)
    (data : ndarray num) : result (ndarray num) :=
  Ok {| shape0 := shape0 data; shape1 := n_components; item := item data |}.

(** Data for the examples: three observations with four features, and
    the draws of a generator. *)
Definition example_features : ndarray Z :=
  {| shape0 := 3; shape1 := 4; item := λ i j, Z.of_nat (10 * i + j) |}.

Definition example_draws (i : nat) : Z := Z.of_nat (7 * i).

Definition example_series (series_name : string) (labels : list string)
    : Series (cell Z) :=
  MkSeries series_name (seq 0 (length labels)) (Label <$> labels).

End Plots.

(** ** The calls of [ax.scatter], in closed form *)

Module PlotCalls.
Import Plots.

Section Calls.

Context {num : Type} `{!EqDecision num}.

(** [class_embedding[axis]] for the class [cls] of a table whose label
    column is [labels]: the rows of the class, with their values in the
    column [axis]. *)
Definition class_series (embedding : DataFrame num) (labels : list (cell num))
    (cls : cell num) (axis : string) : Series (cell num) :=
  let mask := (λ x, cell_eqb x cls) <$> labels in
  MkSeries axis
    (filter_mask mask (df_index embedding))
    (filter_mask mask (default [] (lookup_column axis (columns embedding)))).

(** The call of [ax.scatter] that the loop makes for the class [cls]. *)
Definition class_call (axes : list string) (embedding : DataFrame num)
    (labels : list (cell num)) (class_colors : gmap string string)
    (alpha : num) (point_size : Z) (cls : cell num) : scatter_call num :=
  Scatter (class_series embedding labels cls <$> axes)
          (drawn_color class_colors cls) "o" alpha point_size.

End Calls.

End PlotCalls.

(** ** The notebook, [raw_data_umaps.py] *)

Module Notebook.
Import Plots.

(** The metadata part of the feature table: a row index and columns of
    labels. *)
Record metadata_frame : Set := MetadataFrame {
  md_index : list nat;
  md_columns : list (string * list string)
}.

Fixpoint lookup_labels (key : string) (cols : list (string * list string))
    : option (list string) :=
  match cols with
  | [] => None
  | (k, labels) :: cols' =>
      if decide (k = key) then Some labels else lookup_labels key cols'
  end.

(** [metadata_dataframe[metadata_field]] *)
Definition metadata_column (metadata_dataframe : metadata_frame)
    (metadata_field : string) : result (Series string) :=
  match lookup_labels metadata_field (md_columns metadata_dataframe) with
  | Some labels => Ok (MkSeries metadata_field (md_index metadata_dataframe) labels)
  | None => Raise KeyError
  end.

Definition metadata_fields : list string :=
  ["Metadata_Plate"; "Metadata_Well"; "Metadata_Frame"; "Metadata_Gene"].

Section Cells.

Context {num : Type}.
Variable fit_transform : nat → nat → ndarray num → result (ndarray num).

(** The default opacity, [alpha = 1]. *)
Variable one : num.

(** [for metadata_field in fields: show_2D_umap_from_embeddings(x_data,
    y_data, metadata_dataframe[metadata_field])], with the keyword
    arguments at their defaults; the figures drawn are collected in
    order. *)
Definition plot_fields (fields : list string) (x_data y_data : list num)
    (metadata_dataframe : metadata_frame) : result (list (hue_plot num string)) :=
  for_each
    (λ plots metadata_field,
       metadata ← metadata_column metadata_dataframe metadata_field;
       shown ← show_2D_umap_from_embeddings x_data y_data metadata None 5 one
                  "bright";
       Ok (plots ++ [shown.1]))
    fields [].

(** One cell of the notebook, from the two tables that [split_data]
    returns: the embedding is computed once and drawn once per metadata
    field. *)
Definition umap_cell (metadata_dataframe : metadata_frame)
    (feature_data : ndarray num) : result (list (hue_plot num string)) :=
  xy ← get_2D_umap_embeddings fit_transform feature_data 0;
  plot_fields metadata_fields xy.1 xy.2 metadata_dataframe.

(** What the loop over the fields leaves on the screen: the figures drawn
    before it ended, and the exception that ended it, if one did.  A
    figure is drawn by the call that returns it, so the figures of the
    fields before an exception stay. *)
Fixpoint plot_fields_shown (fields : list string) (x_data y_data : list num)
    (metadata_dataframe : metadata_frame)
    : list (hue_plot num string) * option exn :=
  match fields with
  | [] => ([], None)
  | metadata_field :: fields' =>
      match metadata ← metadata_column metadata_dataframe metadata_field;
            show_2D_umap_from_embeddings x_data y_data metadata None 5 one "bright"
      with
      | Ok shown =>
          let rest := plot_fields_shown fields' x_data y_data metadata_dataframe in
          (shown.1 :: rest.1, rest.2)
      | Raise e => ([], Some e)
      end
  end.

(** The same for a whole cell. *)
Definition umap_cell_shown (metadata_dataframe : metadata_frame)
    (feature_data : ndarray num) : list (hue_plot num string) * option exn :=
  match get_2D_umap_embeddings fit_transform feature_data 0 with
  | Ok xy => plot_fields_shown metadata_fields xy.1 xy.2 metadata_dataframe
  | Raise e => ([], Some e)
  end.

(** The figure of a metadata field, as the notebook draws it: the given
    coordinates, coloured by the labels of the field it is titled with,
    with the default palette, point size and opacity, and not saved. *)
Definition drawn_for_field (metadata_dataframe : metadata_frame)
    (x_data y_data : list num) (plot : hue_plot num string) : Prop :=
  hp_x plot = x_data ∧ hp_y plot = y_data
  ∧ lookup_labels (hp_legend_title plot) (md_columns metadata_dataframe)
    = Some (hp_hue plot)
  ∧ hp_palette plot = "bright" ∧ hp_s plot = 5%Z ∧ hp_alpha plot = one
  ∧ hp_savefig plot = None.

End Cells.

(** A metadata table for the examples, in shuffled row order. *)
Definition example_metadata : metadata_frame :=
  MetadataFrame [2; 0; 1]
    [("Metadata_Plate", ["LT0001"; "LT0001"; "LT0002"]);
     ("Metadata_Well", ["A1"; "B2"; "A1"]);
     ("Metadata_Frame", ["1"; "1"; "7"]);
     ("Metadata_Gene", ["KIF11"; "INCENP"; "KIF11"])].

End Notebook.

(* ------------------------------------------------------------------ *)
(** * Properties *)


Module StrFacts.
Import Str.

Lemma app_cons c (s t : string) : String c s +:+ t = String c (s +:+ t).
Proof. reflexivity. Qed.

Lemma prefix_app_cases p b t :
  String.prefix p (b +:+ t) = true →
  String.prefix p b = true ∨ ∃ p', p = b +:+ p' ∧ String.prefix p' t = true.
Proof.
  revert p. induction b as [|c b IH]; intros p Hp.
  - right. exists p. split; [reflexivity | exact Hp].
  - destruct p as [|a p]; [left; reflexivity|].
    rewrite app_cons in Hp. cbn in Hp |- *.
    destruct (ascii_dec a c) as [->|]; [|discriminate].
    destruct (IH _ Hp) as [H | (p' & -> & H)]; [left; exact H|].
    right. exists p'. split; [reflexivity | exact H].
Qed.

Lemma prefix_refl s : String.prefix s s = true.
Proof.
  induction s as [|c s IH]; [reflexivity|].
  cbn. destruct (ascii_dec c c); [exact IH | congruence].
Qed.

Lemma app_empty_r (s : string) : s +:+ "" = s.
Proof. induction s as [|c s IH]; [reflexivity|]. rewrite app_cons. by f_equal. Qed.

(** The pattern the driver replaces has no border: none of its proper
    non-empty suffixes is one of its prefixes, so an occurrence cannot
    begin inside another one. *)
Lemma locations_suffix_no_border b p' :
  "_locations.tsv" = b +:+ p' → b ≠ "" →
  String.prefix p' "_locations.tsv" = true → p' = "".
Proof.
  intros Heq Hb Hp.
  destruct b as [|c b]; [done|]. clear Hb.
  do 14 (rewrite app_cons in Heq; injection Heq as _ Heq;
         destruct b as [|? b];
         [ change ("" +:+ p') with p' in Heq; subst p';
           first [reflexivity | discriminate Hp] |]).
  rewrite app_cons in Heq. discriminate Heq.
Qed.

Lemma locations_prefix_straddle b :
  b ≠ "" →
  String.prefix "_locations.tsv" (b +:+ "_locations.tsv") = true →
  String.prefix "_locations.tsv" b = true.
Proof.
  intros Hb Hp.
  destruct (prefix_app_cases _ _ _ Hp) as [H | (p' & Heq & H)]; [exact H|].
  pose proof (locations_suffix_no_border _ _ Heq Hb H) as ->.
  rewrite app_empty_r in Heq. subst b. reflexivity.
Qed.

Lemma replace_from_locations_suffix stem :
  contains "_locations.tsv" stem = false →
  replace_from "_locations.tsv" "_data" 0 (stem +:+ "_locations.tsv")
  = stem +:+ "_data".
Proof.
  induction stem as [|c stem IH]; intros Hc; [reflexivity|].
  cbn [contains] in Hc. apply orb_false_iff in Hc as [Hhere Hrest].
  rewrite !app_cons. cbn [replace_from].
  destruct (String.prefix "_locations.tsv" (String c (stem +:+ "_locations.tsv")))
    eqn:Hp.
  - rewrite <- app_cons in Hp.
    apply locations_prefix_straddle in Hp; [congruence | discriminate].
  - f_equal. apply IH, Hrest.
Qed.

Lemma replace_from_absent (old new s : string) :
  Str.contains old s = false → Str.replace_from old new 0 s = s.
Proof.
  induction s as [|ch s IH]; [done|].
  cbn [Str.contains]. intros [Hhere Hrest]%orb_false_iff.
  cbn [Str.replace_from]. rewrite Hhere. f_equal. by apply IH.
Qed.

Lemma length_append (s t : string) :
  String.length (s +:+ t) = String.length s + String.length t.
Proof. induction s as [|ch s IH]; [done|]. rewrite app_cons. cbn. by rewrite IH. Qed.

Lemma app_inj_suffix (s1 s2 t : string) : s1 +:+ t = s2 +:+ t → s1 = s2.
Proof.
  revert s2. induction s1 as [|ch s1 IH]; intros [|ch2 s2] Heq; [done| | |].
  - apply (f_equal String.length) in Heq.
    rewrite app_cons in Heq. cbn in Heq. rewrite !length_append in Heq.
    cbn in Heq. lia.
  - apply (f_equal String.length) in Heq.
    rewrite app_cons in Heq. cbn in Heq. rewrite !length_append in Heq.
    cbn in Heq. lia.
  - rewrite !app_cons in Heq. injection Heq as -> Heq. f_equal. by apply IH.
Qed.

End StrFacts.

Module DriverFacts.
Import Driver.

Example data_name_training : data_name "training_locations.tsv" = "training_data".
Proof. reflexivity. Qed.

Example data_name_negative :
  data_name "negative_control_locations.tsv" = "negative_control_data".
Proof. reflexivity. Qed.

Lemma driver_one_iteration_per_entry home entries :
  driver home entries ≡ₚ map (iteration home) entries.
Proof.
  unfold driver, sorted_entries. apply fmap_Permutation, merge_sort_Permutation.
Qed.

(** C4, as stated, at a file name in which the suffix occurs twice:
    [str.replace] rewrites every occurrence, not only the final one. *)
Lemma data_name_suffix_twice :
  data_name ("x_locations.tsv" +:+ "_locations.tsv") = "x_data_data"
  ∧ data_name ("x_locations.tsv" +:+ "_locations.tsv")
    ≠ "x_locations.tsv" +:+ "_data".
Proof. split; [reflexivity | discriminate]. Qed.

(** C4 (amended): for a location file [stem ++ "_locations.tsv"] present
    in the directory, whose stem does not itself contain "_locations.tsv",
    the driver runs exactly one iteration per directory entry, and the
    iteration of that file derives the name [stem ++ "_data"]. *)
Theorem data_name_strips_suffix home entries stem :
  stem +:+ "_locations.tsv" ∈ entries →
  Str.contains "_locations.tsv" stem = false →
  data_name (stem +:+ "_locations.tsv") = stem +:+ "_data"
  ∧ iteration home (stem +:+ "_locations.tsv") ∈ driver home entries
  ∧ length (driver home entries) = length entries
  ∧ head (iteration home (stem +:+ "_locations.tsv"))
    = Some (Print ("Running IDR_stream DP for " +:+ (stem +:+ "_data"))).
Proof.
  intros Hin Hstem.
  assert (Hname : data_name (stem +:+ "_locations.tsv") = stem +:+ "_data")
    by apply StrFacts.replace_from_locations_suffix, Hstem.
  split_and!.
  - exact Hname.
  - rewrite driver_one_iteration_per_entry. by apply list_elem_of_fmap_2.
  - rewrite driver_one_iteration_per_entry. apply length_fmap.
  - unfold iteration. rewrite Hname. reflexivity.
Qed.

Lemma data_name_strips_suffix_witness :
  let entries := ["training_locations.tsv"; "negative_control_locations.tsv"] in
  ("negative_control" +:+ "_locations.tsv" ∈ entries
   ∧ Str.contains "_locations.tsv" "negative_control" = false)
  ∧ data_name ("negative_control" +:+ "_locations.tsv") = "negative_control_data"
  ∧ length (driver [] entries) = 2.
Proof.
  intros entries.
  assert (Hin : "negative_control" +:+ "_locations.tsv" ∈ entries)
    by apply list_elem_of_further, list_elem_of_here.
  assert (Hstem : Str.contains "_locations.tsv" "negative_control" = false)
    by reflexivity.
  destruct (data_name_strips_suffix [] entries "negative_control" Hin Hstem)
    as (Hname & _ & Hlen & _).
  split; [split; assumption|]. split; [exact Hname | exact Hlen].
Defined.

(** C5: every iteration of the driver is the iteration of one directory
    entry: it announces the name derived from that entry, reads that
    entry's location file and opens the run on the output directory and
    the log file of that name.  The one call of [run_dp_stream] is its last
    statement; it passes [extra_metadata=["object_outlines"]] exactly when
    the name derived from that same entry is "training_data" and passes no
    extra metadata otherwise, and [batch_size=3], [start_batch=0],
    [batch_nums=[0]] in both branches. *)
Theorem run_call_extra_metadata home entries it :
  it ∈ driver home entries →
  ∃ file_name pre args,
    file_name ∈ entries
    ∧ it = iteration home file_name
    ∧ head it = Some (Print ("Running IDR_stream DP for " +:+ data_name file_name))
    ∧ ReadCsv (locations_dir ++ [file_name]) (String "009" "") 0 ∈ pre
    ∧ DeepProfilerRun idr_id tmp_dir (final_data_dir (data_name file_name))
        (log_file_path (data_name file_name)) ∈ pre
    ∧ it = pre ++ [RunDpStream args]
    ∧ (∀ a, RunDpStream a ∉ pre)
    ∧ (extra_metadata args = Some ["object_outlines"]
       ↔ data_name file_name = "training_data")
    ∧ (data_name file_name ≠ "training_data" → extra_metadata args = None)
    ∧ batch_size args = 3%Z
    ∧ start_batch args = 0%Z
    ∧ batch_nums args = [0%Z].
Proof.
  rewrite driver_one_iteration_per_entry.
  intros (file_name & -> & Hin)%list_elem_of_fmap.
  exists file_name, (take 10 (iteration home file_name)),
    (run_dp_stream_args (data_name file_name)).
  split_and!; [exact Hin | reflexivity | reflexivity | | | reflexivity | | | | | |].
  - cbn [iteration take]. do 5 apply list_elem_of_further. apply list_elem_of_here.
  - cbn [iteration take]. do 4 apply list_elem_of_further. apply list_elem_of_here.
  - intros a Ha. cbn in Ha.
    repeat (apply elem_of_cons in Ha as [Ha|Ha]; [discriminate Ha|]).
    by apply elem_of_nil in Ha.
  - unfold run_dp_stream_args.
    destruct (String.eqb_spec (data_name file_name) "training_data");
      cbn [extra_metadata]; split; intros; done.
  - intros Hne. unfold run_dp_stream_args.
    by destruct (String.eqb_spec (data_name file_name) "training_data").
  - unfold run_dp_stream_args. by destruct (String.eqb _ _).
  - unfold run_dp_stream_args. by destruct (String.eqb _ _).
  - unfold run_dp_stream_args. by destruct (String.eqb _ _).
Qed.

Lemma run_call_extra_metadata_witness :
  let entries := ["training_locations.tsv"; "negative_control_locations.tsv"] in
  iteration [] "training_locations.tsv" ∈ driver [] entries
  ∧ ∃ file_name pre args,
      file_name ∈ entries
      ∧ iteration [] "training_locations.tsv" = iteration [] file_name
      ∧ iteration [] "training_locations.tsv" = pre ++ [RunDpStream args]
      ∧ (extra_metadata args = Some ["object_outlines"]
         ↔ data_name file_name = "training_data")
      ∧ batch_size args = 3%Z
      ∧ start_batch args = 0%Z
      ∧ batch_nums args = [0%Z].
Proof.
  intros entries.
  assert (Hin : iteration [] "training_locations.tsv" ∈ driver [] entries)
    by apply list_elem_of_further, list_elem_of_here.
  split; [exact Hin|].
  destruct (run_call_extra_metadata [] entries _ Hin)
    as (file_name & pre & args & H1 & H2 & _ & _ & _ & H3 & _ & H4 & _ & H5 & H6 & H7).
  exists file_name, pre, args. by split_and!.
Defined.

Lemma rmtree_lookup_below (p : path) (fs : filesystem) (q : path) :
  fs !! p = Some Dir → p `prefix_of` q → rmtree_ignore_errors p fs !! q = None.
Proof.
  intros Hp Hq. unfold rmtree_ignore_errors. rewrite Hp.
  apply map_lookup_filter_None. right. intros x _. cbn. unfold is_prefix.
  by rewrite bool_decide_eq_true_2.
Qed.

Lemma rmtree_lookup_other (p : path) (fs : filesystem) (q : path) :
  ¬ p `prefix_of` q → rmtree_ignore_errors p fs !! q = fs !! q.
Proof.
  intros Hq. unfold rmtree_ignore_errors.
  destruct (fs !! p) as [[]|]; [done| |done].
  destruct (fs !! q) as [x|] eqn:Hx.
  - apply map_lookup_filter_Some. split; [done|]. cbn. unfold is_prefix.
    by rewrite bool_decide_eq_false_2.
  - apply map_lookup_filter_None. by left.
Qed.

Lemma rmtree_absent (p : path) (fs : filesystem) : fs !! p = None → rmtree_ignore_errors p fs = fs.
Proof. intros Hp. unfold rmtree_ignore_errors. by rewrite Hp. Qed.

Lemma log_not_below_tmp name : ¬ tmp_dir `prefix_of` log_file_path name.
Proof. intros [k Hk]. discriminate Hk. Qed.

Lemma is_file_false (fs : filesystem) (p : path) :
  fs !! p ≠ Some File → is_file fs p = false.
Proof. unfold is_file. by destruct (fs !! p) as [[]|]. Qed.

Lemma is_file_true (fs : filesystem) (p : path) :
  fs !! p = Some File → is_file fs p = true.
Proof. unfold is_file. by intros ->. Qed.

(** The log file lies in [logs] and in [logs/<name>]. *)
Lemma unlink_log_file_path (name : string) (fs : filesystem) :
  unlink_missing_ok (log_file_path name) fs
  = match fs !! log_file_path name with
    | Some File => Ok (delete (log_file_path name) fs)
    | Some Dir => Raise IsADirectoryError
    | None =>
        if is_file fs ["logs"] || is_file fs ["logs"; name]
        then Raise NotADirectoryError
        else Ok fs
    end.
Proof.
  unfold unlink_missing_ok.
  destruct (fs !! log_file_path name) as [[]|]; [done | done |].
  unfold ancestors, log_file_path.
  cbn [length Nat.sub seq fmap list_fmap take existsb].
  by rewrite orb_false_r.
Qed.

Lemma exec_cleanup (pipeline : effect → filesystem → result filesystem)
    (msg : string) (p q : path) (fs : filesystem) :
  exec pipeline [Print msg; Rmtree p true; Unlink q true] fs
  = unlink_missing_ok q (rmtree_ignore_errors p fs).
Proof.
  cbn [exec exec_effect mbind result_bind].
  by destruct (unlink_missing_ok q (rmtree_ignore_errors p fs)).
Qed.

Lemma exec_app (pipeline : effect → filesystem → result filesystem)
    (es1 es2 : list effect) (fs : filesystem) :
  exec pipeline (es1 ++ es2) fs = fs' ← exec pipeline es1 fs; exec pipeline es2 fs'.
Proof.
  revert fs. induction es1 as [|e es1 IH]; intros fs; [done|].
  cbn [app exec]. destruct (exec_effect pipeline e fs) as [fs1|err]; [apply IH|done].
Qed.

(** What the three statements of the cleanup leave, when the log path is
    not a directory and no regular file stands where its directories
    should be. *)
Lemma cleanup_exec (pipeline : effect → filesystem → result filesystem)
    (msg name : string) (fs : filesystem) :
  fs !! log_file_path name ≠ Some Dir →
  fs !! ["logs"] ≠ Some File →
  fs !! ["logs"; name] ≠ Some File →
  exec pipeline [Print msg; Rmtree tmp_dir true; Unlink (log_file_path name) true] fs
  = Ok (delete (log_file_path name) (rmtree_ignore_errors tmp_dir fs)).
Proof.
  intros Hlog Hlogs Hname. rewrite exec_cleanup, unlink_log_file_path.
  rewrite (rmtree_lookup_other _ _ _ (log_not_below_tmp name)).
  destruct (fs !! log_file_path name) as [[]|] eqn:E; [done | done |].
  rewrite !is_file_false.
  - cbn [orb]. f_equal. symmetry. apply delete_id.
    by rewrite (rmtree_lookup_other _ _ _ (log_not_below_tmp name)).
  - rewrite rmtree_lookup_other; [done | intros [k Hk]; discriminate Hk].
  - rewrite rmtree_lookup_other; [done | intros [k Hk]; discriminate Hk].
Qed.

Lemma cleanup_result (pipeline : effect → filesystem → result filesystem)
    (msg name : string) (fs : filesystem) :
  fs !! tmp_dir ≠ Some File →
  fs !! log_file_path name ≠ Some Dir →
  fs !! ["logs"] ≠ Some File →
  fs !! ["logs"; name] ≠ Some File →
  ∃ fs1,
    exec pipeline [Print msg; Rmtree tmp_dir true; Unlink (log_file_path name) true]
         fs = Ok fs1
    ∧ fs1 !! tmp_dir = None
    ∧ fs1 !! log_file_path name = None
    ∧ ∀ q : path, ¬ tmp_dir `prefix_of` q → q ≠ log_file_path name →
                  fs1 !! q = fs !! q.
Proof.
  intros Htmp Hlog Hlogs Hname. eexists.
  split; [by apply cleanup_exec|]. split_and!.
  - rewrite lookup_delete_ne by discriminate.
    destruct (fs !! tmp_dir) as [[]|] eqn:E; [done| |].
    + by apply rmtree_lookup_below.
    + by rewrite rmtree_absent.
  - apply lookup_delete_eq.
  - intros q Hq Hne. rewrite lookup_delete_ne by done.
    by apply rmtree_lookup_other.
Qed.




(** ** Further properties of the driver *)

(** X1: the datasets are processed in ascending order of their file
    names, whatever the order in which the directory lists them. *)
Theorem driver_order_independent (home : path) (entries entries' : list string) :
  entries ≡ₚ entries' →
  driver home entries = driver home entries'
  ∧ StronglySorted String.le (sorted_entries entries)
  ∧ driver home entries = iteration home <$> sorted_entries entries.
Proof.
  intros Hperm. split_and!; [|apply StronglySorted_merge_sort; apply _|done].
  unfold driver. f_equal. unfold sorted_entries.
  apply (StronglySorted_unique String.le).
  - apply StronglySorted_merge_sort; apply _.
  - apply StronglySorted_merge_sort; apply _.
  - by rewrite !merge_sort_Permutation.
Qed.

Lemma driver_order_independent_witness :
  let listed := ["training_locations.tsv"; "negative_control_locations.tsv"] in
  let listed' := ["negative_control_locations.tsv"; "training_locations.tsv"] in
  listed ≡ₚ listed'
  ∧ driver [] listed = driver [] listed'
  ∧ sorted_entries listed = listed'.
Proof.
  intros listed listed'.
  assert (Hperm : listed ≡ₚ listed') by apply perm_swap.
  destruct (driver_order_independent [] listed listed' Hperm) as (Heq & _ & _).
  split_and!; [exact Hperm | exact Heq | reflexivity].
Defined.

(** X2: the driver does not filter the directory: an entry whose name
    does not contain "_locations.tsv" is processed like a dataset, under
    its own unchanged name. *)
Theorem entry_without_suffix_is_processed (home : path) (entries : list string)
    (file_name : string) :
  file_name ∈ entries →
  Str.contains "_locations.tsv" file_name = false →
  data_name file_name = file_name
  ∧ ∃ it rest,
      it ∈ driver home entries
      ∧ it = Print ("Running IDR_stream DP for " +:+ file_name) :: rest
      ∧ RunDpStream (run_dp_stream_args file_name) ∈ rest
      ∧ Unlink ["logs"; file_name; "dp_idrstream.log"] true ∈ rest.
Proof.
  intros Hin Hno.
  assert (Hname : data_name file_name = file_name)
    by apply StrFacts.replace_from_absent, Hno.
  split; [exact Hname|].
  exists (iteration home file_name), (drop 1 (iteration home file_name)).
  split_and!.
  - rewrite driver_one_iteration_per_entry. by apply list_elem_of_fmap_2.
  - unfold iteration. rewrite Hname. reflexivity.
  - unfold iteration. rewrite Hname. cbn [drop].
    do 9 apply list_elem_of_further. apply list_elem_of_here.
  - unfold iteration. rewrite Hname. cbn [drop].
    apply list_elem_of_further, list_elem_of_here.
Qed.

Lemma entry_without_suffix_is_processed_witness :
  ("README.md" ∈ ["README.md"; "training_locations.tsv"]
   ∧ Str.contains "_locations.tsv" "README.md" = false)
  ∧ data_name "README.md" = "README.md"
  ∧ ∃ it, it ∈ driver [] ["README.md"; "training_locations.tsv"]
          ∧ head it = Some (Print "Running IDR_stream DP for README.md").
Proof.
  assert (H1 : "README.md" ∈ ["README.md"; "training_locations.tsv"])
    by apply list_elem_of_here.
  assert (H2 : Str.contains "_locations.tsv" "README.md" = false) by reflexivity.
  destruct (entry_without_suffix_is_processed [] _ _ H1 H2)
    as (Hname & it & rest & Hit & -> & _).
  split; [by split|]. split; [exact Hname|].
  by exists (Print ("Running IDR_stream DP for " +:+ "README.md") :: rest).
Defined.

(** X3: two different location files whose stems do not contain
    "_locations.tsv" get different dataset names, hence different log
    files and different output directories. *)
Theorem distinct_files_distinct_outputs (stem1 stem2 : string) :
  Str.contains "_locations.tsv" stem1 = false →
  Str.contains "_locations.tsv" stem2 = false →
  stem1 ≠ stem2 →
  let name1 := data_name (stem1 +:+ "_locations.tsv") in
  let name2 := data_name (stem2 +:+ "_locations.tsv") in
  name1 ≠ name2
  ∧ log_file_path name1 ≠ log_file_path name2
  ∧ final_data_dir name1 ≠ final_data_dir name2.
Proof.
  intros H1 H2 Hne name1 name2.
  assert (Hnames : name1 ≠ name2).
  { unfold name1, name2, data_name, Str.replace.
    rewrite !StrFacts.replace_from_locations_suffix by done.
    intros Heq. by apply StrFacts.app_inj_suffix in Heq. }
  split_and!; [exact Hnames | |]; intros [= Heq]; by apply Hnames.
Qed.

Lemma distinct_files_distinct_outputs_witness :
  (Str.contains "_locations.tsv" "training" = false
   ∧ Str.contains "_locations.tsv" "negative_control" = false
   ∧ "training" ≠ "negative_control")
  ∧ log_file_path (data_name ("training" +:+ "_locations.tsv"))
    ≠ log_file_path (data_name ("negative_control" +:+ "_locations.tsv")).
Proof.
  assert (H1 : Str.contains "_locations.tsv" "training" = false) by reflexivity.
  assert (H2 : Str.contains "_locations.tsv" "negative_control" = false)
    by reflexivity.
  assert (H3 : "training" ≠ "negative_control") by discriminate.
  split; [by split_and!|].
  by destruct (distinct_files_distinct_outputs _ _ H1 H2 H3) as (_ & Hlog & _).
Defined.

(** X4: the cleanup of an iteration touches nothing but the temp
    directory's subtree and the dataset's log file; in particular it never
    removes features extracted earlier, of this or of another dataset. *)
Theorem cleanup_keeps_everything_else
    (pipeline : effect → filesystem → result filesystem) (msg : string)
    (name : string) (fs fs' : filesystem) :
  exec pipeline [Print msg; Rmtree tmp_dir true; Unlink (log_file_path name) true] fs
  = Ok fs' →
  (∀ q : path, ¬ tmp_dir `prefix_of` q → q ≠ log_file_path name →
               fs' !! q = fs !! q)
  ∧ ∀ (other : string) (below : path),
      fs' !! (final_data_dir other ++ below) = fs !! (final_data_dir other ++ below).
Proof.
  rewrite exec_cleanup, unlink_log_file_path.
  intros Hexec.
  assert (Hframe : ∀ q : path, ¬ tmp_dir `prefix_of` q → q ≠ log_file_path name →
                               fs' !! q = fs !! q).
  { intros q Hq Hlog.
    destruct (rmtree_ignore_errors tmp_dir fs !! log_file_path name) as [[]|];
      [| done |].
    - injection Hexec as <-.
      rewrite lookup_delete_ne by done. by apply rmtree_lookup_other.
    - destruct (is_file _ _ || is_file _ _); [done|]. injection Hexec as <-.
      by apply rmtree_lookup_other. }
  split; [exact Hframe|]. intros other below. apply Hframe.
  - intros [k Hk]. discriminate Hk.
  - discriminate.
Qed.

Lemma cleanup_keeps_everything_else_witness :
  let features := final_data_dir "training_data" ++ ["batch_0.csv.gz"] in
  let fs : filesystem :=
    {[ ["tmp"] := Dir; features := File;
       log_file_path "training_data" := File ]} in
  ∃ fs',
    exec (λ _ fs, Ok fs)
      [Print ""; Rmtree tmp_dir true; Unlink (log_file_path "training_data") true]
      fs = Ok fs'
    ∧ fs' !! features = Some File.
Proof.
  intros features fs.
  destruct (cleanup_result (λ _ fs, Ok fs) "" "training_data" fs)
    as (fs' & Hexec & _);
    [vm_compute; discriminate | vm_compute; discriminate
     | vm_compute; discriminate | vm_compute; discriminate |].
  exists fs'. split; [exact Hexec|].
  destruct (cleanup_keeps_everything_else _ _ _ _ _ Hexec) as [_ Hkeep].
  unfold features. rewrite (Hkeep "training_data" ["batch_0.csv.gz"]).
  by vm_compute.
Defined.




(** X6: when a regular file stands where a directory of the log file
    should be -- at [logs], or at [logs/<name>] -- and so nothing is at the
    log path, the iteration raises [NotADirectoryError] at its [unlink]:
    after the [print] and the [rmtree], which return, and before the
    [mkdir] and every statement of the pipeline, whatever the pipeline
    would do. *)
Theorem log_directory_taken_by_file (home : path)
    (pipeline : effect → filesystem → result filesystem)
    (file_name : string) (fs : filesystem) :
  let name := data_name file_name in
  fs !! ["logs"] = Some File ∨ fs !! ["logs"; name] = Some File →
  fs !! log_file_path name = None →
  exec pipeline (take 2 (iteration home file_name)) fs
  = Ok (rmtree_ignore_errors tmp_dir fs)
  ∧ exec pipeline (take 3 (iteration home file_name)) fs = Raise NotADirectoryError
  ∧ exec pipeline (iteration home file_name) fs = Raise NotADirectoryError.
Proof.
  intros name Hfile Hlog.
  assert (Hunlink : unlink_missing_ok (log_file_path name)
                      (rmtree_ignore_errors tmp_dir fs)
                    = Raise NotADirectoryError).
  { rewrite unlink_log_file_path.
    rewrite (rmtree_lookup_other _ _ _ (log_not_below_tmp name)), Hlog.
    destruct Hfile as [Hfile|Hfile].
    - rewrite (is_file_true _ ["logs"]); [done|].
      rewrite rmtree_lookup_other; [done | intros [k Hk]; discriminate Hk].
    - rewrite (is_file_true _ ["logs"; name]); [by rewrite orb_true_r|].
      rewrite rmtree_lookup_other; [done | intros [k Hk]; discriminate Hk]. }
  split_and!.
  - reflexivity.
  - change (take 3 (iteration home file_name))
      with [Print ("Running IDR_stream DP for " +:+ name); Rmtree tmp_dir true;
            Unlink (log_file_path name) true].
    by rewrite exec_cleanup.
  - change (iteration home file_name)
      with ([Print ("Running IDR_stream DP for " +:+ name); Rmtree tmp_dir true;
             Unlink (log_file_path name) true]
            ++ drop 3 (iteration home file_name)).
    by rewrite exec_app, exec_cleanup, Hunlink.
Qed.

Lemma log_directory_taken_by_file_witness :
  let fs : filesystem := {[ ["logs"] := Dir; ["logs"; "training_data"] := File ]} in
  ((fs !! ["logs"] = Some File
    ∨ fs !! ["logs"; data_name "training_locations.tsv"] = Some File)
   ∧ fs !! log_file_path (data_name "training_locations.tsv") = None)
  ∧ exec (λ _ fs, Ok fs) (iteration [] "training_locations.tsv") fs
    = Raise NotADirectoryError.
Proof.
  intros fs.
  assert (H1 : fs !! ["logs"] = Some File
               ∨ fs !! ["logs"; data_name "training_locations.tsv"] = Some File)
    by (right; by vm_compute).
  assert (H2 : fs !! log_file_path (data_name "training_locations.tsv") = None)
    by (by vm_compute).
  split; [by split|].
  by destruct (log_directory_taken_by_file [] (λ _ fs, Ok fs)
                 "training_locations.tsv" fs H1 H2) as (_ & _ & Hraise).
Defined.

(** X7: [unlink(missing_ok=True)] forgives a missing log file only: when
    the log path is a directory, the iteration raises
    [IsADirectoryError] before any statement of the pipeline, whatever
    the pipeline would do. *)
Theorem log_path_is_directory (home : path)
    (pipeline : effect → filesystem → result filesystem)
    (file_name : string) (fs : filesystem) :
  fs !! log_file_path (data_name file_name) = Some Dir →
  exec pipeline (iteration home file_name) fs = Raise IsADirectoryError.
Proof.
  intros Hlog. set (name := data_name file_name) in *.
  change (iteration home file_name)
    with ([Print ("Running IDR_stream DP for " +:+ name); Rmtree tmp_dir true;
           Unlink (log_file_path name) true]
          ++ drop 3 (iteration home file_name)).
  rewrite exec_app, exec_cleanup, unlink_log_file_path.
  rewrite (rmtree_lookup_other _ _ _ (log_not_below_tmp name)), Hlog. done.
Qed.

Lemma log_path_is_directory_witness :
  let fs : filesystem := {[ log_file_path "training_data" := Dir ]} in
  fs !! log_file_path (data_name "training_locations.tsv") = Some Dir
  ∧ exec (λ _ fs, Ok fs) (iteration [] "training_locations.tsv") fs
    = Raise IsADirectoryError.
Proof.
  intros fs.
  assert (H1 : fs !! log_file_path (data_name "training_locations.tsv") = Some Dir)
    by (by vm_compute).
  split; [exact H1|].
  exact (log_path_is_directory [] (λ _ fs, Ok fs) "training_locations.tsv" fs H1).
Defined.

End DriverFacts.

Module LoopFacts.

Lemma for_each_app {A S : Type} (body : S → A → result S) (xs ys : list A) (s : S) :
  for_each body (xs ++ ys) s = s' ← for_each body xs s; for_each body ys s'.
Proof.
  revert s. induction xs as [|x xs IH]; intros s; [done|].
  cbn [app for_each]. destruct (body s x) as [s'|e]; [apply IH | done].
Qed.

Lemma enumerate_snoc {A : Type} (xs : list A) (x : A) :
  enumerate (xs ++ [x]) = enumerate xs ++ [(length xs, x)].
Proof.
  unfold enumerate. rewrite length_app, seq_app. cbn [length seq].
  rewrite zip_with_app by (by rewrite length_seq). done.
Qed.

End LoopFacts.

Module ColorsFacts.
Import Colors.

Example rgb2hex_example :
  rgb2hex example_round255 (RGB (Qmake 1 1) (Qmake 0 1) (Qmake 1 2)) = "#ff0080".
Proof. reflexivity. Qed.

(** Python: [round(127.5) == 128] and [round(126.5) == 126]. *)
Example round_half_even_ties :
  round_half_even (Qmake 255 2) = 128%Z ∧ round_half_even (Qmake 253 2) = 126%Z.
Proof. split; reflexivity. Qed.

Lemma hex2_val_hex2 (b : byte) : hex2_val (hex2 b) = Byte.to_N b.
Proof. destruct b; reflexivity. Qed.

Lemma hex2_inj (b1 b2 : byte) : hex2 b1 = hex2 b2 → b1 = b2.
Proof.
  intros H. apply (f_equal hex2_val) in H. rewrite !hex2_val_hex2 in H.
  apply (f_equal Byte.of_N) in H. rewrite !Byte.of_to_N in H. congruence.
Qed.

Lemma hex2_digits (b : byte) :
  ∃ a1 a2, hex2 b = String a1 (String a2 "")
           ∧ is_hex_digit a1 = true ∧ is_hex_digit a2 = true.
Proof. exists (hex_digit (Byte.to_N b / 16)), (hex_digit (Byte.to_N b mod 16)).
  destruct b; split_and!; reflexivity.
Qed.

(** The hex string of a colour tells its channels as [round255] rounds
    them, and no more. *)
Lemma rgb2hex_eq {num : Type} (round255 : num → byte) (c1 c2 : rgb num) :
  rgb2hex round255 c1 = rgb2hex round255 c2
  ↔ round255 (red c1) = round255 (red c2)
    ∧ round255 (green c1) = round255 (green c2)
    ∧ round255 (blue c1) = round255 (blue c2).
Proof.
  destruct c1 as [r1 g1 b1], c2 as [r2 g2 b2]. unfold rgb2hex. cbn [red green blue].
  split; [|by intros (-> & -> & ->)].
  intros H.
  destruct (hex2_digits (round255 r1)) as (? & ? & Hr1 & _),
    (hex2_digits (round255 g1)) as (? & ? & Hg1 & _),
    (hex2_digits (round255 b1)) as (? & ? & Hb1 & _),
    (hex2_digits (round255 r2)) as (? & ? & Hr2 & _),
    (hex2_digits (round255 g2)) as (? & ? & Hg2 & _),
    (hex2_digits (round255 b2)) as (? & ? & Hb2 & _).
  assert (hex2 (round255 r1) = hex2 (round255 r2)
          ∧ hex2 (round255 g1) = hex2 (round255 g2)
          ∧ hex2 (round255 b1) = hex2 (round255 b2)) as (Hr & Hg & Hb).
  { rewrite Hr1, Hg1, Hb1, Hr2, Hg2, Hb2 in H |- *.
    rewrite !StrFacts.app_cons in H. injection H as -> -> -> -> -> ->. done. }
  by rewrite (hex2_inj _ _ Hr), (hex2_inj _ _ Hg), (hex2_inj _ _ Hb).
Qed.

Lemma rgb2hex_is_hex_color {num : Type} (round255 : num → byte) (c : rgb num) :
  is_hex_color (rgb2hex round255 c) = true.
Proof.
  destruct c as [r g b]. unfold rgb2hex. cbn [red green blue].
  destruct (hex2_digits (round255 r)) as (? & ? & -> & Hr1 & Hr2),
    (hex2_digits (round255 g)) as (? & ? & -> & Hg1 & Hg2),
    (hex2_digits (round255 b)) as (? & ? & -> & Hb1 & Hb2).
  cbv [String.append is_hex_color].
  cbn [String.length list_ascii_of_string forallb].
  by rewrite Hr1, Hr2, Hg1, Hg2, Hb1, Hb2.
Qed.

Lemma class_colors_loop {num : Type} (round255 : num → byte)
    (cmap : list (rgb num)) (classes : list string) :
  length classes ≤ length cmap →
  ∃ d : gmap string string,
    for_each
      (λ (class_colors : gmap string string) '(index, class_name),
         c ← getitem cmap index;
         Ok (<[class_name := rgb2hex round255 c]> class_colors))
      (enumerate classes) ∅ = Ok d
    ∧ ∀ cls,
        ((cls ∉ classes) ∧ d !! cls = None)
        ∨ (∃ i c, last_position classes cls i
                  ∧ cmap !! i = Some c ∧ d !! cls = Some (rgb2hex round255 c)).
Proof.
  induction classes as [|x classes IH] using rev_ind; intros Hlen.
  - exists ∅. split; [done|]. intros cls. left. split; [apply not_elem_of_nil | done].
  - rewrite length_app in Hlen. cbn in Hlen.
    destruct IH as (d & Hd & Hspec); [lia|].
    destruct (lookup_lt_is_Some_2 cmap (length classes)) as [c Hc]; [lia|].
    exists (<[x := rgb2hex round255 c]> d). split.
    + rewrite LoopFacts.enumerate_snoc, LoopFacts.for_each_app, Hd.
      cbn. unfold getitem. by rewrite Hc.
    + intros cls. destruct (decide (cls = x)) as [->|Hne].
      * right. exists (length classes), c. split_and!; [split| done |].
        -- by rewrite lookup_app_r, Nat.sub_diag.
        -- intros j Hj. rewrite lookup_ge_None_2; [done|].
           rewrite length_app. cbn. lia.
        -- apply lookup_insert_eq.
      * rewrite lookup_insert_ne by done.
        destruct (Hspec cls) as [[Hnin Hnone] | (i & c' & [Hi Hlast] & Hc' & Hd')].
        -- left. split; [|done]. rewrite elem_of_app, list_elem_of_singleton. tauto.
        -- right. exists i, c'. split_and!; [split| done | done].
           ++ by rewrite lookup_app_l by (by eapply lookup_lt_Some).
           ++ intros j Hj. destruct (decide (j < length classes)).
              ** rewrite lookup_app_l by done. by apply Hlast.
              ** destruct (decide (j = length classes)) as [->|].
                 --- rewrite lookup_app_r, Nat.sub_diag by done. cbn. congruence.
                 --- rewrite lookup_ge_None_2; [done|]. rewrite length_app. cbn. lia.
Qed.

Lemma class_colors_dom (classes : list string) (d : gmap string string) :
  (∀ cls, ((cls ∉ classes) ∧ d !! cls = None) ∨ (cls ∈ classes ∧ is_Some (d !! cls))) →
  dom d = list_to_set classes.
Proof.
  intros H. apply set_eq. intros cls.
  rewrite elem_of_dom, elem_of_list_to_set.
  destruct (H cls) as [[? Hn]|[? ?]]; [|done].
  rewrite Hn. split; [by intros [? ?] | done].
Qed.

Lemma size_list_to_set_cons (x : string) (l : list string) :
  size (list_to_set (x :: l) : gset string)
  = if decide (x ∈ l) then size (list_to_set l : gset string)
    else S (size (list_to_set l : gset string)).
Proof.
  cbn [list_to_set foldr]. case_decide as Hx.
  - f_equal. apply subseteq_union_1_L. set_solver.
  - rewrite size_union by set_solver. by rewrite size_singleton.
Qed.

Lemma size_list_to_set_le (l : list string) :
  size (list_to_set l : gset string) ≤ length l.
Proof.
  induction l as [|x l IH]; [done|].
  rewrite size_list_to_set_cons. cbn [length]. case_decide; lia.
Qed.

Lemma size_list_to_set_lt (l : list string) :
  ¬ NoDup l → size (list_to_set l : gset string) < length l.
Proof.
  induction l as [|x l IH]; intros Hnd; [destruct Hnd; constructor|].
  rewrite size_list_to_set_cons. cbn [length].
  pose proof (size_list_to_set_le l). case_decide as Hx; [lia|].
  assert (¬ NoDup l) by (intros ?; apply Hnd; by constructor).
  specialize (IH ltac:(done)). lia.
Qed.

Lemma last_position_unique (classes : list string) (cls : string) (i j : nat) :
  last_position classes cls i → last_position classes cls j → i = j.
Proof.
  intros [Hi Hli] [Hj Hlj].
  destruct (Nat.lt_trichotomy i j) as [H|[H|H]]; [|done|].
  - by destruct (Hli j H).
  - by destruct (Hlj i H).
Qed.

Lemma get_class_colors_spec {num : Type} (round255 : num → byte)
    (color_palette : string → nat → list (rgb num))
    (classes : list string) (palette : string) :
  length (color_palette palette (length classes)) = length classes →
  ∃ d : gmap string string,
    get_class_colors round255 color_palette classes palette = Ok d
    ∧ dom d = list_to_set classes
    ∧ (∀ cls v, d !! cls = Some v →
         ∃ i c, last_position classes cls i
                ∧ color_palette palette (length classes) !! i = Some c
                ∧ v = rgb2hex round255 c)
    ∧ (∀ cls i, last_position classes cls i →
         ∃ c, color_palette palette (length classes) !! i = Some c
              ∧ d !! cls = Some (rgb2hex round255 c)).
Proof.
  intros Hlen. unfold get_class_colors.
  destruct (class_colors_loop round255 (color_palette palette (length classes))
              classes)
    as (d & Hd & Hspec); [lia|].
  exists d. split_and!; [exact Hd | | |].
  - apply class_colors_dom. intros cls.
    destruct (Hspec cls) as [?|(i & c & [Hi _] & _ & Hv)]; [by left|].
    right. split; [by eapply list_elem_of_lookup_2 | by eexists].
  - intros cls v Hv.
    destruct (Hspec cls) as [[_ Hn]|(i & c & Hlast & Hc & Hv')]; [congruence|].
    exists i, c. split_and!; [done | done | congruence].
  - intros cls i Hlast.
    destruct (Hspec cls) as [[Hnin _]|(i' & c & Hlast' & Hc & Hv)].
    + destruct Hnin. destruct Hlast as [Hi _]. by eapply list_elem_of_lookup_2.
    + rewrite (last_position_unique _ _ _ _ Hlast Hlast'). by exists c.
Qed.

(** C1, as stated, at two inputs.  A list that names a class twice: the
    dictionary keeps one entry per name, so two names give one entry.  And
    two distinct names with a palette of two distinct colours, the reds
    0.5 and 0.50390625: both print as [#800000], so the two classes have
    the same colour. *)
Lemma get_class_colors_not_distinct :
  (NoDup (ramp_palette "bright" 2)
   ∧ get_class_colors example_round255 ramp_palette ["a"; "a"] "bright"
     = Ok {[ "a" := "#0100fe" ]}
   ∧ size ({[ "a" := "#0100fe" ]} : gmap string string) ≠ length ["a"; "a"])
  ∧ (NoDup ["a"; "b"]
     ∧ length (two_reds_palette "reds" 2) = 2
     ∧ NoDup (two_reds_palette "reds" 2)
     ∧ ∃ d : gmap string string,
         get_class_colors example_round255 two_reds_palette ["a"; "b"] "reds" = Ok d
         ∧ d !! "a" = Some "#800000"
         ∧ d !! "b" = Some "#800000").
Proof.
  split; split_and!.
  - apply (bool_decide_unpack _). reflexivity.
  - reflexivity.
  - rewrite map_size_singleton. cbn. lia.
  - apply (bool_decide_unpack _). reflexivity.
  - reflexivity.
  - apply (bool_decide_unpack _). reflexivity.
  - eexists. split_and!; reflexivity.
Qed.

(** C1 (amended): for a list of N pairwise distinct class names and a
    palette of N colours whose hex strings are pairwise distinct -- that
    is, colours that are still distinct after [rgb2hex] has rounded their
    channels to 8 bits -- [get_class_colors] returns a dictionary with
    exactly N entries; every class has the colour at its position in the
    list, every value is a hex colour string [#rrggbb], and no two
    classes have the same colour. *)
Theorem get_class_colors_distinct {num : Type} (round255 : num → byte)
    (color_palette : string → nat → list (rgb num))
    (classes : list string) (palette : string) :
  length (color_palette palette (length classes)) = length classes →
  NoDup (rgb2hex round255 <$> color_palette palette (length classes)) →
  NoDup classes →
  ∃ d : gmap string string,
    get_class_colors round255 color_palette classes palette = Ok d
    ∧ size d = length classes
    ∧ (∀ i cls, classes !! i = Some cls →
         ∃ c, color_palette palette (length classes) !! i = Some c
              ∧ d !! cls = Some (rgb2hex round255 c))
    ∧ (∀ cls v, d !! cls = Some v → is_hex_color v = true)
    ∧ (∀ cls1 cls2 v, d !! cls1 = Some v → d !! cls2 = Some v → cls1 = cls2).
Proof.
  intros Hlen Hcolors Hnames.
  destruct (get_class_colors_spec round255 color_palette classes palette Hlen)
    as (d & Hd & Hdom & Hval & Hlast).
  exists d. split_and!; [exact Hd | | | |].
  - rewrite <- size_dom, Hdom. by apply size_list_to_set.
  - intros i cls Hi. apply Hlast. split; [done|].
    intros j Hj Hcls. pose proof (NoDup_lookup _ _ _ _ Hnames Hi Hcls). lia.
  - intros cls v Hv. destruct (Hval _ _ Hv) as (i & c & _ & _ & ->).
    apply rgb2hex_is_hex_color.
  - intros cls1 cls2 v H1 H2.
    destruct (Hval _ _ H1) as (i1 & c1 & [Hi1 _] & Hc1 & ->).
    destruct (Hval _ _ H2) as (i2 & c2 & [Hi2 _] & Hc2 & Heq).
    assert (Hh1 : (rgb2hex round255 <$> color_palette palette (length classes)) !! i1
                  = Some (rgb2hex round255 c1))
      by (by rewrite list_lookup_fmap, Hc1).
    assert (Hh2 : (rgb2hex round255 <$> color_palette palette (length classes)) !! i2
                  = Some (rgb2hex round255 c1))
      by (by rewrite list_lookup_fmap, Hc2, Heq).
    pose proof (NoDup_lookup _ _ _ _ Hcolors Hh1 Hh2) as ->. congruence.
Qed.

Lemma get_class_colors_distinct_witness :
  let classes := ["prometaphase"; "metaphase"; "anaphase"] in
  (length (ramp_palette "bright" (length classes)) = length classes
   ∧ NoDup (rgb2hex example_round255 <$> ramp_palette "bright" (length classes))
   ∧ NoDup classes)
  ∧ ∃ d : gmap string string,
      get_class_colors example_round255 ramp_palette classes "bright" = Ok d
      ∧ size d = 3
      ∧ d !! "metaphase" = Some "#0100fe".
Proof.
  intros classes.
  assert (H1 : length (ramp_palette "bright" (length classes)) = length classes)
    by reflexivity.
  assert (H2 : NoDup (rgb2hex example_round255
                        <$> ramp_palette "bright" (length classes)))
    by (apply (bool_decide_unpack _); reflexivity).
  assert (H3 : NoDup classes) by (apply (bool_decide_unpack _); reflexivity).
  split; [done|].
  destruct (get_class_colors_distinct example_round255 ramp_palette classes "bright" H1 H2 H3)
    as (d & Hd & Hsize & Hpos & _).
  exists d. split_and!; [exact Hd | exact Hsize |].
  destruct (Hpos 1 "metaphase" eq_refl) as (c & Hc & ->).
  by injection Hc as <-.
Defined.

(** C9: when the list names a class more than once, the dictionary has
    fewer entries than the list is long, namely one per distinct name,
    and every name -- a repeated one in particular -- has the palette
    colour of its last position in the list. *)
Theorem get_class_colors_duplicates {num : Type} (round255 : num → byte)
    (color_palette : string → nat → list (rgb num))
    (classes : list string) (palette : string) :
  length (color_palette palette (length classes)) = length classes →
  ¬ NoDup classes →
  ∃ d : gmap string string,
    get_class_colors round255 color_palette classes palette = Ok d
    ∧ size d < length classes
    ∧ size d = size (list_to_set classes : gset string)
    ∧ (∀ cls i, last_position classes cls i →
         ∃ c, color_palette palette (length classes) !! i = Some c
              ∧ d !! cls = Some (rgb2hex round255 c)).
Proof.
  intros Hlen Hdup.
  destruct (get_class_colors_spec round255 color_palette classes palette Hlen)
    as (d & Hd & Hdom & _ & Hlast).
  exists d. split_and!; [exact Hd | | | exact Hlast].
  - rewrite <- size_dom, Hdom. by apply size_list_to_set_lt.
  - by rewrite <- size_dom, Hdom.
Qed.

Lemma get_class_colors_duplicates_witness :
  let classes := ["a"; "b"; "a"] in
  (length (ramp_palette "bright" (length classes)) = length classes
   ∧ ¬ NoDup classes)
  ∧ ∃ d : gmap string string,
      get_class_colors example_round255 ramp_palette classes "bright" = Ok d
      ∧ size d < 3
      ∧ d !! "a" = Some "#0200fd".
Proof.
  intros classes.
  assert (H1 : length (ramp_palette "bright" (length classes)) = length classes)
    by reflexivity.
  assert (H2 : ¬ NoDup classes) by (apply (bool_decide_unpack _); reflexivity).
  split; [done|].
  destruct (get_class_colors_duplicates example_round255 ramp_palette classes "bright" H1 H2)
    as (d & Hd & Hsize & _ & Hlast).
  exists d. split_and!; [exact Hd | exact Hsize |].
  destruct (Hlast "a" 2) as (c & Hc & ->).
  - split; [done|]. intros j Hj. by do 3 (destruct j as [|j]; [lia|]).
  - by injection Hc as <-.
Defined.

(** X8: for every list of class names, repeated or not, the keys of the
    dictionary are exactly the names of the list, and every value is the
    hex string [#rrggbb] of a colour of the palette. *)
Theorem get_class_colors_keys {num : Type} (round255 : num → byte)
    (color_palette : string → nat → list (rgb num))
    (classes : list string) (palette : string) :
  length (color_palette palette (length classes)) = length classes →
  ∃ d : gmap string string,
    get_class_colors round255 color_palette classes palette = Ok d
    ∧ (∀ cls, is_Some (d !! cls) ↔ cls ∈ classes)
    ∧ ∀ cls v, d !! cls = Some v →
        is_hex_color v = true
        ∧ ∃ c, c ∈ color_palette palette (length classes) ∧ v = rgb2hex round255 c.
Proof.
  intros Hlen.
  destruct (get_class_colors_spec round255 color_palette classes palette Hlen)
    as (d & Hd & Hdom & Hval & _).
  exists d. split_and!; [exact Hd | |].
  - intros cls. by rewrite <- elem_of_dom, Hdom, elem_of_list_to_set.
  - intros cls v Hv. destruct (Hval _ _ Hv) as (i & c & _ & Hc & ->).
    split; [apply rgb2hex_is_hex_color|].
    exists c. split; [by eapply list_elem_of_lookup_2 | done].
Qed.

Lemma get_class_colors_keys_witness :
  let classes := ["a"; "b"; "a"] in
  length (ramp_palette "bright" (length classes)) = length classes
  ∧ ∃ d : gmap string string,
      get_class_colors example_round255 ramp_palette classes "bright" = Ok d
      ∧ is_Some (d !! "b") ∧ d !! "c" = None.
Proof.
  intros classes.
  assert (H1 : length (ramp_palette "bright" (length classes)) = length classes)
    by reflexivity.
  split; [exact H1|].
  destruct (get_class_colors_keys example_round255 ramp_palette classes "bright" H1)
    as (d & Hd & Hkeys & _).
  exists d. split_and!; [exact Hd | |].
  - apply Hkeys. apply list_elem_of_further, list_elem_of_here.
  - apply eq_None_not_Some. rewrite Hkeys. unfold classes.
    intros Hin. repeat (apply elem_of_cons in Hin as [Hin|Hin]; [done|]).
    by apply elem_of_nil in Hin.
Defined.

End ColorsFacts.

Module PlotsFacts.
Import Plots.

Section Tables.

Context {num : Type} `{!EqDecision num}.

Lemma elem_of_unique_from {A : Type} `{!EqDecision A} (seen l : list A) (x : A) :
  x ∈ unique_from seen l ↔ x ∈ l ∧ x ∉ seen.
Proof.
  revert seen. induction l as [|y l IH]; intros seen; cbn [unique_from].
  - rewrite elem_of_nil. tauto.
  - case_decide as Hy.
    + rewrite IH, elem_of_cons. split; [tauto|]. intros [[->|?] ?]; tauto.
    + rewrite !elem_of_cons, IH, elem_of_cons.
      destruct (decide (x = y)) as [->|]; tauto.
Qed.


Lemma elem_of_unique {A : Type} `{!EqDecision A} (l : list A) (x : A) :
  x ∈ unique l ↔ x ∈ l.
Proof. unfold unique. rewrite elem_of_unique_from, elem_of_nil. tauto. Qed.


Lemma lookup_column_assign_eq (key : string) (vs : list (cell num))
    (cols : list (string * list (cell num))) :
  lookup_column key (assign key vs cols) = Some vs.
Proof.
  induction cols as [|[k old] cols IH]; cbn.
  - by rewrite decide_True.
  - destruct (decide (k = key)) as [->|Hne]; cbn.
    + by rewrite decide_True.
    + by rewrite decide_False.
Qed.

Lemma lookup_column_assign_ne (key k : string) (vs : list (cell num))
    (cols : list (string * list (cell num))) :
  k ≠ key → lookup_column k (assign key vs cols) = lookup_column k cols.
Proof.
  intros Hne. induction cols as [|[k' old] cols IH]; cbn.
  - by rewrite decide_False.
  - destruct (decide (k' = key)) as [->|Hne']; cbn.
    + by rewrite !decide_False.
    + by rewrite IH.
Qed.

Lemma assign_names (key : string) (vs : list (cell num))
    (cols : list (string * list (cell num))) :
  (assign key vs cols).*1
  = if decide (key ∈ cols.*1) then cols.*1 else cols.*1 ++ [key].
Proof.
  induction cols as [|[k old] cols IH]; cbn.
  - rewrite decide_False; [done | apply not_elem_of_nil].
  - destruct (decide (k = key)) as [->|Hne]; cbn.
    + rewrite decide_True; [done | apply list_elem_of_here].
    + rewrite IH. destruct (decide (key ∈ cols.*1)) as [Hin|Hnin].
      * rewrite decide_True; [done | by apply list_elem_of_further].
      * rewrite decide_False; [done|]. rewrite elem_of_cons. by intros [?|?].
Qed.

Lemma lookup_column_loc (df : DataFrame num) (mask : list bool) (key : string) :
  lookup_column key (columns (loc df mask))
  = filter_mask mask <$> lookup_column key (columns df).
Proof.
  unfold loc. cbn [columns]. induction (columns df) as [|[k vs] cols IH]; cbn; [done|].
  by destruct (decide (k = key)).
Qed.

Lemma column_Some (df : DataFrame num) (key : string) (vs : list (cell num)) :
  lookup_column key (columns df) = Some vs →
  column df key = Ok (MkSeries key (df_index df) vs).
Proof. intros H. unfold column. by rewrite H. Qed.

Lemma column_loc (df : DataFrame num) (mask : list bool) (key : string) :
  column (loc df mask) key
  = match lookup_column key (columns df) with
    | Some vs =>
        Ok (MkSeries key (filter_mask mask (df_index df)) (filter_mask mask vs))
    | None => Raise KeyError
    end.
Proof.
  unfold column. rewrite lookup_column_loc.
  by destruct (lookup_column key (columns df)).
Qed.

End Tables.

Section Loop.

Context {num : Type} `{!EqDecision num}.
Variable axes : list string.
Variable embedding : DataFrame num.
Variable metadata_name : string.
Variable class_colors : gmap string string.
Variable alpha : num.
Variable point_size : Z.
Variable labels : list (cell num).

Hypothesis labels_column :
  lookup_column metadata_name (columns embedding) = Some labels.
Hypothesis axes_columns :
  Forall (λ a, is_Some (lookup_column a (columns embedding))) axes.

Lemma mapM_column_loc (mask : list bool) (keys : list string) :
  Forall (λ a, is_Some (lookup_column a (columns embedding))) keys →
  ∃ xyz,
    mapM (column (loc embedding mask)) keys = Ok xyz
    ∧ name <$> xyz = keys
    ∧ Forall (λ xs, index xs = filter_mask mask (df_index embedding)) xyz.
Proof.
  induction 1 as [|a keys [vs Ha] _ (xyz & Hxyz & Hnames & Hidx)].
  - exists []. by split_and!.
  - exists (MkSeries a (filter_mask mask (df_index embedding)) (filter_mask mask vs)
            :: xyz).
    split_and!.
    + cbn [mapM]. rewrite column_loc, Ha, Hxyz. reflexivity.
    + cbn. by rewrite Hnames.
    + by constructor.
Qed.

Lemma plot_class_spec (st : loop_state num) (cls : cell num) :
  ∃ call,
    plot_class axes embedding metadata_name class_colors alpha point_size st cls
    = Ok {| legend_elements := legend_elements st ++ class_handles class_colors [cls];
            other_classes_exist :=
              other_classes_exist st || any_unmapped class_colors [cls];
            color := Some (drawn_color class_colors cls);
            scatter_calls := scatter_calls st ++ [call] |}
    ∧ draws_class axes class_colors alpha point_size
                  (df_index embedding) labels cls call.
Proof.
  unfold plot_class. rewrite (column_Some _ _ _ labels_column).
  cbn [mbind result_bind].
  destruct (mapM_column_loc
              (eq_mask (MkSeries metadata_name (df_index embedding) labels) cls)
              axes axes_columns)
    as (xyz & -> & Hnames & Hidx).
  exists (Scatter xyz (drawn_color class_colors cls) "o" alpha point_size).
  split; [|by split_and!].
  unfold class_handles, any_unmapped, drawn_color. cbn [omap existsb].
  destruct (class_color class_colors cls) as [col|] eqn:E;
    cbn; rewrite ?E; cbn; by rewrite ?orb_false_r, ?app_nil_r, ?orb_true_r.
Qed.

Lemma for_each_plot_class (classes : list (cell num)) (st : loop_state num) :
  ∃ calls,
    for_each (plot_class axes embedding metadata_name class_colors alpha point_size)
             classes st
    = Ok {| legend_elements := legend_elements st ++ class_handles class_colors classes;
            other_classes_exist :=
              other_classes_exist st || any_unmapped class_colors classes;
            color := from_option Some (color st) (color_after class_colors classes);
            scatter_calls := scatter_calls st ++ calls |}
    ∧ Forall2 (draws_class axes class_colors alpha point_size
                           (df_index embedding) labels) classes calls.
Proof.
  revert st. induction classes as [|cls classes IH]; intros st.
  - exists []. split; [|constructor]. destruct st. cbn.
    by rewrite !app_nil_r, orb_false_r.
  - destruct (plot_class_spec st cls) as (call & Hcall & Hdraws).
    cbn [for_each]. rewrite Hcall. cbn [mbind result_bind].
    edestruct IH as (calls & -> & Hcalls).
    exists (call :: calls). split; [|by constructor].
    cbn [legend_elements other_classes_exist color scatter_calls].
    f_equal. f_equal.
    + rewrite <- app_assoc. f_equal.
      unfold class_handles. symmetry. apply (omap_app _ [cls] classes).
    + rewrite <- orb_assoc. f_equal. unfold any_unmapped. cbn [existsb].
      by rewrite orb_false_r.
    + unfold color_after. destruct classes as [|cls' classes]; [done|].
      change (last (cls :: cls' :: classes)) with (last (cls' :: classes)).
      destruct (last (cls' :: classes)) eqn:E; [done|]. by apply last_None in E.
    + by rewrite <- app_assoc.
Qed.

Lemma any_unmapped_last (classes : list (cell num)) :
  any_unmapped class_colors classes = true →
  is_Some (color_after class_colors classes).
Proof.
  unfold color_after. destruct classes as [|cls classes]; [done|].
  intros _. destruct (last (cls :: classes)) eqn:E; [by eexists|].
  by apply last_None in E.
Qed.

Lemma plot_classes_spec :
  ∃ calls,
    plot_classes axes embedding metadata_name class_colors alpha point_size
    = Ok (calls,
          class_handles class_colors (unique labels)
          ++ other_handle class_colors (unique labels))
    ∧ Forall2 (draws_class axes class_colors alpha point_size
                           (df_index embedding) labels) (unique labels) calls.
Proof.
  unfold plot_classes. rewrite (column_Some _ _ _ labels_column).
  cbn [mbind result_bind values].
  edestruct (for_each_plot_class (unique labels)) as (calls & -> & Hcalls).
  exists calls. split; [|exact Hcalls].
  cbn [legend_elements other_classes_exist color scatter_calls orb app
       mbind result_bind].
  unfold other_handle.
  destruct (any_unmapped class_colors (unique labels)) eqn:Hany.
  - destruct (any_unmapped_last _ Hany) as [col ->]. done.
  - cbn. by rewrite app_nil_r.
Qed.

End Loop.

Section Partition.

Context {num : Type} `{!EqDecision num}.

Lemma class_rows_nil (rows : list nat) (cls : cell num) : class_rows [] rows cls = [].
Proof. done. Qed.

Lemma cell_eqb_true (x v : cell num) :
  cell_eqb x v = true ↔ x = v ∧ is_missing v = false.
Proof.
  destruct x, v; cbn; rewrite ?bool_decide_eq_true; split;
    try done; try (by intros [? ?]); by intros ->.
Qed.



Lemma class_rows_cons (l : cell num) (labels : list (cell num)) (r : nat)
    (rows : list nat) (cls : cell num) :
  class_rows (l :: labels) (r :: rows) cls
  = if cell_eqb l cls then r :: class_rows labels rows cls
    else class_rows labels rows cls.
Proof. unfold class_rows. cbn [fmap list_fmap filter_mask]. done. Qed.


Lemma elem_of_class_rows (labels : list (cell num)) (rows : list nat)
    (cls : cell num) (r : nat) :
  r ∈ class_rows labels rows cls →
  ∃ i, rows !! i = Some r ∧ labels !! i = Some cls ∧ is_missing cls = false.
Proof.
  revert rows. induction labels as [|l labels IH]; intros [|r' rows];
    try (by intros ?%elem_of_nil).
  rewrite class_rows_cons. destruct (cell_eqb l cls) eqn:Hl.
  - apply cell_eqb_true in Hl as [-> Hcls]. intros [->|Hin]%elem_of_cons.
    + by exists 0.
    + destruct (IH _ Hin) as (i & ? & ? & ?). by exists (S i).
  - intros Hin. destruct (IH _ Hin) as (i & ? & ? & ?). by exists (S i).
Qed.


Lemma elem_of_class_rows_seq (labels : list (cell num)) (cls : cell num)
    (start i : nat) :
  labels !! i = Some cls → is_missing cls = false →
  start + i ∈ class_rows labels (seq start (length labels)) cls.
Proof.
  revert start i. induction labels as [|l labels IH]; intros start i Hi Hcls; [done|].
  cbn [length seq]. rewrite class_rows_cons. destruct i as [|i].
  - injection Hi as ->.
    replace (cell_eqb cls cls) with true by (symmetry; by apply cell_eqb_true).
    rewrite Nat.add_0_r. apply list_elem_of_here.
  - replace (start + S i) with (S start + i) by lia.
    destruct (cell_eqb l cls); [apply list_elem_of_further|]; by apply IH.
Qed.



Lemma NoDup_concat_unique {A : Type} (ls : list (list A)) (x : A) (i j : nat)
    (a b : list A) :
  NoDup (concat ls) → ls !! i = Some a → ls !! j = Some b →
  x ∈ a → x ∈ b → i = j.
Proof.
  revert i j. induction ls as [|l ls IH]; intros i j Hnd Hi Hj Ha Hb; [done|].
  cbn in Hnd. apply NoDup_app in Hnd as (_ & Hdisj & Hnd).
  assert (Hrest : ∀ k c, ls !! k = Some c → x ∈ c → x ∈ concat ls).
  { intros k c' Hk Hx. apply list_elem_of_In, in_concat. exists c'.
    split; apply list_elem_of_In; [by eapply list_elem_of_lookup_2 | done]. }
  destruct i as [|i], j as [|j]; [done | | |f_equal; by eapply IH].
  - injection Hi as ->. destruct (Hdisj x Ha). by eapply Hrest.
  - injection Hj as ->. destruct (Hdisj x Hb). by eapply Hrest.
Qed.

Lemma draws_class_rows (axis : string) (axes : list string)
    (class_colors : gmap string string) (alpha : num) (point_size : Z)
    (rows : list nat) (labels classes : list (cell num))
    (calls : list (scatter_call num)) :
  Forall2 (draws_class (axis :: axes) class_colors alpha point_size rows labels)
          classes calls →
  rows_of <$> calls = class_rows labels rows <$> classes
  ∧ c <$> calls = drawn_color class_colors <$> classes.
Proof.
  induction 1 as [|cls call classes calls (Hn & Hidx & Hc & _) _ [IH1 IH2]]; [done|].
  cbn [fmap list_fmap]. rewrite <- IH1, <- IH2, Hc. split; [|done]. f_equal.
  unfold rows_of. destruct (coords call) as [|xs ?]; [done|].
  by apply Forall_cons in Hidx as [-> _].
Qed.

End Partition.

Section Frames.

Context {num : Type} `{!EqDecision num}.

Lemma lookup_column_is_Some (key : string) (cols : list (string * list (cell num))) :
  is_Some (lookup_column key cols) ↔ key ∈ cols.*1.
Proof.
  induction cols as [|[k vs] cols IH]; cbn.
  - rewrite elem_of_nil. split; [by intros [? ?] | done].
  - rewrite elem_of_cons. case_decide as Hk.
    + split; [by left | by eexists].
    + rewrite IH. split; [by right | by intros [?|?]].
Qed.

Lemma lookup_column_length (df : DataFrame num) (key : string) (vs : list (cell num)) :
  rectangular df → lookup_column key (columns df) = Some vs →
  length vs = length (df_index df).
Proof.
  unfold rectangular. generalize (length (df_index df)) as n. intros n.
  induction 1 as [|[k old] cols Hk _ IH]; cbn; [done|].
  case_decide; [|exact IH]. by intros [= <-].
Qed.

Lemma imap_names (g : nat → list (cell num)) (names : list string) :
  (imap (λ j key, (key, g j)) names).*1 = names.
Proof.
  revert g. induction names as [|key names IH]; intros g; [done|].
  cbn. f_equal. apply (IH (g ∘ S)).
Qed.

Lemma lookup_column_imap (g : nat → list (cell num)) (names : list string)
    (j : nat) (key : string) :
  NoDup names → names !! j = Some key →
  lookup_column key (imap (λ j key, (key, g j)) names) = Some (g j).
Proof.
  intros Hnd. revert g j.
  induction Hnd as [|k names Hk Hnd IH]; intros g j Hj; [done|].
  cbn. destruct j as [|j].
  - injection Hj as ->. by rewrite decide_True.
  - rewrite decide_False.
    + apply (IH (g ∘ S) j Hj).
    + intros ->. apply Hk. by eapply list_elem_of_lookup_2.
Qed.

(** The column of the table made from the [j]-th column of an array. *)
Lemma DataFrame_of_array_column (a : ndarray num) (names : list string)
    (df : DataFrame num) (j : nat) (key : string) :
  NoDup names → DataFrame_of_array a names = Ok df → names !! j = Some key →
  lookup_column key (columns df)
  = Some ((λ i, Num (item a i j)) <$> seq 0 (shape0 a)).
Proof.
  intros Hnd Hdf Hj. unfold DataFrame_of_array in Hdf.
  case_decide; [|done]. injection Hdf as <-. cbn [columns].
  by apply (lookup_column_imap (λ j, (λ i, Num (item a i j)) <$> seq 0 (shape0 a))).
Qed.

Lemma DataFrame_of_array_spec (a : ndarray num) (names : list string) :
  length names = shape1 a →
  ∃ df, DataFrame_of_array a names = Ok df
        ∧ df_index df = seq 0 (shape0 a)
        ∧ rectangular df
        ∧ (columns df).*1 = names.
Proof.
  intros Hlen. unfold DataFrame_of_array. rewrite decide_True by done.
  eexists. split; [done|]. cbn [df_index columns]. split_and!; [done| |].
  - unfold rectangular. cbn [df_index columns]. apply Forall_forall.
    intros [key vs] Hin. apply list_elem_of_lookup in Hin as [j Hj].
    rewrite list_lookup_imap in Hj.
    destruct (names !! j); [|done]. injection Hj as _ <-.
    cbn. by rewrite length_fmap.
  - apply (imap_names (λ j, (λ i, Num (item a i j)) <$> seq 0 (shape0 a))).
Qed.

Lemma setitem_spec (df : DataFrame num) (key : string) (vs : list (cell num)) :
  length vs = length (df_index df) → rectangular df →
  ∃ df', setitem df key vs = Ok df'
         ∧ df_index df' = df_index df
         ∧ rectangular df'
         ∧ lookup_column key (columns df') = Some vs
         ∧ (∀ k, k ≠ key →
              lookup_column k (columns df') = lookup_column k (columns df))
         ∧ (columns df').*1
           = (if decide (key ∈ (columns df).*1) then (columns df).*1
              else (columns df).*1 ++ [key]).
Proof.
  intros Hlen Hrect. unfold setitem. rewrite decide_True by done.
  eexists. split; [done|]. cbn [df_index columns]. split_and!; [done| | | |].
  - unfold rectangular in *. cbn [df_index columns].
    induction Hrect as [|[k old] cols Hk Hcols IH]; cbn.
    + by repeat constructor.
    + case_decide; by constructor.
  - apply lookup_column_assign_eq.
  - intros k Hk. by apply lookup_column_assign_ne.
  - apply assign_names.
Qed.

(** A frame made from a reducer's output, with the label column added. *)
Lemma labelled_frame (a : ndarray num) (names : list string) (key : string)
    (vs : list (cell num)) :
  length names = shape1 a → length vs = shape0 a →
  ∃ df, (emb ← DataFrame_of_array a names; setitem emb key vs) = Ok df
        ∧ df_index df = seq 0 (shape0 a)
        ∧ rectangular df
        ∧ lookup_column key (columns df) = Some vs
        ∧ (columns df).*1 = (if decide (key ∈ names) then names else names ++ [key])
        ∧ (∀ j k, NoDup names → names !! j = Some k → k ≠ key →
             lookup_column k (columns df) = Some (array_column a j))
        ∧ Forall (λ k, is_Some (lookup_column k (columns df))) names.
Proof.
  intros Hnames Hvs.
  destruct (DataFrame_of_array_spec a names Hnames)
    as (df & Hdf & Hidx & Hrect & Hcols).
  rewrite Hdf.
  destruct (setitem_spec df key vs) as (df' & Hset & Hidx' & Hrect' & Hkey & Hne & Hcols');
    [by rewrite Hidx, length_seq | done |].
  exists df'. cbn [mbind result_bind]. split_and!; try done.
  - congruence.
  - by rewrite Hcols', Hcols.
  - intros j k Hnd Hj Hk. rewrite Hne by done.
    by apply (DataFrame_of_array_column a names).
  - apply Forall_forall. intros k Hk. apply lookup_column_is_Some.
    rewrite Hcols', Hcols. destruct (decide (key ∈ names)); [done|].
    apply elem_of_app. by left.
Qed.

Lemma setitem_names (df df' : DataFrame num) (key : string) (vs : list (cell num)) :
  (columns df').*1
  = (if decide (key ∈ (columns df).*1) then (columns df).*1
     else (columns df).*1 ++ [key]) →
  key ∈ (columns df').*1 ∧ ∀ k, k ∈ (columns df).*1 → k ∈ (columns df').*1.
Proof.
  intros ->. destruct (decide (key ∈ (columns df).*1)); split; try done.
  - apply elem_of_app. right. apply list_elem_of_here.
  - intros k Hk. apply elem_of_app. by left.
Qed.

End Frames.

Section Legend.

Context {num : Type} `{!EqDecision num}.
Variable class_colors : gmap string string.

Lemma any_unmapped_true (classes : list (cell num)) :
  any_unmapped class_colors classes = true
  ↔ ∃ cls, cls ∈ classes ∧ class_color class_colors cls = None.
Proof.
  unfold any_unmapped. rewrite existsb_exists. split.
  - intros (cls & Hin%list_elem_of_In & Hcls%bool_decide_eq_true). by exists cls.
  - intros (cls & Hin%list_elem_of_In & Hcls). exists cls.
    by rewrite bool_decide_eq_true.
Qed.

Lemma elem_of_class_handles (classes : list (cell num)) (h : Line2D) :
  h ∈ class_handles class_colors classes
  ↔ ∃ l col, Label l ∈ classes ∧ class_colors !! l = Some col
             ∧ h = legend_handle l col.
Proof.
  unfold class_handles. rewrite list_elem_of_omap. split.
  - intros ([x|l|m] & Hin & Hh); [done| |done]. cbn in Hh.
    destruct (class_colors !! l) as [col|] eqn:E; [|done].
    injection Hh as <-. by exists l, col.
  - intros (l & col & Hin & Hcol & ->). exists (Label l). split; [done|].
    cbn. by rewrite Hcol.
Qed.

Lemma elem_of_class_handle_labels (classes : list (cell num)) (l : string) :
  l ∈ label <$> class_handles class_colors classes
  ↔ Label l ∈ classes ∧ is_Some (class_colors !! l).
Proof.
  rewrite list_elem_of_fmap. split.
  - intros (h & -> & (l' & col & Hin & Hcol & ->)%elem_of_class_handles).
    cbn. split; [done | by eexists].
  - intros [Hin [col Hcol]]. exists (legend_handle l col). split; [done|].
    apply elem_of_class_handles. by exists l, col.
Qed.


Lemma other_handle_cases (classes : list (cell num)) :
  (any_unmapped class_colors classes = false
   ∧ other_handle class_colors classes = [])
  ∨ (any_unmapped class_colors classes = true
     ∧ ∃ cls, last classes = Some cls
              ∧ other_handle class_colors classes
                = [legend_handle "Other" (drawn_color class_colors cls)]).
Proof.
  unfold other_handle.
  destruct (any_unmapped class_colors classes) eqn:Hany; [right|by left].
  split; [done|]. unfold color_after.
  destruct classes as [|cls classes]; [done|].
  destruct (last (cls :: classes)) as [cls'|] eqn:E; [by exists cls'|].
  by apply last_None in E.
Qed.

Lemma has_label_other (classes : list (cell num)) :
  has_label "Other"
    (class_handles class_colors classes ++ other_handle class_colors classes)
  ↔ any_unmapped class_colors classes = true
    ∨ (Label "Other" ∈ classes ∧ is_Some (class_colors !! "Other")).
Proof.
  unfold has_label. split.
  - intros (h & [Hin|Hin]%elem_of_app & Hlabel).
    + right. apply elem_of_class_handle_labels, list_elem_of_fmap. by exists h.
    + left. destruct (other_handle_cases classes) as [[_ Hnil]|[Hany _]]; [|done].
      rewrite Hnil in Hin. by apply elem_of_nil in Hin.
  - intros [Hany|Hin].
    + destruct (other_handle_cases classes) as [[Hno _]|(_ & cls & _ & Hother)];
        [congruence|].
      exists (legend_handle "Other" (drawn_color class_colors cls)).
      split; [|reflexivity]. apply elem_of_app. right.
      rewrite Hother. apply list_elem_of_here.
    + apply elem_of_class_handle_labels, list_elem_of_fmap in Hin
        as (h & Hlabel & Hin).
      exists h. split; [|done]. apply elem_of_app. by left.
Qed.

Lemma any_unmapped_unique (labels : list (cell num)) :
  any_unmapped class_colors (unique labels) = true
  ↔ ∃ v, v ∈ labels ∧ class_color class_colors v = None.
Proof.
  rewrite any_unmapped_true. split; intros (v & Hin & Hv); exists v;
    (split; [by apply elem_of_unique | done]).
Qed.

End Legend.

Section Runs.

Context {num : Type} `{!EqDecision num}.
Variable fit_transform : nat → nat → ndarray num → result (ndarray num).
Variable random_sample : nat → num.
Variable feature_data : ndarray num.
Variable metadata_series : Series (cell num).

Hypothesis metadata_length :
  length (values metadata_series) = shape0 feature_data.

Lemma class_colored_embedding_spec (n_components : nat)
    (embed : ndarray num → Series (cell num) → result (DataFrame num))
    (reduced : ndarray num) :
  (n_components, embed) ∈ class_colored_embeddings fit_transform random_sample →
  reduced_to fit_transform n_components feature_data reduced →
  ∃ df,
    embed feature_data metadata_series = Ok df
    ∧ df_index df = seq 0 (shape0 feature_data)
    ∧ rectangular df
    ∧ lookup_column (name metadata_series) (columns df)
      = Some (loop_labels random_sample n_components feature_data metadata_series)
    ∧ Forall (λ k, k ∈ (columns df).*1) (plot_axes n_components)
    ∧ (∀ j key, umap_columns n_components !! j = Some key →
         key ≠ name metadata_series →
         lookup_column key (columns df) = Some (array_column reduced j))
    ∧ (n_components ≠ 1 →
       (columns df).*1
       = if decide (name metadata_series ∈ plot_axes n_components)
         then plot_axes n_components
         else plot_axes n_components ++ [name metadata_series]).
Proof.
  intros Hin (Hfit & Hrows & Hcols). unfold class_colored_embeddings in Hin.
  assert (Hlabels : length (tolist metadata_series) = shape0 reduced)
    by (unfold tolist; congruence).
  repeat (apply elem_of_cons in Hin as [[= -> ->]|Hin]); [| | |by apply elem_of_nil in Hin].
  - (* show_1D_umap *)
    unfold embedding_1D. rewrite Hfit. cbn [mbind result_bind].
    destruct (DataFrame_of_array_spec reduced ["UMAP1"])
      as (df0 & Hdf0 & Hi0 & Hr0 & Hn0); [done|].
    rewrite Hdf0. cbn [mbind result_bind].
    destruct (setitem_spec df0 (name metadata_series)
                (tolist metadata_series))
      as (df1 & -> & Hi1 & Hr1 & Hk1 & Hne1 & Hn1);
      [by rewrite Hi0, length_seq | done |]. cbn [mbind result_bind].
    destruct (setitem_spec df1 "y_distribution"
                (Num <$> np_random_rand random_sample (shape0 feature_data)))
      as (df2 & -> & Hi2 & Hr2 & Hk2 & Hne2 & Hn2);
      [by unfold np_random_rand; rewrite Hi1, Hi0, !length_fmap, !length_seq
      | done |].
    destruct (setitem_names df0 df1 _ (tolist metadata_series) Hn1)
      as [_ Hmono1].
    destruct (setitem_names df1 df2 _
                (Num <$> np_random_rand random_sample (shape0 feature_data)) Hn2)
      as [Hy Hmono2].
    exists df2. split_and!; [done | congruence | done | | | | done].
    + unfold loop_labels.
      destruct (decide (1 = 1 ∧ name metadata_series = "y_distribution"))
        as [[_ Heq]|Hname].
      * rewrite Heq. exact Hk2.
      * rewrite Hne2; [exact Hk1|]. intros Heq. by apply Hname.
    + repeat constructor; [|exact Hy].
      apply Hmono2, Hmono1. rewrite Hn0. apply list_elem_of_here.
    + intros j key Hj Hkey. destruct j as [|j]; [|done]. injection Hj as <-.
      rewrite Hne2, Hne1 by done.
      by apply (DataFrame_of_array_column reduced ["UMAP1"] df0 0);
        [apply NoDup_singleton | |].
  - (* show_2D_umap *)
    unfold embedding_2D. rewrite Hfit. cbn [mbind result_bind].
    destruct (labelled_frame reduced ["UMAP1"; "UMAP2"] (name metadata_series)
                (tolist metadata_series))
      as (df & -> & Hi & Hr & Hk & Hn & Hcol & Hax); [done | done |].
    exists df. split_and!; [done | congruence | done | | | | done].
    + unfold loop_labels. rewrite decide_False; [exact Hk | by intros [? _]].
    + eapply Forall_impl; [exact Hax|]. intros k. apply lookup_column_is_Some.
    + intros j key Hj Hkey. apply Hcol; [|exact Hj|exact Hkey].
      apply (bool_decide_unpack _). reflexivity.
  - (* show_3D_umap *)
    unfold embedding_3D. rewrite Hfit. cbn [mbind result_bind].
    destruct (labelled_frame reduced ["UMAP1"; "UMAP2"; "UMAP3"]
                (name metadata_series) (tolist metadata_series))
      as (df & -> & Hi & Hr & Hk & Hn & Hcol & Hax); [done | done |].
    exists df. split_and!; [done | congruence | done | | | | done].
    + unfold loop_labels. rewrite decide_False; [exact Hk | by intros [? _]].
    + eapply Forall_impl; [exact Hax|]. intros k. apply lookup_column_is_Some.
    + intros j key Hj Hkey. apply Hcol; [|exact Hj|exact Hkey].
      apply (bool_decide_unpack _). reflexivity.
Qed.

Lemma class_colored_plot_spec (n_components : nat)
    (show : ndarray num → Series (cell num) → gmap string string → option string →
            Z → num → result (figure num * pyvalue num))
    (reduced : ndarray num) (class_colors : gmap string string)
    (save_path : option string) (point_size : Z) (alpha : num) :
  let labels := loop_labels random_sample n_components feature_data metadata_series in
  (n_components, show) ∈ class_colored_plots fit_transform random_sample →
  reduced_to fit_transform n_components feature_data reduced →
  ∃ fig ret,
    show feature_data metadata_series class_colors save_path point_size alpha
    = Ok (fig, ret)
    ∧ legend fig
      = class_handles class_colors (unique labels)
        ++ other_handle class_colors (unique labels)
    ∧ Forall2 (draws_class (plot_axes n_components) class_colors alpha point_size
                           (seq 0 (shape0 feature_data)) labels)
              (unique labels) (scatters fig)
    ∧ savefig fig = save_path
    ∧ (n_components = 2 →
       ∃ df, ret = PyDataFrame df
             ∧ embedding_2D fit_transform feature_data metadata_series = Ok df)
    ∧ (n_components ≠ 2 → ret = PyNone).
Proof.
  intros labels Hin Hred. unfold class_colored_plots in Hin.
  repeat (apply elem_of_cons in Hin as [[= -> ->]|Hin]); [| | |by apply elem_of_nil in Hin].
  - destruct (class_colored_embedding_spec 1 _ reduced
                ltac:(apply list_elem_of_here) Hred)
      as (df & Hdf & Hidx & _ & Hlabels & Haxes & _ & _).
    destruct (plot_classes_spec (plot_axes 1) df (name metadata_series)
                class_colors alpha point_size labels Hlabels)
      as (calls & Hplot & Hcalls).
    { eapply Forall_impl; [exact Haxes|]. intros k. apply lookup_column_is_Some. }
    unfold show_1D_umap. rewrite Hdf. cbn [mbind result_bind].
    change ["UMAP1"; "y_distribution"] with (plot_axes 1). rewrite Hplot.
    eexists _, _. split; [reflexivity|]. cbn [legend scatters savefig fst snd].
    rewrite <- Hidx. split_and!; try done.
  - destruct (class_colored_embedding_spec 2 _ reduced
                ltac:(apply list_elem_of_further, list_elem_of_here) Hred)
      as (df & Hdf & Hidx & _ & Hlabels & Haxes & _ & _).
    destruct (plot_classes_spec (plot_axes 2) df (name metadata_series)
                class_colors alpha point_size labels Hlabels)
      as (calls & Hplot & Hcalls).
    { eapply Forall_impl; [exact Haxes|]. intros k. apply lookup_column_is_Some. }
    unfold show_2D_umap. rewrite Hdf. cbn [mbind result_bind].
    change ["UMAP1"; "UMAP2"] with (plot_axes 2). rewrite Hplot.
    eexists _, _. split; [reflexivity|]. cbn [legend scatters savefig fst snd].
    rewrite <- Hidx. split_and!; try done. intros _. by exists df.
  - destruct (class_colored_embedding_spec 3 _ reduced
                ltac:(do 2 apply list_elem_of_further; apply list_elem_of_here) Hred)
      as (df & Hdf & Hidx & _ & Hlabels & Haxes & _ & _).
    destruct (plot_classes_spec (plot_axes 3) df (name metadata_series)
                class_colors alpha point_size labels Hlabels)
      as (calls & Hplot & Hcalls).
    { eapply Forall_impl; [exact Haxes|]. intros k. apply lookup_column_is_Some. }
    unfold show_3D_umap. rewrite Hdf. cbn [mbind result_bind].
    change ["UMAP1"; "UMAP2"; "UMAP3"] with (plot_axes 3). rewrite Hplot.
    eexists _, _. split; [reflexivity|]. cbn [legend scatters savefig fst snd].
    rewrite <- Hidx. split_and!; try done.
Qed.

End Runs.

Section Claims.

Context {num : Type} `{!EqDecision num}.
Variable fit_transform : nat → nat → ndarray num → result (ndarray num).
Variable random_sample : nat → num.

(** C2 (amended): for each of [show_1D_umap], [show_2D_umap] and
    [show_3D_umap], when no label of the series is both named "Other" and
    a key of the colour map (and, for [show_1D_umap], the series is not
    named like its helper column "y_distribution"), the legend has an
    "Other" entry if and only if some label of the series is not a key of
    the colour map -- as a missing label never is. *)
Theorem other_entry_iff_unmapped_label (n_components : nat)
    (show : ndarray num → Series (cell num) → gmap string string → option string →
            Z → num → result (figure num * pyvalue num))
    (feature_data reduced : ndarray num) (metadata_series : Series (cell num))
    (class_colors : gmap string string) (save_path : option string)
    (point_size : Z) (alpha : num) :
  (n_components, show) ∈ class_colored_plots fit_transform random_sample →
  reduced_to fit_transform n_components feature_data reduced →
  length (values metadata_series) = shape0 feature_data →
  ¬ (n_components = 1 ∧ name metadata_series = "y_distribution") →
  ¬ (Label "Other" ∈ values metadata_series ∧ is_Some (class_colors !! "Other")) →
  ∃ fig ret,
    show feature_data metadata_series class_colors save_path point_size alpha
    = Ok (fig, ret)
    ∧ (has_label "Other" (legend fig)
       ↔ ∃ l, l ∈ values metadata_series ∧ class_color class_colors l = None).
Proof.
  intros Hin Hred Hlen Hname Hother.
  destruct (class_colored_plot_spec fit_transform random_sample feature_data
              metadata_series Hlen n_components show reduced class_colors
              save_path point_size alpha Hin Hred)
    as (fig & ret & Hshow & Hlegend & _).
  exists fig, ret. split; [exact Hshow|].
  rewrite Hlegend, has_label_other. unfold loop_labels.
  rewrite decide_False by done. rewrite any_unmapped_unique.
  split; [|by left]. intros [?|[Hin' Hsome]]; [done|].
  destruct Hother. split; [|done]. by apply elem_of_unique.
Qed.

(** C7: whenever the reducer returns an array with a row per observation
    and a column per component, [get_2D_umap_embeddings] returns two
    coordinate vectors as long as the feature matrix has rows, and the
    table that [show_1D_umap], [show_2D_umap] or [show_3D_umap] builds has
    as many rows as the feature matrix, every column of that length, and
    a column per component that holds the reducer's coordinates (unless
    the metadata series bears the column's name). *)
Theorem embedding_row_count (n_components : nat)
    (embed : ndarray num → Series (cell num) → result (DataFrame num))
    (feature_data reduced reduced2 : ndarray num) (random_state : nat)
    (metadata_series : Series (cell num)) :
  (n_components, embed) ∈ class_colored_embeddings fit_transform random_sample →
  reduced_to fit_transform n_components feature_data reduced →
  length (values metadata_series) = shape0 feature_data →
  fit_transform random_state 2 feature_data = Ok reduced2 →
  shape0 reduced2 = shape0 feature_data →
  shape1 reduced2 = 2 →
  (∃ x_data y_data,
     get_2D_umap_embeddings fit_transform feature_data random_state
     = Ok (x_data, y_data)
     ∧ length x_data = shape0 feature_data
     ∧ length y_data = shape0 feature_data)
  ∧ ∃ df,
      embed feature_data metadata_series = Ok df
      ∧ length (df_index df) = shape0 feature_data
      ∧ (∀ key vs, lookup_column key (columns df) = Some vs →
           length vs = shape0 feature_data)
      ∧ length (umap_columns n_components) = n_components
      ∧ (∀ j key, umap_columns n_components !! j = Some key →
           key ∈ (columns df).*1
           ∧ (key ≠ name metadata_series →
              lookup_column key (columns df) = Some (array_column reduced j))).
Proof.
  intros Hin Hred Hlen Hfit2 Hrows2 Hcols2. split.
  - unfold get_2D_umap_embeddings. rewrite Hfit2. cbn [mbind result_bind].
    unfold row, transpose. cbn [shape0 shape1 item]. rewrite Hcols2.
    rewrite !decide_True by lia. cbn [mbind result_bind].
    eexists _, _. split; [reflexivity|].
    by rewrite !length_fmap, !length_seq.
  - destruct (class_colored_embedding_spec fit_transform random_sample
                feature_data metadata_series Hlen n_components embed reduced
                Hin Hred)
      as (df & Hdf & Hidx & Hrect & _ & Haxes & Hcoord & _).
    exists df. split_and!; [exact Hdf | | | |].
    + by rewrite Hidx, length_seq.
    + intros key vs Hkey. rewrite (lookup_column_length df key vs Hrect Hkey).
      by rewrite Hidx, length_seq.
    + unfold class_colored_embeddings in Hin.
      by repeat (apply elem_of_cons in Hin as [[= -> _]|Hin];
                 [reflexivity|]); apply elem_of_nil in Hin.
    + intros j key Hj. split; [|by apply Hcoord].
      rewrite Forall_forall in Haxes. apply Haxes.
      unfold class_colored_embeddings in Hin.
      repeat (apply elem_of_cons in Hin as [[= -> _]|Hin];
              [ repeat (destruct j as [|j]; [injection Hj as <-; set_solver|]);
                done |]).
      by apply elem_of_nil in Hin.
Qed.

(** C8: [show_2D_umap_from_embeddings] returns no value, and it does
    return when its three vectors are equally long; [show_2D_umap]
    returns the table it built: its columns are "UMAP1", "UMAP2" and the
    name of the metadata series (in this order when the name is neither
    of the first two), and the column of that name holds the values of the
    series in their order. *)
Theorem returned_values (feature_data reduced : ndarray num)
    (metadata_series : Series (cell num)) (class_colors : gmap string string)
    (save_path : option string) (point_size : Z) (alpha : num)
    (x_data y_data : list num) (palette : string) :
  reduced_to fit_transform 2 feature_data reduced →
  length (values metadata_series) = shape0 feature_data →
  (∀ r, show_2D_umap_from_embeddings x_data y_data metadata_series save_path
          point_size alpha palette = Ok r → r.2 = PyNone)
  ∧ (length x_data = length y_data →
     length x_data = length (values metadata_series) →
     ∃ plot, show_2D_umap_from_embeddings x_data y_data metadata_series
               save_path point_size alpha palette = Ok (plot, PyNone))
  ∧ ∃ fig df,
      show_2D_umap fit_transform feature_data metadata_series class_colors
        save_path point_size alpha = Ok (fig, PyDataFrame df)
      ∧ (∀ key, key ∈ (columns df).*1
                ↔ key ∈ ["UMAP1"; "UMAP2"; name metadata_series])
      ∧ (name metadata_series ∉ ["UMAP1"; "UMAP2"] →
         (columns df).*1 = ["UMAP1"; "UMAP2"; name metadata_series])
      ∧ column df (name metadata_series)
        = Ok (MkSeries (name metadata_series) (seq 0 (shape0 feature_data))
                       (values metadata_series))
      ∧ (∀ j key, ["UMAP1"; "UMAP2"] !! j = Some key →
           key ≠ name metadata_series →
           lookup_column key (columns df) = Some (array_column reduced j)).
Proof.
  intros Hred Hlen. split_and!.
  - intros r. unfold show_2D_umap_from_embeddings. case_decide; [|done].
    by intros [= <-].
  - intros Hxy Hx. unfold show_2D_umap_from_embeddings, tolist.
    rewrite decide_True by done. by eexists.
  - assert (H2 : (2, show_2D_umap fit_transform)
                 ∈ class_colored_plots fit_transform random_sample)
      by apply list_elem_of_further, list_elem_of_here.
    destruct (class_colored_plot_spec fit_transform random_sample feature_data
                metadata_series Hlen 2 _ reduced class_colors save_path
                point_size alpha H2 Hred)
      as (fig & ret & Hshow & _ & _ & _ & Hret & _).
    destruct (Hret eq_refl) as (df & -> & Hdf).
    assert (E2 : (2, embedding_2D fit_transform)
                 ∈ class_colored_embeddings fit_transform random_sample)
      by apply list_elem_of_further, list_elem_of_here.
    destruct (class_colored_embedding_spec fit_transform random_sample
                feature_data metadata_series Hlen 2 _ reduced E2 Hred)
      as (df' & Hdf' & Hidx & _ & Hlabels & _ & Hcoord & Hnames).
    rewrite Hdf in Hdf'. injection Hdf' as <-.
    specialize (Hnames ltac:(done)). cbn [plot_axes] in Hnames.
    exists fig, df. split_and!; [exact Hshow | | | | exact Hcoord].
    + intros key. rewrite Hnames.
      destruct (decide (name metadata_series ∈ ["UMAP1"; "UMAP2"])) as [Hn|Hn].
      * change ["UMAP1"; "UMAP2"; name metadata_series]
          with (["UMAP1"; "UMAP2"] ++ [name metadata_series]).
        rewrite elem_of_app, list_elem_of_singleton.
        split; [by left | by intros [?| ->]].
      * done.
    + intros Hn. by rewrite Hnames, decide_False.
    + rewrite (column_Some _ _ _ Hlabels), Hidx. unfold loop_labels.
      rewrite decide_False; [done | by intros [? _]].
Qed.


(** The part of C3 that holds: every class is drawn with its colour, a
    class without one with the fixed gray. *)
Lemma unmapped_classes_drawn_gray (n_components : nat)
    (show : ndarray num → Series (cell num) → gmap string string → option string →
            Z → num → result (figure num * pyvalue num))
    (feature_data reduced : ndarray num) (metadata_series : Series (cell num))
    (class_colors : gmap string string) (save_path : option string)
    (point_size : Z) (alpha : num) :
  let labels := loop_labels random_sample n_components feature_data metadata_series in
  (n_components, show) ∈ class_colored_plots fit_transform random_sample →
  reduced_to fit_transform n_components feature_data reduced →
  length (values metadata_series) = shape0 feature_data →
  ∃ fig ret,
    show feature_data metadata_series class_colors save_path point_size alpha
    = Ok (fig, ret)
    ∧ c <$> scatters fig = drawn_color class_colors <$> unique labels
    ∧ ∀ cls : cell num, class_color class_colors cls = None →
                        drawn_color class_colors cls = "#808080".
Proof.
  intros labels Hin Hred Hlen.
  destruct (class_colored_plot_spec fit_transform random_sample feature_data
              metadata_series Hlen n_components show reduced class_colors
              save_path point_size alpha Hin Hred)
    as (fig & ret & Hshow & _ & Hcalls & _).
  exists fig, ret. split_and!; [exact Hshow | |].
  - unfold class_colored_plots in Hin.
    repeat (apply elem_of_cons in Hin as [[= -> _]|Hin];
            [by eapply draws_class_rows|]).
    by apply elem_of_nil in Hin.
  - intros cls Hcls. unfold drawn_color. by rewrite Hcls.
Qed.

End Claims.

Example show_2D_umap_example :
  ∃ fig df,
    show_2D_umap first_columns example_features
      (example_series "Metadata_Gene" ["KIF11"; "INCENP"; "KIF11"])
      {[ "KIF11" := "#ff0000" ]} None 5 1%Z
    = Ok (fig, PyDataFrame df)
    ∧ legend fig = [legend_handle "KIF11" "#ff0000"; legend_handle "Other" "#808080"]
    ∧ c <$> scatters fig = ["#ff0000"; "#808080"]
    ∧ rows_of <$> scatters fig = [[0; 2]; [1]]
    ∧ columns df
      = [("UMAP1", [Num 0%Z; Num 10%Z; Num 20%Z]);
         ("UMAP2", [Num 1%Z; Num 11%Z; Num 21%Z]);
         ("Metadata_Gene", [Label "KIF11"; Label "INCENP"; Label "KIF11"])].
Proof. eexists _, _. split; [vm_compute; reflexivity|]. by split_and!. Qed.


(** C2, as stated, at two inputs whose labels all have a colour: a class
    that is itself named "Other" puts an "Other" entry into the legend of
    [show_2D_umap], and a series named "y_distribution" has its labels
    overwritten by the random column of [show_1D_umap], so that every row
    counts as unmapped. *)
Lemma other_entry_all_labels_mapped :
  (∃ fig ret,
     show_2D_umap first_columns example_features
       (example_series "Metadata_Gene" ["Other"; "Other"; "Other"])
       {[ "Other" := "#ff0000" ]} None 5 1%Z = Ok (fig, ret)
     ∧ has_label "Other" (legend fig)
     ∧ ¬ ∃ l, l ∈ ["Other"; "Other"; "Other"]
              ∧ ({[ "Other" := "#ff0000" ]} : gmap string string) !! l = None)
  ∧ (∃ fig ret,
       show_1D_umap first_columns example_draws example_features
         (example_series "y_distribution" ["a"; "a"; "a"])
         {[ "a" := "#ff0000" ]} None 5 1%Z = Ok (fig, ret)
       ∧ has_label "Other" (legend fig)
       ∧ ¬ ∃ l, l ∈ ["a"; "a"; "a"]
                ∧ ({[ "a" := "#ff0000" ]} : gmap string string) !! l = None).
Proof.
  split.
  - eexists _, _. split; [vm_compute; reflexivity|]. split.
    + eexists. split; [apply list_elem_of_here | reflexivity].
    + intros (l & Hl & Hnone).
      repeat (apply elem_of_cons in Hl as [->|Hl]; [done|]).
      by apply elem_of_nil in Hl.
  - eexists _, _. split; [vm_compute; reflexivity|]. split.
    + eexists. split; [apply list_elem_of_here | reflexivity].
    + intros (l & Hl & Hnone).
      repeat (apply elem_of_cons in Hl as [->|Hl]; [done|]).
      by apply elem_of_nil in Hl.
Qed.

(** C3 fails on the code: after the loop the variable [color] holds the
    colour of the last class drawn, and the "Other" handle takes it.  With
    an unmapped class first and a mapped class last, the points of the
    unmapped class are gray, but the "Other" swatch has the colour of the
    mapped class -- in each of the three functions. *)
Theorem other_swatch_takes_last_class_color :
  let series := example_series "Metadata_Gene" ["INCENP"; "KIF11"; "KIF11"] in
  let class_colors : gmap string string := {[ "KIF11" := "#ff0000" ]} in
  let drawn :=
    Ok (["#808080"; "#ff0000"],
        [legend_handle "KIF11" "#ff0000"; legend_handle "Other" "#ff0000"]) in
  let colors_and_legend (shown : result (figure Z * pyvalue Z)) :=
    r ← shown; Ok (c <$> scatters r.1, legend r.1) in
  colors_and_legend
    (show_1D_umap first_columns example_draws example_features series
       class_colors None 5 1%Z) = drawn
  ∧ colors_and_legend
      (show_2D_umap first_columns example_features series class_colors None 5 1%Z)
    = drawn
  ∧ colors_and_legend
      (show_3D_umap first_columns example_features series class_colors None 5 1%Z)
    = drawn.
Proof. split_and!; vm_compute; reflexivity. Qed.

Lemma other_entry_iff_unmapped_label_witness :
  let series := example_series "Metadata_Gene" ["KIF11"; "INCENP"; "KIF11"] in
  let class_colors : gmap string string := {[ "KIF11" := "#ff0000" ]} in
  let reduced := NDArray 3 2 (item example_features) in
  ((2, show_2D_umap first_columns) ∈ class_colored_plots first_columns example_draws
   ∧ reduced_to first_columns 2 example_features reduced
   ∧ length (values series) = shape0 example_features
   ∧ ¬ (2 = 1 ∧ name series = "y_distribution")
   ∧ ¬ (Label "Other" ∈ values series ∧ is_Some (class_colors !! "Other")))
  ∧ ∃ fig ret,
      show_2D_umap first_columns example_features series class_colors None 5 1%Z
      = Ok (fig, ret)
      ∧ (has_label "Other" (legend fig)
         ↔ ∃ l, l ∈ values series ∧ class_color class_colors l = None).
Proof.
  intros series class_colors reduced.
  assert (H1 : (2, show_2D_umap first_columns)
               ∈ class_colored_plots first_columns example_draws)
    by apply list_elem_of_further, list_elem_of_here.
  assert (H2 : reduced_to first_columns 2 example_features reduced)
    by (split_and!; reflexivity).
  assert (H3 : length (values series) = shape0 example_features) by reflexivity.
  assert (H4 : ¬ (2 = 1 ∧ name series = "y_distribution")) by (intros [? _]; lia).
  assert (H5 : ¬ (Label "Other" ∈ values series ∧ is_Some (class_colors !! "Other")))
    by (intros [_ [x Hx]]; vm_compute in Hx; discriminate).
  split; [by split_and!|].
  exact (other_entry_iff_unmapped_label first_columns example_draws 2
           (show_2D_umap first_columns) example_features reduced series
           class_colors None 5 1%Z H1 H2 H3 H4 H5).
Defined.

Lemma embedding_row_count_witness :
  let series := example_series "Metadata_Gene" ["KIF11"; "INCENP"; "KIF11"] in
  let reduced := NDArray 3 3 (item example_features) in
  let reduced2 := NDArray 3 2 (item example_features) in
  ((3, embedding_3D first_columns)
   ∈ class_colored_embeddings first_columns example_draws
   ∧ reduced_to first_columns 3 example_features reduced
   ∧ length (values series) = shape0 example_features
   ∧ first_columns 0 2 example_features = Ok reduced2
   ∧ shape0 reduced2 = shape0 example_features
   ∧ shape1 reduced2 = 2)
  ∧ (∃ x_data y_data,
       get_2D_umap_embeddings first_columns example_features 0 = Ok (x_data, y_data)
       ∧ length x_data = 3 ∧ length y_data = 3)
  ∧ ∃ df, embedding_3D first_columns example_features series = Ok df
          ∧ length (df_index df) = 3.
Proof.
  intros series reduced reduced2.
  assert (H1 : (3, embedding_3D first_columns)
               ∈ class_colored_embeddings first_columns example_draws)
    by (do 2 apply list_elem_of_further; apply list_elem_of_here).
  assert (H2 : reduced_to first_columns 3 example_features reduced)
    by (split_and!; reflexivity).
  assert (H3 : length (values series) = shape0 example_features) by reflexivity.
  assert (H4 : first_columns 0 2 example_features = Ok reduced2) by reflexivity.
  assert (H5 : shape0 reduced2 = shape0 example_features) by reflexivity.
  assert (H6 : shape1 reduced2 = 2) by reflexivity.
  split; [by split_and!|].
  destruct (embedding_row_count first_columns example_draws 3
              (embedding_3D first_columns) example_features reduced reduced2 0
              series H1 H2 H3 H4 H5 H6)
    as [Hxy (df & Hdf & Hidx & _)].
  split; [exact Hxy | by exists df].
Defined.

Lemma returned_values_witness :
  let series := example_series "Metadata_Gene" ["KIF11"; "INCENP"; "KIF11"] in
  let class_colors : gmap string string := {[ "KIF11" := "#ff0000" ]} in
  let reduced := NDArray 3 2 (item example_features) in
  (reduced_to first_columns 2 example_features reduced
   ∧ length (values series) = shape0 example_features)
  ∧ (∃ plot, show_2D_umap_from_embeddings [1; 2; 3]%Z [4; 5; 6]%Z series None 5
               1%Z "bright" = Ok (plot, PyNone))
  ∧ ∃ fig df,
      show_2D_umap first_columns example_features series class_colors None 5 1%Z
      = Ok (fig, PyDataFrame df)
      ∧ (columns df).*1 = ["UMAP1"; "UMAP2"; "Metadata_Gene"]
      ∧ column df "Metadata_Gene"
        = Ok (MkSeries "Metadata_Gene" [0; 1; 2]
                       [Label "KIF11"; Label "INCENP"; Label "KIF11"]).
Proof.
  intros series class_colors reduced.
  assert (H1 : reduced_to first_columns 2 example_features reduced)
    by (split_and!; reflexivity).
  assert (H2 : length (values series) = shape0 example_features) by reflexivity.
  split; [by split|].
  destruct (returned_values first_columns example_draws example_features reduced
              series class_colors None 5 1%Z [1; 2; 3]%Z [4; 5; 6]%Z "bright"
              H1 H2)
    as (_ & Hfrom & fig & df & Hshow & _ & Hnames & Hcol & _).
  split; [by apply Hfrom|].
  exists fig, df. split_and!; [exact Hshow | | exact Hcol].
  apply Hnames. apply (bool_decide_unpack _). reflexivity.
Defined.


#[global] Instance Label_inj {num : Type} : Inj (=) (=) (@Label num).
Proof. by intros ?? [= ->]. Qed.

Section MoreTables.

Context {num : Type} `{!EqDecision num}.

Lemma class_handles_labels (class_colors : gmap string string)
    (classes : list (cell num)) :
  label <$> class_handles class_colors classes
  = class_label <$> filter (λ v, is_Some (class_color class_colors v)) classes.
Proof.
  induction classes as [|v classes IH]; [done|].
  change (class_handles class_colors (v :: classes))
    with (class_handles class_colors ([v] ++ classes)).
  unfold class_handles. rewrite omap_app, fmap_app.
  fold (class_handles class_colors classes). rewrite IH.
  rewrite filter_cons. cbn [omap list_omap].
  destruct (class_color class_colors v) as [col|] eqn:E; cbn.
  - rewrite decide_True by (by eexists). done.
  - rewrite decide_False by (by intros [? ?]). done.
Qed.

Lemma fmap_Label_class_label (classes : list (cell num)) :
  Forall (λ v, ∃ l, v = Label l) classes →
  Label <$> (class_label <$> classes) = classes.
Proof.
  induction 1 as [|v classes [l ->] _ IH]; [done|]. cbn. by rewrite IH.
Qed.

Lemma existsb_unique {A : Type} `{!EqDecision A} (f : A → bool) (l : list A) :
  existsb f (unique l) = existsb f l.
Proof.
  apply eq_true_iff_eq. rewrite !existsb_exists.
  split; intros (x & Hx & Hf); exists x; split; try done;
    apply list_elem_of_In; apply list_elem_of_In in Hx; by apply elem_of_unique.
Qed.

Lemma any_unmapped_unique_eq (class_colors : gmap string string)
    (labels : list (cell num)) :
  any_unmapped class_colors (unique labels) = any_unmapped class_colors labels.
Proof. apply existsb_unique. Qed.

Lemma filter_all {A : Type} (P : A → Prop) `{!∀ x, Decision (P x)} (l : list A) :
  Forall P l → filter P l = l.
Proof.
  induction 1 as [|x l Hx _ IH]; [done|]. rewrite filter_cons_True by done.
  by rewrite IH.
Qed.

End MoreTables.

Section Calls.

Import PlotCalls.

Context {num : Type} `{!EqDecision num}.

Lemma filter_mask_lookup_seq {A : Type} (mask : list bool) (vs : list A)
    (start p r : nat) :
  filter_mask mask (seq start (length vs)) !! p = Some r →
  start ≤ r < start + length vs ∧ filter_mask mask vs !! p = vs !! (r - start).
Proof.
  revert mask start p. induction vs as [|v vs IH]; intros [|b mask] start p; try done.
  cbn [length seq filter_mask]. destruct b.
  - destruct p as [|p].
    + intros [= <-]. split; [lia|]. by rewrite Nat.sub_diag.
    + rewrite !lookup_cons_ne_0 by done. cbn [pred]. intros Hp.
      destruct (IH mask (S start) p Hp) as [Hr ->]. split; [lia|].
      replace (r - start) with (S (r - S start)) by lia. done.
  - intros Hp. destruct (IH mask (S start) p Hp) as [Hr ->]. split; [lia|].
    replace (r - start) with (S (r - S start)) by lia. done.
Qed.

Variable axes : list string.
Variable embedding : DataFrame num.
Variable metadata_name : string.
Variable class_colors : gmap string string.
Variable alpha : num.
Variable point_size : Z.
Variable labels : list (cell num).

Hypothesis labels_column :
  lookup_column metadata_name (columns embedding) = Some labels.
Hypothesis axes_columns :
  Forall (λ a, is_Some (lookup_column a (columns embedding))) axes.

Lemma mapM_column_loc_closed (cls : cell num) (keys : list string) :
  Forall (λ a, is_Some (lookup_column a (columns embedding))) keys →
  mapM (column (loc embedding
                    (eq_mask (MkSeries metadata_name (df_index embedding) labels)
                             cls)))
       keys
  = Ok (class_series embedding labels cls <$> keys).
Proof.
  induction 1 as [|a keys [vs Ha] _ IH]; [done|].
  cbn [mapM]. rewrite column_loc, Ha, IH. cbn [mbind result_bind mret result_ret].
  change (class_series embedding labels cls <$> a :: keys)
    with (class_series embedding labels cls a
          :: (class_series embedding labels cls <$> keys)).
  unfold class_series at 2. by rewrite Ha.
Qed.

Lemma plot_class_call (st : loop_state num) (cls : cell num) :
  ∃ st',
    plot_class axes embedding metadata_name class_colors alpha point_size st cls
    = Ok st'
    ∧ scatter_calls st'
      = scatter_calls st
        ++ [class_call axes embedding labels class_colors alpha point_size cls].
Proof.
  unfold plot_class. rewrite (column_Some _ _ _ labels_column).
  cbn [mbind result_bind]. rewrite (mapM_column_loc_closed cls axes axes_columns).
  cbn [mbind result_bind]. unfold class_call, drawn_color.
  destruct (class_color class_colors cls) as [col|]; eexists; split; done.
Qed.

Lemma for_each_plot_class_calls (classes : list (cell num)) (st : loop_state num) :
  ∃ st',
    for_each (plot_class axes embedding metadata_name class_colors alpha point_size)
             classes st = Ok st'
    ∧ scatter_calls st'
      = scatter_calls st
        ++ (class_call axes embedding labels class_colors alpha point_size
              <$> classes).
Proof.
  revert st. induction classes as [|cls classes IH]; intros st.
  - exists st. split; [done|]. by rewrite app_nil_r.
  - destruct (plot_class_call st cls) as (st1 & Hst1 & Hcalls1).
    destruct (IH st1) as (st' & Hst' & Hcalls').
    exists st'. cbn [for_each]. rewrite Hst1. cbn [mbind result_bind].
    split; [exact Hst'|]. rewrite Hcalls', Hcalls1, <- app_assoc. done.
Qed.

Lemma plot_classes_calls :
  ∃ handles,
    plot_classes axes embedding metadata_name class_colors alpha point_size
    = Ok (class_call axes embedding labels class_colors alpha point_size
            <$> unique labels,
          handles).
Proof.
  destruct (plot_classes_spec axes embedding metadata_name class_colors alpha
              point_size labels labels_column axes_columns)
    as (calls & Hspec & _).
  revert Hspec. unfold plot_classes. rewrite (column_Some _ _ _ labels_column).
  cbn [mbind result_bind values].
  edestruct (for_each_plot_class_calls (unique labels)) as (st' & -> & Hcalls).
  cbn [mbind result_bind scatter_calls app] in *. rewrite Hcalls.
  destruct (if other_classes_exist st' then _ else _) as [handles|e];
    [by exists handles | done].
Qed.

End Calls.

Section Extras.

Context {num : Type} `{!EqDecision num}.
Variable fit_transform : nat → nat → ndarray num → result (ndarray num).
Variable random_sample : nat → num.

(** X9: [get_2D_umap_embeddings] returns the two columns of the reducer's
    output: transposing and taking rows 0 and 1 gives, for every
    observation [i], its first and its second coordinate at position
    [i]. *)
Theorem get_2D_umap_embeddings_columns (feature_data reduced : ndarray num)
    (random_state : nat) :
  fit_transform random_state 2 feature_data = Ok reduced →
  shape1 reduced = 2 →
  get_2D_umap_embeddings fit_transform feature_data random_state
  = Ok ((λ i, item reduced i 0) <$> seq 0 (shape0 reduced),
        (λ i, item reduced i 1) <$> seq 0 (shape0 reduced)).
Proof.
  intros Hfit Hcols. unfold get_2D_umap_embeddings. rewrite Hfit.
  cbn [mbind result_bind]. unfold row, transpose. cbn [shape0 shape1 item].
  rewrite Hcols, !decide_True by lia. reflexivity.
Qed.

(** X10: unless the series of [show_1D_umap] is named "y_distribution",
    the labels of the legend are the distinct labels of the series that
    have a colour, in the order in which they first appear in the data
    (not in the order of the colour map), followed by "Other" when some
    label has no colour. *)
Theorem legend_labels_in_order_of_appearance (n_components : nat)
    (show : ndarray num → Series (cell num) → gmap string string → option string →
            Z → num → result (figure num * pyvalue num))
    (feature_data reduced : ndarray num) (metadata_series : Series (cell num))
    (class_colors : gmap string string) (save_path : option string)
    (point_size : Z) (alpha : num) :
  (n_components, show) ∈ class_colored_plots fit_transform random_sample →
  reduced_to fit_transform n_components feature_data reduced →
  length (values metadata_series) = shape0 feature_data →
  ¬ (n_components = 1 ∧ name metadata_series = "y_distribution") →
  ∃ fig ret,
    show feature_data metadata_series class_colors save_path point_size alpha
    = Ok (fig, ret)
    ∧ label <$> legend fig
      = (class_label
           <$> filter (λ l, is_Some (class_color class_colors l))
                      (unique (values metadata_series)))
        ++ (if any_unmapped class_colors (values metadata_series)
            then ["Other"] else []).
Proof.
  intros Hin Hred Hlen Hname.
  destruct (class_colored_plot_spec fit_transform random_sample feature_data
              metadata_series Hlen n_components show reduced class_colors
              save_path point_size alpha Hin Hred)
    as (fig & ret & Hshow & Hlegend & _).
  exists fig, ret. split; [exact Hshow|].
  rewrite Hlegend. unfold loop_labels. rewrite decide_False by done.
  rewrite fmap_app, class_handles_labels. f_equal.
  rewrite <- (any_unmapped_unique_eq class_colors (values metadata_series)).
  destruct (other_handle_cases class_colors (unique (values metadata_series)))
    as [[-> ->]|(-> & cls & _ & ->)]; done.
Qed.

(** X11: unless the series of [show_1D_umap] is named "y_distribution",
    when some label has no colour, the legend ends with the "Other"
    handle, and its swatch has the colour with which the last distinct
    label of the data was drawn: the colour of that label, or gray if it
    has none. *)
Theorem other_swatch_color (n_components : nat)
    (show : ndarray num → Series (cell num) → gmap string string → option string →
            Z → num → result (figure num * pyvalue num))
    (feature_data reduced : ndarray num) (metadata_series : Series (cell num))
    (class_colors : gmap string string) (save_path : option string)
    (point_size : Z) (alpha : num) :
  (n_components, show) ∈ class_colored_plots fit_transform random_sample →
  reduced_to fit_transform n_components feature_data reduced →
  length (values metadata_series) = shape0 feature_data →
  ¬ (n_components = 1 ∧ name metadata_series = "y_distribution") →
  any_unmapped class_colors (values metadata_series) = true →
  ∃ fig ret l,
    show feature_data metadata_series class_colors save_path point_size alpha
    = Ok (fig, ret)
    ∧ last (unique (values metadata_series)) = Some l
    ∧ last (legend fig)
      = Some (legend_handle "Other" (default "#808080" (class_color class_colors l))).
Proof.
  intros Hin Hred Hlen Hname Hany.
  destruct (class_colored_plot_spec fit_transform random_sample feature_data
              metadata_series Hlen n_components show reduced class_colors
              save_path point_size alpha Hin Hred)
    as (fig & ret & Hshow & Hlegend & _).
  unfold loop_labels in Hlegend. rewrite decide_False in Hlegend by done.
  rewrite <- (any_unmapped_unique_eq class_colors (values metadata_series)) in Hany.
  destruct (other_handle_cases class_colors (unique (values metadata_series)))
    as [[Hno _]|(_ & cls & Hlast & Hother)]; [congruence|].
  exists fig, ret, cls. split_and!; [exact Hshow | done |].
  rewrite Hlegend, Hother. apply last_snoc.
Qed.

(** X12: unless the series of [show_1D_umap] is named "y_distribution",
    every observation that is drawn is drawn with the colour of its own
    label: a call of [ax.scatter] that holds row [r] has the colour that
    the colour map gives to the label of row [r], or gray if it gives
    none.  Every observation that has a label is drawn; an observation
    whose label is missing is not, as no call holds its row. *)
Theorem rows_drawn_in_label_color (n_components : nat)
    (show : ndarray num → Series (cell num) → gmap string string → option string →
            Z → num → result (figure num * pyvalue num))
    (feature_data reduced : ndarray num) (metadata_series : Series (cell num))
    (class_colors : gmap string string) (save_path : option string)
    (point_size : Z) (alpha : num) :
  (n_components, show) ∈ class_colored_plots fit_transform random_sample →
  reduced_to fit_transform n_components feature_data reduced →
  length (values metadata_series) = shape0 feature_data →
  ¬ (n_components = 1 ∧ name metadata_series = "y_distribution") →
  ∃ fig ret,
    show feature_data metadata_series class_colors save_path point_size alpha
    = Ok (fig, ret)
    ∧ (∀ r l call, values metadata_series !! r = Some l →
         call ∈ scatters fig → r ∈ rows_of call →
         is_missing l = false
         ∧ c call = default "#808080" (class_color class_colors l))
    ∧ (∀ r l, values metadata_series !! r = Some l → is_missing l = false →
         ∃ call, call ∈ scatters fig ∧ r ∈ rows_of call)
    ∧ (∀ r l, values metadata_series !! r = Some l → is_missing l = true →
         ∀ call, call ∈ scatters fig → r ∉ rows_of call).
Proof.
  intros Hin Hred Hlen Hname.
  destruct (class_colored_plot_spec fit_transform random_sample feature_data
              metadata_series Hlen n_components show reduced class_colors
              save_path point_size alpha Hin Hred)
    as (fig & ret & Hshow & _ & Hcalls & _).
  unfold loop_labels in Hcalls. rewrite decide_False in Hcalls by done.
  set (labels := values metadata_series) in *.
  assert (Hdrawn : ∀ cls call,
            draws_class (plot_axes n_components) class_colors alpha point_size
              (seq 0 (shape0 feature_data)) labels cls call →
            rows_of call = class_rows labels (seq 0 (shape0 feature_data)) cls
            ∧ c call = drawn_color class_colors cls).
  { intros cls call (Hnames & Hidx & Hc & _). split; [|exact Hc].
    unfold rows_of. destruct (coords call) as [|xs ?].
    - unfold class_colored_plots in Hin.
      by repeat (apply elem_of_cons in Hin as [[= -> _]|Hin]; [done|]);
        apply elem_of_nil in Hin.
    - by apply Forall_cons in Hidx as [-> _]. }
  assert (Hown : ∀ r l call, labels !! r = Some l →
            call ∈ scatters fig → r ∈ rows_of call →
            is_missing l = false
            ∧ c call = default "#808080" (class_color class_colors l)).
  { intros r l call Hl Hcall Hr.
    apply list_elem_of_lookup in Hcall as [j Hj].
    destruct (Forall2_lookup_r _ _ _ _ _ Hcalls Hj) as (cls & _ & Hdraws).
    destruct (Hdrawn _ _ Hdraws) as [Hrows Hc]. rewrite Hrows in Hr.
    apply elem_of_class_rows in Hr as (i & Hi & Hcls & Hpresent).
    apply lookup_seq in Hi as [Hi _]. cbn in Hi. subst i.
    assert (cls = l) as -> by congruence. by split. }
  exists fig, ret. split_and!; [exact Hshow | exact Hown | |].
  - intros r l Hl Hpresent.
    assert (Hcls : l ∈ unique labels)
      by (apply elem_of_unique; by eapply list_elem_of_lookup_2).
    apply list_elem_of_lookup in Hcls as [j Hj].
    destruct (Forall2_lookup_l _ _ _ _ _ Hcalls Hj) as (call & Hcall & Hdraws).
    exists call. split; [by eapply list_elem_of_lookup_2|].
    destruct (Hdrawn _ _ Hdraws) as [-> _].
    replace (shape0 feature_data) with (length labels) by done.
    by apply (elem_of_class_rows_seq labels l 0 r).
  - intros r l Hl Hmissing call Hcall Hr.
    destruct (Hown r l call Hl Hcall Hr) as [Hpresent _]. congruence.
Qed.

(** X13: a metadata series whose length differs from the number of rows
    of a non-empty feature matrix makes each of the three functions raise
    [ValueError] when the label column is added, before anything is
    drawn. *)
Theorem label_length_mismatch (n_components : nat)
    (show : ndarray num → Series (cell num) → gmap string string → option string →
            Z → num → result (figure num * pyvalue num))
    (feature_data reduced : ndarray num) (metadata_series : Series (cell num))
    (class_colors : gmap string string) (save_path : option string)
    (point_size : Z) (alpha : num) :
  (n_components, show) ∈ class_colored_plots fit_transform random_sample →
  reduced_to fit_transform n_components feature_data reduced →
  0 < shape0 feature_data →
  length (values metadata_series) ≠ shape0 feature_data →
  show feature_data metadata_series class_colors save_path point_size alpha
  = Raise ValueError.
Proof.
  intros Hin (Hfit & Hrows & Hcols) _ Hlen. unfold class_colored_plots in Hin.
  repeat (apply elem_of_cons in Hin as [[= -> ->]|Hin]);
    [| | |by apply elem_of_nil in Hin].
  - unfold show_1D_umap, embedding_1D. rewrite Hfit. cbn [mbind result_bind].
    destruct (DataFrame_of_array_spec reduced ["UMAP1"]) as (df & -> & Hidx & _);
      [done|]. cbn [mbind result_bind]. unfold setitem at 2.
    rewrite decide_False; [done|].
    rewrite Hidx, length_seq. unfold tolist. congruence.
  - unfold show_2D_umap, embedding_2D. rewrite Hfit. cbn [mbind result_bind].
    destruct (DataFrame_of_array_spec reduced ["UMAP1"; "UMAP2"])
      as (df & -> & Hidx & _); [done|]. cbn [mbind result_bind]. unfold setitem.
    rewrite decide_False; [done|].
    rewrite Hidx, length_seq. unfold tolist. congruence.
  - unfold show_3D_umap, embedding_3D. rewrite Hfit. cbn [mbind result_bind].
    destruct (DataFrame_of_array_spec reduced ["UMAP1"; "UMAP2"; "UMAP3"])
      as (df & -> & Hidx & _); [done|]. cbn [mbind result_bind]. unfold setitem.
    rewrite decide_False; [done|].
    rewrite Hidx, length_seq. unfold tolist. congruence.
Qed.

End Extras.

Section Composition.

Import PlotCalls.

Context {num : Type} `{!EqDecision num}.
Variable fit_transform : nat → nat → ndarray num → result (ndarray num).
Variable random_sample : nat → num.

Lemma class_colored_plot_calls (n_components : nat)
    (show : ndarray num → Series (cell num) → gmap string string → option string →
            Z → num → result (figure num * pyvalue num))
    (feature_data reduced : ndarray num) (metadata_series : Series (cell num))
    (class_colors : gmap string string) (save_path : option string)
    (point_size : Z) (alpha : num) :
  let labels := loop_labels random_sample n_components feature_data metadata_series in
  (n_components, show) ∈ class_colored_plots fit_transform random_sample →
  reduced_to fit_transform n_components feature_data reduced →
  length (values metadata_series) = shape0 feature_data →
  ∃ embed df fig ret,
    (n_components, embed) ∈ class_colored_embeddings fit_transform random_sample
    ∧ embed feature_data metadata_series = Ok df
    ∧ show feature_data metadata_series class_colors save_path point_size alpha
      = Ok (fig, ret)
    ∧ scatters fig
      = class_call (plot_axes n_components) df labels class_colors alpha point_size
          <$> unique labels.
Proof.
  intros labels Hin Hred Hlen. unfold class_colored_plots in Hin.
  repeat (apply elem_of_cons in Hin as [[= -> ->]|Hin]);
    [| | |by apply elem_of_nil in Hin].
  - assert (Hemb : (1, embedding_1D fit_transform random_sample)
                   ∈ class_colored_embeddings fit_transform random_sample)
      by apply list_elem_of_here.
    destruct (class_colored_embedding_spec fit_transform random_sample
                feature_data metadata_series Hlen 1 _ reduced Hemb Hred)
      as (df & Hdf & _ & _ & Hlabels & Haxes & _).
    destruct (plot_classes_calls (plot_axes 1) df (name metadata_series)
                class_colors alpha point_size labels Hlabels)
      as (handles & Hplot).
    { eapply Forall_impl; [exact Haxes|]. intros k. apply lookup_column_is_Some. }
    eexists _, df, _, _. split_and!; [exact Hemb | exact Hdf | |].
    + unfold show_1D_umap. rewrite Hdf. cbn [mbind result_bind].
      change ["UMAP1"; "y_distribution"] with (plot_axes 1). rewrite Hplot.
      reflexivity.
    + reflexivity.
  - assert (Hemb : (2, embedding_2D fit_transform)
                   ∈ class_colored_embeddings fit_transform random_sample)
      by apply list_elem_of_further, list_elem_of_here.
    destruct (class_colored_embedding_spec fit_transform random_sample
                feature_data metadata_series Hlen 2 _ reduced Hemb Hred)
      as (df & Hdf & _ & _ & Hlabels & Haxes & _).
    destruct (plot_classes_calls (plot_axes 2) df (name metadata_series)
                class_colors alpha point_size labels Hlabels)
      as (handles & Hplot).
    { eapply Forall_impl; [exact Haxes|]. intros k. apply lookup_column_is_Some. }
    eexists _, df, _, _. split_and!; [exact Hemb | exact Hdf | |].
    + unfold show_2D_umap. rewrite Hdf. cbn [mbind result_bind].
      change ["UMAP1"; "UMAP2"] with (plot_axes 2). rewrite Hplot.
      reflexivity.
    + reflexivity.
  - assert (Hemb : (3, embedding_3D fit_transform)
                   ∈ class_colored_embeddings fit_transform random_sample)
      by (do 2 apply list_elem_of_further; apply list_elem_of_here).
    destruct (class_colored_embedding_spec fit_transform random_sample
                feature_data metadata_series Hlen 3 _ reduced Hemb Hred)
      as (df & Hdf & _ & _ & Hlabels & Haxes & _).
    destruct (plot_classes_calls (plot_axes 3) df (name metadata_series)
                class_colors alpha point_size labels Hlabels)
      as (handles & Hplot).
    { eapply Forall_impl; [exact Haxes|]. intros k. apply lookup_column_is_Some. }
    eexists _, df, _, _. split_and!; [exact Hemb | exact Hdf | |].
    + unfold show_3D_umap. rewrite Hdf. cbn [mbind result_bind].
      change ["UMAP1"; "UMAP2"; "UMAP3"] with (plot_axes 3). rewrite Hplot.
      reflexivity.
    + reflexivity.
Qed.

(** X14: selecting the rows of a class keeps every point at its own
    coordinates: a row [r] at some position of a coordinate series handed
    to [ax.scatter] is a row of the feature matrix, and the value at the
    same position is the reducer's coordinate of row [r] for that axis
    (for an axis column that the metadata series does not overwrite by
    bearing its name). *)
Theorem points_plotted_at_own_coordinates (n_components : nat)
    (show : ndarray num → Series (cell num) → gmap string string → option string →
            Z → num → result (figure num * pyvalue num))
    (feature_data reduced : ndarray num) (metadata_series : Series (cell num))
    (class_colors : gmap string string) (save_path : option string)
    (point_size : Z) (alpha : num) :
  (n_components, show) ∈ class_colored_plots fit_transform random_sample →
  reduced_to fit_transform n_components feature_data reduced →
  length (values metadata_series) = shape0 feature_data →
  ∃ fig ret,
    show feature_data metadata_series class_colors save_path point_size alpha
    = Ok (fig, ret)
    ∧ ∀ call xs p r,
        call ∈ scatters fig → xs ∈ coords call → index xs !! p = Some r →
        r < shape0 feature_data
        ∧ is_Some (values xs !! p)
        ∧ ∀ j, umap_columns n_components !! j = Some (name xs) →
               name xs ≠ name metadata_series →
               values xs !! p = Some (Num (item reduced r j)).
Proof.
  intros Hin Hred Hlen.
  destruct (class_colored_plot_calls n_components show feature_data reduced
              metadata_series class_colors save_path point_size alpha Hin Hred Hlen)
    as (embed & df & fig & ret & Hemb & Hdf & Hshow & Hcalls).
  destruct (class_colored_embedding_spec fit_transform random_sample
              feature_data metadata_series Hlen n_components embed reduced Hemb Hred)
    as (df' & Hdf' & Hidx & Hrect & _ & Haxes & Hcoord & _).
  rewrite Hdf in Hdf'. injection Hdf' as <-.
  exists fig, ret. split; [exact Hshow|].
  intros call xs p r Hcall Hxs Hp.
  rewrite Hcalls in Hcall. apply list_elem_of_fmap in Hcall as (cls & -> & _).
  apply list_elem_of_fmap in Hxs as (a & -> & Ha).
  rewrite Forall_forall in Haxes. specialize (Haxes a Ha).
  apply lookup_column_is_Some in Haxes as [col Hcol].
  pose proof (lookup_column_length df a col Hrect Hcol) as Hcollen.
  rewrite Hidx, length_seq in Hcollen.
  unfold class_series in Hp |- *. cbn [index values name] in Hp |- *.
  rewrite Hcol. cbn [default from_option id]. rewrite Hidx, <- Hcollen in Hp.
  apply filter_mask_lookup_seq in Hp as [Hr Hval].
  rewrite Nat.sub_0_r in Hval. rewrite Hval.
  assert (Hrn : r < shape0 feature_data) by lia.
  split_and!; [exact Hrn | apply lookup_lt_is_Some; lia |].
  intros j Hj Hne. rewrite (Hcoord j a Hj Hne) in Hcol. injection Hcol as <-.
  unfold array_column. rewrite list_lookup_fmap.
  destruct Hred as (_ & Hrows & _).
  rewrite lookup_seq_lt; [done|]. by rewrite Hrows.
Qed.

(** X15: unless the series of [show_1D_umap] is named "y_distribution",
    the colour map made by [get_class_colors] from a list that holds
    every label of the data leaves no label without a colour: the legend
    shows exactly the distinct labels of the data, in order of first
    appearance and without an "Other" entry, and every swatch and every
    point has a hex colour of the palette. *)
Theorem plot_with_derived_colors {fnum : Type} (round255 : fnum → byte)
    (color_palette : string → nat → list (Colors.rgb fnum))
    (classes : list string) (palette : string) (n_components : nat)
    (show : ndarray num → Series (cell num) → gmap string string → option string →
            Z → num → result (figure num * pyvalue num))
    (feature_data reduced : ndarray num) (metadata_series : Series (cell num))
    (save_path : option string) (point_size : Z) (alpha : num) :
  length (color_palette palette (length classes)) = length classes →
  (∀ v, v ∈ values metadata_series → ∃ l, v = Label l ∧ l ∈ classes) →
  (n_components, show) ∈ class_colored_plots fit_transform random_sample →
  reduced_to fit_transform n_components feature_data reduced →
  length (values metadata_series) = shape0 feature_data →
  ¬ (n_components = 1 ∧ name metadata_series = "y_distribution") →
  ∃ class_colors fig ret,
    Colors.get_class_colors round255 color_palette classes palette = Ok class_colors
    ∧ show feature_data metadata_series class_colors save_path point_size alpha
      = Ok (fig, ret)
    ∧ Label <$> (label <$> legend fig) = unique (values metadata_series)
    ∧ Forall (λ h, Colors.is_hex_color (markerfacecolor h) = true) (legend fig)
    ∧ Forall (λ call, Colors.is_hex_color (c call) = true) (scatters fig).
Proof.
  intros Hpal Hall Hin Hred Hlen Hname.
  destruct (ColorsFacts.get_class_colors_spec round255 color_palette classes palette
              Hpal)
    as (d & Hd & Hdom & Hval & _).
  assert (Hmapped : ∀ v, v ∈ values metadata_series → is_Some (class_color d v)).
  { intros v Hv. destruct (Hall v Hv) as (l & -> & Hl). cbn.
    apply elem_of_dom. rewrite Hdom. by apply elem_of_list_to_set. }
  assert (Hhex : ∀ l col, d !! l = Some col → Colors.is_hex_color col = true).
  { intros l col Hcol. destruct (Hval _ _ Hcol) as (_ & rgb & _ & _ & ->).
    apply ColorsFacts.rgb2hex_is_hex_color. }
  destruct (class_colored_plot_spec fit_transform random_sample feature_data
              metadata_series Hlen n_components show reduced d
              save_path point_size alpha Hin Hred)
    as (fig & ret & Hshow & Hlegend & Hcalls & _).
  unfold loop_labels in Hlegend, Hcalls.
  rewrite decide_False in Hlegend, Hcalls by done.
  assert (Hnone : any_unmapped d (unique (values metadata_series)) = false).
  { apply not_true_is_false.
    intros (v & Hv & Hno)%any_unmapped_unique.
    apply Hmapped in Hv as [col Hcol]. congruence. }
  destruct (other_handle_cases d (unique (values metadata_series)))
    as [[_ Hother]|[Hany _]]; [|congruence].
  rewrite Hother, app_nil_r in Hlegend.
  exists d, fig, ret. split_and!; [exact Hd | exact Hshow | | |].
  - rewrite Hlegend, class_handles_labels, filter_all.
    + apply fmap_Label_class_label. apply Forall_forall. intros v Hv.
      apply elem_of_unique, Hall in Hv as (l & -> & _). by exists l.
    + apply Forall_forall. intros v Hv. by apply Hmapped, elem_of_unique.
  - rewrite Hlegend. apply Forall_forall.
    intros h (l & col & _ & Hcol & ->)%elem_of_class_handles. cbn. by eapply Hhex.
  - apply Forall_forall. intros call Hcall.
    apply list_elem_of_lookup in Hcall as [j Hj].
    destruct (Forall2_lookup_r _ _ _ _ _ Hcalls Hj)
      as (cls & Hcls & _ & _ & -> & _).
    apply list_elem_of_lookup_2 in Hcls. apply (proj1 (elem_of_unique _ _)) in Hcls.
    destruct (Hall _ Hcls) as (l & -> & _).
    apply Hmapped in Hcls as [col Hcol].
    unfold drawn_color. rewrite Hcol. cbn in Hcol |- *. by eapply Hhex.
Qed.

End Composition.

Lemma get_2D_umap_embeddings_columns_witness :
  let reduced := NDArray 3 2 (item example_features) in
  (first_columns 0 2 example_features = Ok reduced ∧ shape1 reduced = 2)
  ∧ get_2D_umap_embeddings first_columns example_features 0
    = Ok ([0; 10; 20]%Z, [1; 11; 21]%Z).
Proof.
  intros reduced.
  assert (H1 : first_columns 0 2 example_features = Ok reduced) by reflexivity.
  assert (H2 : shape1 reduced = 2) by reflexivity.
  split; [by split|].
  exact (get_2D_umap_embeddings_columns first_columns example_features reduced 0
           H1 H2).
Defined.

Lemma legend_labels_in_order_of_appearance_witness :
  let series := example_series "Metadata_Gene" ["KIF11"; "INCENP"; "PLK1"] in
  let class_colors : gmap string string :=
    {[ "PLK1" := "#00ff00"; "KIF11" := "#ff0000" ]} in
  let reduced := NDArray 3 2 (item example_features) in
  ((2, show_2D_umap first_columns) ∈ class_colored_plots first_columns example_draws
   ∧ reduced_to first_columns 2 example_features reduced
   ∧ length (values series) = shape0 example_features
   ∧ ¬ (2 = 1 ∧ name series = "y_distribution"))
  ∧ ∃ fig ret,
      show_2D_umap first_columns example_features series class_colors None 5 1%Z
      = Ok (fig, ret)
      ∧ label <$> legend fig = ["KIF11"; "PLK1"; "Other"].
Proof.
  intros series class_colors reduced.
  assert (H1 : (2, show_2D_umap first_columns)
               ∈ class_colored_plots first_columns example_draws)
    by apply list_elem_of_further, list_elem_of_here.
  assert (H2 : reduced_to first_columns 2 example_features reduced)
    by (split_and!; reflexivity).
  assert (H3 : length (values series) = shape0 example_features) by reflexivity.
  assert (H4 : ¬ (2 = 1 ∧ name series = "y_distribution")) by (intros [? _]; lia).
  split; [by split_and!|].
  destruct (legend_labels_in_order_of_appearance first_columns example_draws 2
              (show_2D_umap first_columns) example_features reduced series
              class_colors None 5 1%Z H1 H2 H3 H4)
    as (fig & ret & Hshow & Hlabels).
  exists fig, ret. split; [exact Hshow|]. rewrite Hlabels. by vm_compute.
Defined.

Lemma other_swatch_color_witness :
  let series := example_series "Metadata_Gene" ["INCENP"; "KIF11"; "KIF11"] in
  let class_colors : gmap string string := {[ "KIF11" := "#ff0000" ]} in
  let reduced := NDArray 3 3 (item example_features) in
  ((3, show_3D_umap first_columns) ∈ class_colored_plots first_columns example_draws
   ∧ reduced_to first_columns 3 example_features reduced
   ∧ length (values series) = shape0 example_features
   ∧ ¬ (3 = 1 ∧ name series = "y_distribution")
   ∧ any_unmapped class_colors (values series) = true)
  ∧ ∃ fig ret,
      show_3D_umap first_columns example_features series class_colors None 5 1%Z
      = Ok (fig, ret)
      ∧ last (legend fig) = Some (legend_handle "Other" "#ff0000").
Proof.
  intros series class_colors reduced.
  assert (H1 : (3, show_3D_umap first_columns)
               ∈ class_colored_plots first_columns example_draws)
    by (do 2 apply list_elem_of_further; apply list_elem_of_here).
  assert (H2 : reduced_to first_columns 3 example_features reduced)
    by (split_and!; reflexivity).
  assert (H3 : length (values series) = shape0 example_features) by reflexivity.
  assert (H4 : ¬ (3 = 1 ∧ name series = "y_distribution")) by (intros [? _]; lia).
  assert (H5 : any_unmapped class_colors (values series) = true) by (by vm_compute).
  split; [by split_and!|].
  destruct (other_swatch_color first_columns example_draws 3
              (show_3D_umap first_columns) example_features reduced series
              class_colors None 5 1%Z H1 H2 H3 H4 H5)
    as (fig & ret & l & Hshow & Hlast & Hswatch).
  exists fig, ret. split; [exact Hshow|]. rewrite Hswatch.
  injection Hlast as <-. by vm_compute.
Defined.

Lemma rows_drawn_in_label_color_witness :
  let series : Series (cell Z) :=
    MkSeries "Metadata_Gene" [0; 1; 2] [Missing NaN; Label "KIF11"; Label "KIF11"] in
  let class_colors : gmap string string := {[ "KIF11" := "#ff0000" ]} in
  let reduced := NDArray 3 1 (item example_features) in
  ((1, show_1D_umap first_columns example_draws)
   ∈ class_colored_plots first_columns example_draws
   ∧ reduced_to first_columns 1 example_features reduced
   ∧ length (values series) = shape0 example_features
   ∧ ¬ (1 = 1 ∧ name series = "y_distribution"))
  ∧ ∃ fig ret,
      show_1D_umap first_columns example_draws example_features series
        class_colors None 5 1%Z = Ok (fig, ret)
      ∧ (∃ call, call ∈ scatters fig ∧ 2 ∈ rows_of call ∧ c call = "#ff0000")
      ∧ ∀ call, call ∈ scatters fig → 0 ∉ rows_of call.
Proof.
  intros series class_colors reduced.
  assert (H1 : (1, show_1D_umap first_columns example_draws)
               ∈ class_colored_plots first_columns example_draws)
    by apply list_elem_of_here.
  assert (H2 : reduced_to first_columns 1 example_features reduced)
    by (split_and!; reflexivity).
  assert (H3 : length (values series) = shape0 example_features) by reflexivity.
  assert (H4 : ¬ (1 = 1 ∧ name series = "y_distribution"))
    by (intros [_ ?]; discriminate).
  split; [by split_and!|].
  destruct (rows_drawn_in_label_color first_columns example_draws 1
              (show_1D_umap first_columns example_draws) example_features reduced
              series class_colors None 5 1%Z H1 H2 H3 H4)
    as (fig & ret & Hshow & Hown & Hdrawn & Hmissing).
  exists fig, ret. split_and!; [exact Hshow | |].
  - destruct (Hdrawn 2 (Label "KIF11") eq_refl eq_refl) as (call & Hcall & Hin).
    exists call. split_and!; [exact Hcall | exact Hin |].
    destruct (Hown 2 (Label "KIF11") call eq_refl Hcall Hin) as [_ ->].
    by vm_compute.
  - exact (Hmissing 0 (Missing NaN) eq_refl eq_refl).
Defined.

Lemma label_length_mismatch_witness :
  let series := example_series "Metadata_Gene" ["INCENP"; "KIF11"] in
  let reduced := NDArray 3 2 (item example_features) in
  ((2, show_2D_umap first_columns) ∈ class_colored_plots first_columns example_draws
   ∧ reduced_to first_columns 2 example_features reduced
   ∧ 0 < shape0 example_features
   ∧ length (values series) ≠ shape0 example_features)
  ∧ show_2D_umap first_columns example_features series ∅ None 5 1%Z
    = Raise ValueError.
Proof.
  intros series reduced.
  assert (H1 : (2, show_2D_umap first_columns)
               ∈ class_colored_plots first_columns example_draws)
    by apply list_elem_of_further, list_elem_of_here.
  assert (H2 : reduced_to first_columns 2 example_features reduced)
    by (split_and!; reflexivity).
  assert (H3 : 0 < shape0 example_features) by (cbn; lia).
  assert (H4 : length (values series) ≠ shape0 example_features) by (cbn; lia).
  split; [by split_and!|].
  exact (label_length_mismatch first_columns example_draws 2
           (show_2D_umap first_columns) example_features reduced series ∅ None 5
           1%Z H1 H2 H3 H4).
Defined.

Lemma points_plotted_at_own_coordinates_witness :
  let series := example_series "Metadata_Gene" ["INCENP"; "KIF11"; "KIF11"] in
  let class_colors : gmap string string := {[ "KIF11" := "#ff0000" ]} in
  let reduced := NDArray 3 2 (item example_features) in
  ((2, show_2D_umap first_columns) ∈ class_colored_plots first_columns example_draws
   ∧ reduced_to first_columns 2 example_features reduced
   ∧ length (values series) = shape0 example_features)
  ∧ ∃ fig ret,
      show_2D_umap first_columns example_features series class_colors None 5 1%Z
      = Ok (fig, ret)
      ∧ ∀ call xs p r,
          call ∈ scatters fig → xs ∈ coords call → index xs !! p = Some r →
          r < 3.
Proof.
  intros series class_colors reduced.
  assert (H1 : (2, show_2D_umap first_columns)
               ∈ class_colored_plots first_columns example_draws)
    by apply list_elem_of_further, list_elem_of_here.
  assert (H2 : reduced_to first_columns 2 example_features reduced)
    by (split_and!; reflexivity).
  assert (H3 : length (values series) = shape0 example_features) by reflexivity.
  split; [by split_and!|].
  destruct (points_plotted_at_own_coordinates first_columns example_draws 2
              (show_2D_umap first_columns) example_features reduced series
              class_colors None 5 1%Z H1 H2 H3)
    as (fig & ret & Hshow & Hpoints).
  exists fig, ret. split; [exact Hshow|].
  intros call xs p r Hcall Hxs Hp. by destruct (Hpoints call xs p r Hcall Hxs Hp).
Defined.

Lemma plot_with_derived_colors_witness :
  let classes := ["KIF11"; "INCENP"; "PLK1"] in
  let series := example_series "Metadata_Gene" ["INCENP"; "KIF11"; "KIF11"] in
  let reduced := NDArray 3 2 (item example_features) in
  (length (Colors.ramp_palette "bright" (length classes)) = length classes
   ∧ (∀ v, v ∈ values series → ∃ l, v = Label l ∧ l ∈ classes)
   ∧ (2, show_2D_umap first_columns) ∈ class_colored_plots first_columns example_draws
   ∧ reduced_to first_columns 2 example_features reduced
   ∧ length (values series) = shape0 example_features
   ∧ ¬ (2 = 1 ∧ name series = "y_distribution"))
  ∧ ∃ class_colors fig ret,
      Colors.get_class_colors Colors.example_round255 Colors.ramp_palette classes
        "bright" = Ok class_colors
      ∧ show_2D_umap first_columns example_features series class_colors None 5 1%Z
        = Ok (fig, ret)
      ∧ label <$> legend fig = ["INCENP"; "KIF11"].
Proof.
  intros classes series reduced.
  assert (H0 : length (Colors.ramp_palette "bright" (length classes))
               = length classes) by reflexivity.
  assert (Hall : ∀ v, v ∈ values series → ∃ l, v = Label l ∧ l ∈ classes).
  { intros v Hv. unfold series, example_series in Hv. cbn in Hv.
    repeat (apply elem_of_cons in Hv as [->|Hv];
            [eexists; split; [reflexivity|];
             apply (bool_decide_unpack _); reflexivity|]).
    by apply elem_of_nil in Hv. }
  assert (H1 : (2, show_2D_umap first_columns)
               ∈ class_colored_plots first_columns example_draws)
    by apply list_elem_of_further, list_elem_of_here.
  assert (H2 : reduced_to first_columns 2 example_features reduced)
    by (split_and!; reflexivity).
  assert (H3 : length (values series) = shape0 example_features) by reflexivity.
  assert (H4 : ¬ (2 = 1 ∧ name series = "y_distribution")) by (intros [? _]; lia).
  split; [by split_and!|].
  destruct (plot_with_derived_colors first_columns example_draws
              Colors.example_round255 Colors.ramp_palette classes "bright" 2
              (show_2D_umap first_columns) example_features reduced series None 5
              1%Z H0 Hall H1 H2 H3 H4)
    as (class_colors & fig & ret & Hd & Hshow & Hlabels & _).
  exists class_colors, fig, ret. split_and!; [exact Hd | exact Hshow |].
  apply (inj (fmap (Label (num:=Z)))). rewrite Hlabels. by vm_compute.
Defined.

Section Jitter.

Import PlotCalls.

Context {num : Type} `{!EqDecision num}.
Variable fit_transform : nat → nat → ndarray num → result (ndarray num).
Variable random_sample : nat → num.

Lemma embedding_1D_y_distribution (feature_data reduced : ndarray num)
    (metadata_series : Series (cell num)) (df : DataFrame num) :
  reduced_to fit_transform 1 feature_data reduced →
  length (values metadata_series) = shape0 feature_data →
  embedding_1D fit_transform random_sample feature_data metadata_series = Ok df →
  lookup_column "y_distribution" (columns df)
  = Some (Num <$> np_random_rand random_sample (shape0 feature_data)).
Proof.
  intros (Hfit & Hrows & Hcols) Hlen. unfold embedding_1D. rewrite Hfit.
  cbn [mbind result_bind].
  destruct (DataFrame_of_array_spec reduced ["UMAP1"])
    as (df0 & -> & Hi0 & Hr0 & _); [done|]. cbn [mbind result_bind].
  destruct (setitem_spec df0 (name metadata_series)
              (tolist metadata_series))
    as (df1 & -> & Hi1 & Hr1 & _).
  { rewrite Hi0, length_seq. unfold tolist. congruence. }
  { done. }
  cbn [mbind result_bind].
  destruct (setitem_spec df1 "y_distribution"
              (Num <$> np_random_rand random_sample (shape0 feature_data)))
    as (df2 & -> & _ & _ & Hy & _).
  { unfold np_random_rand. by rewrite Hi1, Hi0, !length_fmap, !length_seq. }
  { done. }
  by intros [= <-].
Qed.

(** X18: in the one-dimensional plot every point is spread along the
    second axis by the random draw of its own row: selecting the rows of a
    class does not mix the draws up. *)
Theorem jitter_follows_rows (feature_data reduced : ndarray num)
    (metadata_series : Series (cell num)) (class_colors : gmap string string)
    (save_path : option string) (point_size : Z) (alpha : num) :
  reduced_to fit_transform 1 feature_data reduced →
  length (values metadata_series) = shape0 feature_data →
  ∃ fig ret,
    show_1D_umap fit_transform random_sample feature_data metadata_series
      class_colors save_path point_size alpha = Ok (fig, ret)
    ∧ Forall (λ call, name <$> coords call = ["UMAP1"; "y_distribution"])
             (scatters fig)
    ∧ ∀ call xs p r,
        call ∈ scatters fig → xs ∈ coords call → name xs = "y_distribution" →
        index xs !! p = Some r →
        values xs !! p = Some (Num (random_sample r)).
Proof.
  intros Hred Hlen.
  assert (Hin : (1, show_1D_umap fit_transform random_sample)
                ∈ class_colored_plots fit_transform random_sample)
    by apply list_elem_of_here.
  destruct (class_colored_plot_calls fit_transform random_sample 1 _ feature_data
              reduced metadata_series class_colors save_path point_size alpha
              Hin Hred Hlen)
    as (embed & df & fig & ret & Hemb & Hdf & Hshow & Hcalls).
  unfold class_colored_embeddings in Hemb.
  apply elem_of_cons in Hemb as [[= ->]|Hemb].
  2:{ repeat (apply elem_of_cons in Hemb as [[= ?]|Hemb]).
      by apply elem_of_nil in Hemb. }
  pose proof (embedding_1D_y_distribution _ _ _ _ Hred Hlen Hdf) as Hy.
  assert (Hidx : df_index df = seq 0 (shape0 feature_data)).
  { destruct (class_colored_embedding_spec fit_transform random_sample
                feature_data metadata_series Hlen 1 _ reduced
                ltac:(apply list_elem_of_here) Hred)
      as (df' & Hdf' & Hidx & _).
    rewrite Hdf in Hdf'. by injection Hdf' as <-. }
  exists fig, ret. split_and!; [exact Hshow | |].
  - rewrite Hcalls. apply Forall_forall.
    intros call (cls & -> & _)%list_elem_of_fmap. reflexivity.
  - intros call xs p r Hcall Hxs Hname Hp.
    rewrite Hcalls in Hcall. apply list_elem_of_fmap in Hcall as (cls & -> & _).
    apply list_elem_of_fmap in Hxs as (a & -> & _). cbn [name class_series] in Hname.
    subst a. unfold class_series in Hp |- *. cbn [index values] in Hp |- *.
    rewrite Hy. cbn [default from_option id].
    replace (df_index df)
      with (seq 0 (length (Num <$> np_random_rand random_sample
                                     (shape0 feature_data)))) in Hp
      by (unfold np_random_rand; by rewrite Hidx, !length_fmap, length_seq).
    apply filter_mask_lookup_seq in Hp as [Hr ->].
    rewrite Nat.sub_0_r. unfold np_random_rand in Hr |- *.
    rewrite !length_fmap, length_seq in Hr.
    rewrite !list_lookup_fmap, lookup_seq_lt by lia. done.
Qed.

End Jitter.

Lemma jitter_follows_rows_witness :
  let series := example_series "Metadata_Gene" ["INCENP"; "KIF11"; "KIF11"] in
  let class_colors : gmap string string := {[ "KIF11" := "#ff0000" ]} in
  let reduced := NDArray 3 1 (item example_features) in
  (reduced_to first_columns 1 example_features reduced
   ∧ length (values series) = shape0 example_features)
  ∧ ∃ fig ret,
      show_1D_umap first_columns example_draws example_features series
        class_colors None 5 1%Z = Ok (fig, ret)
      ∧ Forall (λ call, name <$> coords call = ["UMAP1"; "y_distribution"])
               (scatters fig).
Proof.
  intros series class_colors reduced.
  assert (H1 : reduced_to first_columns 1 example_features reduced)
    by (split_and!; reflexivity).
  assert (H2 : length (values series) = shape0 example_features) by reflexivity.
  split; [by split|].
  destruct (jitter_follows_rows first_columns example_draws example_features
              reduced series class_colors None 5 1%Z H1 H2)
    as (fig & ret & Hshow & Hnames & _).
  by exists fig, ret.
Defined.

End PlotsFacts.

Module NotebookFacts.
Import Plots Notebook.

Lemma metadata_column_Some (metadata_dataframe : metadata_frame)
    (field : string) (labels : list string) :
  lookup_labels field (md_columns metadata_dataframe) = Some labels →
  metadata_column metadata_dataframe field
  = Ok (MkSeries field (md_index metadata_dataframe) labels).
Proof. intros H. unfold metadata_column. by rewrite H. Qed.

Lemma metadata_column_None (metadata_dataframe : metadata_frame) (field : string) :
  lookup_labels field (md_columns metadata_dataframe) = None →
  metadata_column metadata_dataframe field = Raise KeyError.
Proof. intros H. unfold metadata_column. by rewrite H. Qed.

Lemma show_2D_umap_from_embeddings_ok {num : Type} (x_data y_data : list num)
    (metadata_series : Series string) (save_path : option string)
    (point_size : Z) (alpha : num) (palette : string) :
  length x_data = length y_data →
  length x_data = length (values metadata_series) →
  show_2D_umap_from_embeddings x_data y_data metadata_series save_path point_size
    alpha palette
  = Ok ({| hp_palette := palette; hp_x := x_data; hp_y := y_data;
           hp_hue := values metadata_series; hp_alpha := alpha;
           hp_linewidth := 0; hp_s := point_size;
           hp_legend_title := name metadata_series;
           hp_xlabel := "UMAP 1"; hp_ylabel := "UMAP 2";
           hp_title := "2 Dimensional UMAP"; hp_savefig := save_path |},
        PyNone).
Proof.
  intros Hxy Hhue. unfold show_2D_umap_from_embeddings, tolist.
  by rewrite decide_True.
Qed.

Section Cells.

Context {num : Type} `{!EqDecision num}.
Variable fit_transform : nat → nat → ndarray num → result (ndarray num).
Variable one : num.
Variable metadata_dataframe : metadata_frame.
Variable x_data y_data : list num.

Hypothesis same_length : length x_data = length y_data.

Lemma plot_fields_from (fields : list string) (plots : list (hue_plot num string)) :
  Forall (λ field, ∃ labels,
            lookup_labels field (md_columns metadata_dataframe) = Some labels
            ∧ length labels = length x_data) fields →
  ∃ new,
    for_each
      (λ plots metadata_field,
         metadata ← metadata_column metadata_dataframe metadata_field;
         shown ← show_2D_umap_from_embeddings x_data y_data metadata None 5 one
                    "bright";
         Ok (plots ++ [shown.1]))
      fields plots = Ok (plots ++ new)
    ∧ hp_legend_title <$> new = fields
    ∧ Forall (drawn_for_field one metadata_dataframe x_data y_data) new.
Proof.
  intros Hall. revert plots.
  induction Hall as [|field fields (labels & Hfield & Hlen) _ IH]; intros plots.
  - exists []. by rewrite app_nil_r.
  - cbn [for_each]. rewrite (metadata_column_Some _ _ _ Hfield).
    cbn [mbind result_bind].
    rewrite show_2D_umap_from_embeddings_ok by done. cbn [mbind result_bind fst].
    edestruct IH as (new & -> & Htitles & Hdrawn).
    eexists (_ :: new). rewrite <- app_assoc. split_and!; [reflexivity | |].
    + cbn. by rewrite Htitles.
    + constructor; [|exact Hdrawn]. by split_and!.
Qed.

(** The figures shown are the ones the loop collects when it ends
    normally, and the exception is the one it raises otherwise. *)
Lemma plot_fields_shown_spec (fields : list string)
    (plots : list (hue_plot num string)) :
  for_each
    (λ plots metadata_field,
       metadata ← metadata_column metadata_dataframe metadata_field;
       shown ← show_2D_umap_from_embeddings x_data y_data metadata None 5 one
                  "bright";
       Ok (plots ++ [shown.1]))
    fields plots
  = match plot_fields_shown one fields x_data y_data metadata_dataframe with
    | (shown, None) => Ok (plots ++ shown)
    | (_, Some e) => Raise e
    end.
Proof.
  revert plots. induction fields as [|field fields IH]; intros plots.
  - cbn. by rewrite app_nil_r.
  - cbn [for_each plot_fields_shown].
    destruct (metadata_column metadata_dataframe field) as [metadata|e];
      cbn [mbind result_bind]; [|done].
    destruct (show_2D_umap_from_embeddings x_data y_data metadata None 5 one "bright")
      as [shown|e]; cbn [mbind result_bind]; [|done].
    rewrite IH.
    destruct (plot_fields_shown one fields x_data y_data metadata_dataframe)
      as [rest [e|]]; cbn [fst snd]; [done|].
    by rewrite <- app_assoc.
Qed.

Lemma plot_fields_shown_first_missing (before after : list string) (missing : string) :
  Forall (λ field, ∃ labels,
            lookup_labels field (md_columns metadata_dataframe) = Some labels
            ∧ length labels = length x_data) before →
  lookup_labels missing (md_columns metadata_dataframe) = None →
  ∃ shown,
    plot_fields_shown one (before ++ missing :: after) x_data y_data
      metadata_dataframe = (shown, Some KeyError)
    ∧ hp_legend_title <$> shown = before
    ∧ Forall (drawn_for_field one metadata_dataframe x_data y_data) shown.
Proof.
  intros Hbefore Hmissing.
  induction Hbefore as [|field before (labels & Hfield & Hlen) _ IH].
  - exists []. cbn [app plot_fields_shown].
    rewrite (metadata_column_None _ _ Hmissing). by split_and!.
  - destruct IH as (shown & Hshown & Htitles & Hdrawn).
    cbn [app plot_fields_shown]. rewrite (metadata_column_Some _ _ _ Hfield).
    cbn [mbind result_bind].
    rewrite show_2D_umap_from_embeddings_ok by done. rewrite Hshown.
    eexists (_ :: shown). split_and!; [reflexivity | |].
    + cbn. by rewrite Htitles.
    + constructor; [|exact Hdrawn]. by split_and!.
Qed.

End Cells.

Section Notebook.

Context {num : Type} `{!EqDecision num}.
Variable fit_transform : nat → nat → ndarray num → result (ndarray num).
Variable one : num.

(** X16: a cell of the notebook computes the embedding once and draws it
    once per metadata field: when the reducer returns two columns and
    each of the four fields is a column with a label per row, the cell
    yields four figures, titled with the fields in their order, all over
    the same two coordinate vectors (the columns of the reducer's
    output), each coloured by the labels of its field, none saved. *)
Theorem umap_cell_draws_every_field (metadata_dataframe : metadata_frame)
    (feature_data reduced : ndarray num) :
  fit_transform 0 2 feature_data = Ok reduced →
  shape1 reduced = 2 →
  Forall (λ field, ∃ labels,
            lookup_labels field (md_columns metadata_dataframe) = Some labels
            ∧ length labels = shape0 reduced) metadata_fields →
  ∃ plots,
    umap_cell fit_transform one metadata_dataframe feature_data = Ok plots
    ∧ hp_legend_title <$> plots
      = ["Metadata_Plate"; "Metadata_Well"; "Metadata_Frame"; "Metadata_Gene"]
    ∧ Forall (drawn_for_field one metadata_dataframe
                ((λ i, item reduced i 0) <$> seq 0 (shape0 reduced))
                ((λ i, item reduced i 1) <$> seq 0 (shape0 reduced))) plots.
Proof.
  intros Hfit Hcols Hfields. unfold umap_cell, get_2D_umap_embeddings.
  rewrite Hfit. cbn [mbind result_bind]. unfold row, transpose.
  cbn [shape0 shape1 item]. rewrite Hcols, !decide_True by lia.
  cbn [mbind result_bind fst snd]. unfold plot_fields.
  edestruct (plot_fields_from one metadata_dataframe
               ((λ i, item reduced i 0) <$> seq 0 (shape0 reduced))
               ((λ i, item reduced i 1) <$> seq 0 (shape0 reduced)))
    as (new & Hnew & Htitles & Hdrawn);
    [by rewrite !length_fmap | | rewrite Hnew; by exists new].
  eapply Forall_impl; [exact Hfields|]. intros field (labels & ? & ?).
  exists labels. by rewrite length_fmap, length_seq.
Qed.

(** X17: a metadata field that is missing from the table makes the cell
    raise [KeyError], although the embedding was computed: the fields
    before the first missing one have been drawn by then, each as the
    notebook draws a field, and no figure follows them. *)
Theorem umap_cell_missing_field (metadata_dataframe : metadata_frame)
    (feature_data reduced : ndarray num) (before after : list string)
    (missing : string) :
  fit_transform 0 2 feature_data = Ok reduced →
  shape1 reduced = 2 →
  metadata_fields = before ++ missing :: after →
  Forall (λ field, ∃ labels,
            lookup_labels field (md_columns metadata_dataframe) = Some labels
            ∧ length labels = shape0 reduced) before →
  lookup_labels missing (md_columns metadata_dataframe) = None →
  umap_cell fit_transform one metadata_dataframe feature_data = Raise KeyError
  ∧ ∃ shown,
      umap_cell_shown fit_transform one metadata_dataframe feature_data
      = (shown, Some KeyError)
      ∧ hp_legend_title <$> shown = before
      ∧ Forall (drawn_for_field one metadata_dataframe
                  ((λ i, item reduced i 0) <$> seq 0 (shape0 reduced))
                  ((λ i, item reduced i 1) <$> seq 0 (shape0 reduced))) shown.
Proof.
  intros Hfit Hcols Hfields Hbefore Hmissing.
  unfold umap_cell, umap_cell_shown, get_2D_umap_embeddings.
  rewrite Hfit. cbn [mbind result_bind]. unfold row, transpose.
  cbn [shape0 shape1 item]. rewrite Hcols, !decide_True by lia.
  cbn [mbind result_bind fst snd]. unfold plot_fields. rewrite Hfields.
  destruct (plot_fields_shown_first_missing one metadata_dataframe
              ((λ i, item reduced i 0) <$> seq 0 (shape0 reduced))
              ((λ i, item reduced i 1) <$> seq 0 (shape0 reduced))
              ltac:(by rewrite !length_fmap) before after missing)
    as (shown & Hshown & Htitles & Hdrawn); [|done|].
  { eapply Forall_impl; [exact Hbefore|]. intros field (labels & ? & ?).
    exists labels. by rewrite length_fmap, length_seq. }
  split.
  - by rewrite plot_fields_shown_spec, Hshown.
  - exists shown. by split_and!.
Qed.

End Notebook.

Lemma umap_cell_draws_every_field_witness :
  let reduced := NDArray 3 2 (item example_features) in
  (first_columns 0 2 example_features = Ok reduced
   ∧ shape1 reduced = 2
   ∧ Forall (λ field, ∃ labels,
               lookup_labels field (md_columns example_metadata) = Some labels
               ∧ length labels = shape0 reduced) metadata_fields)
  ∧ ∃ plots,
      umap_cell first_columns 1%Z example_metadata example_features = Ok plots
      ∧ hp_legend_title <$> plots
        = ["Metadata_Plate"; "Metadata_Well"; "Metadata_Frame"; "Metadata_Gene"].
Proof.
  intros reduced.
  assert (H1 : first_columns 0 2 example_features = Ok reduced) by reflexivity.
  assert (H2 : shape1 reduced = 2) by reflexivity.
  assert (H3 : Forall (λ field, ∃ labels,
                 lookup_labels field (md_columns example_metadata) = Some labels
                 ∧ length labels = shape0 reduced) metadata_fields)
    by (repeat constructor; eexists; split; reflexivity).
  split; [by split_and!|].
  destruct (umap_cell_draws_every_field first_columns 1%Z example_metadata
              example_features reduced H1 H2 H3)
    as (plots & Hcell & Htitles & _).
  by exists plots.
Defined.

Lemma umap_cell_missing_field_witness :
  let reduced := NDArray 3 2 (item example_features) in
  let metadata :=
    MetadataFrame [2; 0; 1] [("Metadata_Plate", ["LT0001"; "LT0001"; "LT0002"])] in
  (first_columns 0 2 example_features = Ok reduced
   ∧ shape1 reduced = 2
   ∧ metadata_fields
     = ["Metadata_Plate"] ++ "Metadata_Well" :: ["Metadata_Frame"; "Metadata_Gene"]
   ∧ Forall (λ field, ∃ labels,
               lookup_labels field (md_columns metadata) = Some labels
               ∧ length labels = shape0 reduced) ["Metadata_Plate"]
   ∧ lookup_labels "Metadata_Well" (md_columns metadata) = None)
  ∧ umap_cell first_columns 1%Z metadata example_features = Raise KeyError
  ∧ ∃ shown,
      umap_cell_shown first_columns 1%Z metadata example_features
      = (shown, Some KeyError)
      ∧ hp_legend_title <$> shown = ["Metadata_Plate"].
Proof.
  intros reduced metadata.
  assert (H1 : first_columns 0 2 example_features = Ok reduced) by reflexivity.
  assert (H2 : shape1 reduced = 2) by reflexivity.
  assert (H3 : metadata_fields
               = ["Metadata_Plate"]
                 ++ "Metadata_Well" :: ["Metadata_Frame"; "Metadata_Gene"])
    by reflexivity.
  assert (H4 : Forall (λ field, ∃ labels,
                 lookup_labels field (md_columns metadata) = Some labels
                 ∧ length labels = shape0 reduced) ["Metadata_Plate"])
    by (repeat constructor; eexists; split; reflexivity).
  assert (H5 : lookup_labels "Metadata_Well" (md_columns metadata) = None)
    by reflexivity.
  split; [by split_and!|].
  destruct (umap_cell_missing_field first_columns 1%Z metadata example_features
              reduced _ _ _ H1 H2 H3 H4 H5)
    as (Hraise & shown & Hshown & Htitles & _).
  split; [exact Hraise|]. by exists shown.
Defined.

End NotebookFacts.
